(** * Attendance administration for SMPN 28: floor rosters, attendance
      records, summaries and reports.

    A shallow embedding of the server handlers
    ([handlers/attendance.ts], [handlers/student_management.ts]), of the
    schema they work on ([schema.ts], [db/schema.ts]) and of the saving
    logic of the client ([AttendanceManagement.tsx],
    [StudentManagement.tsx]), followed by the properties proved of them. *)

From Stdlib Require Import List String Ascii Bool Arith ZArith Lia DecimalString.
From Stdlib Require Import Permutation.
Import ListNotations.
Open Scope string_scope.

(* ===================================================================== *)
(** * 1. Schema ([schema.ts], [db/schema.ts])                            *)
(* ===================================================================== *)

(** [z.enum(['7', '8', '9'])] *)
Inductive ClassLevel : Set := L7 | L8 | L9.

(** [z.enum(['A', 'B', 'C', 'D', 'E', 'F', 'G'])] *)
Inductive ClassSection : Set := A | B | C | D | E | F | G.

(** [z.enum(['2', '3', '4'])] *)
Inductive Floor : Set := F2 | F3 | F4.

(** [z.enum(['present', 'sick', 'permission', 'absent'])] *)
Inductive AttendanceStatus : Set := Present | Sick | Permission | Absent.

(** The enums are strings at run time; these are the strings. *)
Definition ClassLevel_str (l : ClassLevel) : string :=
  match l with L7 => "7" | L8 => "8" | L9 => "9" end.

Definition ClassSection_str (s : ClassSection) : string :=
  match s with
  | A => "A" | B => "B" | C => "C" | D => "D" | E => "E" | F => "F" | G => "G"
  end.

Definition Floor_str (f : Floor) : string :=
  match f with F2 => "2" | F3 => "3" | F4 => "4" end.

Definition AttendanceStatus_str (s : AttendanceStatus) : string :=
  match s with
  | Present => "present" | Sick => "sick"
  | Permission => "permission" | Absent => "absent"
  end.

Definition ClassLevel_eqb (a b : ClassLevel) : bool :=
  match a, b with L7, L7 | L8, L8 | L9, L9 => true | _, _ => false end.

Definition ClassSection_eqb (a b : ClassSection) : bool :=
  match a, b with
  | A, A | B, B | C, C | D, D | E, E | F, F | G, G => true
  | _, _ => false
  end.

(** A [Date] is a point in time, in milliseconds since the epoch. *)
Definition Date := Z.

(** An optional property of a JavaScript object: absent ([undefined]) or
    there.  A nullable value is an [option], [None] being [null]. *)
Inductive optional (T : Type) : Type :=
| undefined : optional T
| defined : T -> optional T.
Arguments undefined {T}.
Arguments defined {T} _.

Module Teacher.
Record t : Set := mk {
  id : nat;
  name : string;
  nip : string;
  user_id : option nat;
  created_at : Date;
  updated_at : Date
}.
End Teacher.

Module Student.
Record t : Set := mk {
  id : nat;
  name : string;
  class_level : ClassLevel;
  class_section : ClassSection;
  created_at : Date;
  updated_at : Date
}.
End Student.

Module DutySchedule.
Record t : Set := mk {
  id : nat;
  teacher_id : nat;
  duty_date : Date;
  floor : Floor;
  created_at : Date;
  updated_at : Date
}.
End DutySchedule.

Module AttendanceRecord.
Record t : Set := mk {
  id : nat;
  duty_schedule_id : nat;
  student_id : nat;
  status : AttendanceStatus;
  is_late : bool;
  notes : option string;
  created_at : Date;
  updated_at : Date
}.
End AttendanceRecord.

(** [createAttendanceRecordInputSchema]: [notes] is
    [z.string().nullable().optional()]. *)
Module CreateAttendanceRecordInput.
Record t : Set := mk {
  duty_schedule_id : nat;
  student_id : nat;
  status : AttendanceStatus;
  is_late : bool;
  notes : optional (option string)
}.
End CreateAttendanceRecordInput.

(** [updateAttendanceRecordInputSchema]: all but [id] are optional. *)
Module UpdateAttendanceRecordInput.
Record t : Set := mk {
  id : nat;
  status : optional AttendanceStatus;
  is_late : optional bool;
  notes : optional (option string)
}.
End UpdateAttendanceRecordInput.

(** The summary object built by [getAttendanceSummary]. *)
Module AttendanceSummary.
Record t : Set := mk {
  total : nat;
  present : nat;
  sick : nat;
  permission : nat;
  absent : nat;
  late : nat
}.
End AttendanceSummary.

(* ===================================================================== *)
(** * 2. The store and the handler monad                                 *)
(* ===================================================================== *)

(** The tables the handlers read and write.  A table is the list of its
    rows, in the order a [select] returns them; [attendance_records_id_seq]
    is the sequence behind the [serial] primary key of
    [attendance_records]. *)
Record Db : Set := mkDb {
  teachersTable : list Teacher.t;
  studentsTable : list Student.t;
  dutySchedulesTable : list DutySchedule.t;
  attendanceRecordsTable : list AttendanceRecord.t;
  attendance_records_id_seq : nat
}.

(** What a handler call comes to: it returns, or it throws
    [new Error(msg)]. *)
Inductive outcome (T : Type) : Type :=
| Returned : T -> outcome T
| Thrown : string -> outcome T.
Arguments Returned {T} _.
Arguments Thrown {T} _.

(** A handler is a function of the store that gives an outcome and the
    store it leaves.  Every handler body is wrapped in
    [try { ... } catch (error) { console.error(...); throw error; }],
    which passes both outcomes on as they are. *)
Definition handler (T : Type) : Type := Db -> outcome T * Db.

Definition ret {T} (x : T) : handler T := fun db => (Returned x, db).

Definition throw {T} (msg : string) : handler T := fun db => (Thrown msg, db).

Definition bind {T U} (m : handler T) (k : T -> handler U) : handler U :=
  fun db =>
    match m db with
    | (Returned x, db') => k x db'
    | (Thrown e, db') => (Thrown e, db')
    end.

Notation "x <- m ;; k" := (bind m (fun x => k))
  (at level 61, m at next level, right associativity).

(** [db.select().from(table).where(cond).execute()] *)
Definition select {R} (table : Db -> list R) (cond : R -> bool)
  : handler (list R) :=
  fun db => (Returned (filter cond (table db)), db).

(** [from(left).innerJoin(right, on)]: the pairs of rows that match,
    each pair once.  (The list enumerates them; the order in which a
    query returns them is the [row_order] of [select_join].) *)
Definition innerJoin {L R} (left : list L) (right : list R)
    (on : L -> R -> bool) : list (L * R) :=
  flat_map (fun l => map (pair l) (filter (on l) right)) left.

(** The order in which the database returns the rows of a join.  The
    queries of the handlers have no [orderBy], and the order of a join is
    that of the plan the database chooses (the rows of either table
    first): it is given to the model, which asks only that it
    [rearranges] the rows. *)
Definition row_order : Type := forall R : Type, list R -> list R.

Definition rearranges (order : row_order) : Prop :=
  forall (R : Type) (rows : list R), Permutation (order R rows) rows.

(** The order of the enumeration itself. *)
Definition as_listed : row_order := fun _ rows => rows.

(** [db.select().from(left).innerJoin(right, on).where(cond).execute()],
    the rows returned in the order [order]. *)
Definition select_join {L R} (order : row_order)
    (left : Db -> list L) (right : Db -> list R)
    (on : L -> R -> bool) (cond : L * R -> bool) : handler (list (L * R)) :=
  fun db =>
    (Returned (order _ (filter cond (innerJoin (left db) (right db) on))), db).

(** [array[0]], which is [undefined] on the empty array. *)
Definition item0 {R} (array : list R) : optional R :=
  match array with
  | [] => undefined
  | x :: _ => defined x
  end.

(* ===================================================================== *)
(** * 3. [getAttendanceSummary] ([handlers/attendance.ts])               *)
(* ===================================================================== *)

Import AttendanceSummary.

(** The body of [records.forEach(record => { switch ... if ... })]: one
    record's update of the [summary] object. *)
Definition count_record (summary : AttendanceSummary.t)
    (record : AttendanceRecord.t) : AttendanceSummary.t :=
  let summary :=
    match AttendanceRecord.status record with
    | Present =>
        mk (total summary) (S (present summary)) (sick summary)
           (permission summary) (absent summary) (late summary)
    | Sick =>
        mk (total summary) (present summary) (S (sick summary))
           (permission summary) (absent summary) (late summary)
    | Permission =>
        mk (total summary) (present summary) (sick summary)
           (S (permission summary)) (absent summary) (late summary)
    | Absent =>
        mk (total summary) (present summary) (sick summary)
           (permission summary) (S (absent summary)) (late summary)
    end in
  if AttendanceRecord.is_late record then
    mk (total summary) (present summary) (sick summary)
       (permission summary) (absent summary) (S (late summary))
  else summary.

(** The summary of a list of records: the initial object, then the
    [forEach]. *)
Definition summarize (records : list AttendanceRecord.t) : AttendanceSummary.t :=
  fold_left count_record records (mk (List.length records) 0 0 0 0 0).

Definition getAttendanceSummary (dutyScheduleId : nat)
  : handler AttendanceSummary.t :=
  records <- select attendanceRecordsTable
      (fun r => Nat.eqb (AttendanceRecord.duty_schedule_id r) dutyScheduleId) ;;
  ret (summarize records).

(** Counting the records of a list that satisfy a test. *)
Definition count (p : AttendanceRecord.t -> bool)
    (records : list AttendanceRecord.t) : nat :=
  List.length (filter p records).

Definition has_status (s : AttendanceStatus) (r : AttendanceRecord.t) : bool :=
  match AttendanceRecord.status r, s with
  | Present, Present | Sick, Sick
  | Permission, Permission | Absent, Absent => true
  | _, _ => false
  end.

(* ===================================================================== *)
(** * 4. Floor rosters ([handlers/student_management.ts])                *)
(* ===================================================================== *)

(** The conditions that [getStudentsByFloor] builds with drizzle's
    [eq], [inArray], [and] and [or] over the columns of [studentsTable]. *)
Inductive SQL : Set :=
| eq_class_level (v : ClassLevel)
| eq_class_section (v : ClassSection)
| inArray_class_section (vs : list ClassSection)
| and_ (a b : SQL)
| or_ (a b : SQL).

(** What a condition says of a row of [studentsTable]. *)
Fixpoint holds (c : SQL) (s : Student.t) : bool :=
  match c with
  | eq_class_level v => ClassLevel_eqb (Student.class_level s) v
  | eq_class_section v => ClassSection_eqb (Student.class_section s) v
  | inArray_class_section vs =>
      existsb (ClassSection_eqb (Student.class_section s)) vs
  | and_ a b => holds a s && holds b s
  | or_ a b => holds a s || holds b s
  end.

(** The [switch (floor)]: the [conditions] array after it, or the error of
    its [default] case. *)
Definition floor_conditions (floor : string) : outcome (list SQL) :=
  if floor =? "2" then
    (* Grade 9, sections A-F *)
    Returned [and_ (eq_class_level L9)
                   (inArray_class_section [A; B; C; D; E; F])]
  else if floor =? "3" then
    (* Grade 8 sections A-F, OR Grade 9 section G *)
    Returned [or_ (and_ (eq_class_level L8)
                        (inArray_class_section [A; B; C; D; E; F]))
                  (and_ (eq_class_level L9) (eq_class_section G))]
  else if floor =? "4" then
    (* Grade 7 sections A-G, OR Grade 8 section G *)
    Returned [or_ (and_ (eq_class_level L7)
                        (inArray_class_section [A; B; C; D; E; F; G]))
                  (and_ (eq_class_level L8) (eq_class_section G))]
  else
    Thrown ("Invalid floor: " ++ floor ++ ". Valid floors are 2, 3, 4").

(** [.where(conditions[0])]; a [where(undefined)] filters nothing. *)
Definition where_ (c : optional SQL) (s : Student.t) : bool :=
  match c with
  | defined c => holds c s
  | undefined => true
  end.

Definition getStudentsByFloor (floor : string) : handler (list Student.t) :=
  match floor_conditions floor with
  | Thrown e => throw e
  | Returned conditions => select studentsTable (where_ (item0 conditions))
  end.

(** The roster predicate of a floor: the condition its query filters
    with, and nothing where the query throws. *)
Definition on_floor (floor : string) (s : Student.t) : bool :=
  match floor_conditions floor with
  | Thrown _ => false
  | Returned conditions => where_ (item0 conditions) s
  end.

(** [array.includes(x)] on strings. *)
Definition includes (array : list string) (x : string) : bool :=
  existsb (String.eqb x) array.

(** [getFloorByClass] of [StudentManagement.tsx], on the strings it gets
    at run time. *)
Definition getFloorByClass (classLevel classSection : string) : string :=
  let classCode := classLevel ++ classSection in
  if (classLevel =? "9")
     && includes ["A"; "B"; "C"; "D"; "E"; "F"] classSection then
    "Lantai 2"
  else if ((classLevel =? "8")
           && includes ["A"; "B"; "C"; "D"; "E"; "F"] classSection)
          || (classCode =? "9G") then
    "Lantai 3"
  else if (classLevel =? "7") || (classCode =? "8G") then
    "Lantai 4"
  else
    "Tidak diketahui".

(** The label [getFloorByClass] gives each floor. *)
Definition floor_label (floor : string) : string := "Lantai " ++ floor.

(* ===================================================================== *)
(** * 5. Attendance records ([handlers/attendance.ts])                   *)
(* ===================================================================== *)

(** [s || null] for a string that may be [null] or absent: the empty
    string is falsy. *)
Definition or_null (s : optional (option string)) : option string :=
  match s with
  | defined (Some v) => if v =? "" then None else Some v
  | defined None => None
  | undefined => None
  end.

(** [db.insert(attendanceRecordsTable).values({...}).returning().execute()]
    followed by [result[0]]: the row gets the next value of the [serial]
    sequence and [defaultNow()] in both timestamps, is added to the table,
    and is the one row returned. *)
Definition insert_attendance_record (now : Date)
    (duty_schedule_id student_id : nat) (status : AttendanceStatus)
    (is_late : bool) (notes : option string) : handler AttendanceRecord.t :=
  fun db =>
    let row :=
      AttendanceRecord.mk (attendance_records_id_seq db)
        duty_schedule_id student_id status is_late notes now now in
    (Returned row,
     mkDb (teachersTable db) (studentsTable db) (dutySchedulesTable db)
          (attendanceRecordsTable db ++ [row])%list
          (S (attendance_records_id_seq db))).

Definition createAttendanceRecord (now : Date)
    (input : CreateAttendanceRecordInput.t) : handler AttendanceRecord.t :=
  (* Verify duty schedule exists *)
  dutySchedule <- select dutySchedulesTable
      (fun d => Nat.eqb (DutySchedule.id d)
                  (CreateAttendanceRecordInput.duty_schedule_id input)) ;;
  if Nat.eqb (List.length dutySchedule) 0 then
    throw "Duty schedule not found"
  else
    (* Verify student exists *)
    student <- select studentsTable
        (fun s => Nat.eqb (Student.id s)
                    (CreateAttendanceRecordInput.student_id input)) ;;
    if Nat.eqb (List.length student) 0 then
      throw "Student not found"
    else
      (* Insert attendance record *)
      insert_attendance_record now
        (CreateAttendanceRecordInput.duty_schedule_id input)
        (CreateAttendanceRecordInput.student_id input)
        (CreateAttendanceRecordInput.status input)
        (CreateAttendanceRecordInput.is_late input)
        (or_null (CreateAttendanceRecordInput.notes input)).

(** [Partial<typeof attendanceRecordsTable.$inferInsert>], as far as
    [updateAttendanceRecord] fills it. *)
Module UpdateData.
Record t : Set := mk {
  status : optional AttendanceStatus;
  is_late : optional bool;
  notes : optional (option string);
  updated_at : optional Date
}.
End UpdateData.

(** A property of the update object, or the row's own value where the
    object does not have it. *)
Definition or_keep {T} (o : optional T) (old : T) : T :=
  match o with
  | defined v => v
  | undefined => old
  end.

(** [.set(updateData)] on one row. *)
Definition set_row (updateData : UpdateData.t) (r : AttendanceRecord.t)
  : AttendanceRecord.t :=
  AttendanceRecord.mk
    (AttendanceRecord.id r)
    (AttendanceRecord.duty_schedule_id r)
    (AttendanceRecord.student_id r)
    (or_keep (UpdateData.status updateData) (AttendanceRecord.status r))
    (or_keep (UpdateData.is_late updateData) (AttendanceRecord.is_late r))
    (or_keep (UpdateData.notes updateData) (AttendanceRecord.notes r))
    (AttendanceRecord.created_at r)
    (or_keep (UpdateData.updated_at updateData) (AttendanceRecord.updated_at r)).

(** [db.update(attendanceRecordsTable).set(updateData).where(cond)
    .returning().execute()].  The database writes the new version of a
    row after the rows the table has: a [select] that follows returns the
    rows left alone first, in their order, and then the updated ones. *)
Definition update_attendance_records (updateData : UpdateData.t)
    (cond : AttendanceRecord.t -> bool) : handler (list AttendanceRecord.t) :=
  fun db =>
    let updated :=
      map (set_row updateData) (filter cond (attendanceRecordsTable db)) in
    (Returned updated,
     mkDb (teachersTable db) (studentsTable db) (dutySchedulesTable db)
          (filter (fun r => negb (cond r)) (attendanceRecordsTable db)
             ++ updated)%list
          (attendance_records_id_seq db)).

(** The update object: [updated_at] always, the others where the input
    has them. *)
Definition build_updateData (now : Date) (input : UpdateAttendanceRecordInput.t)
  : UpdateData.t :=
  let updateData := UpdateData.mk undefined undefined undefined (defined now) in
  let updateData :=
    match UpdateAttendanceRecordInput.status input with
    | defined v =>
        UpdateData.mk (defined v) (UpdateData.is_late updateData)
          (UpdateData.notes updateData) (UpdateData.updated_at updateData)
    | undefined => updateData
    end in
  let updateData :=
    match UpdateAttendanceRecordInput.is_late input with
    | defined v =>
        UpdateData.mk (UpdateData.status updateData) (defined v)
          (UpdateData.notes updateData) (UpdateData.updated_at updateData)
    | undefined => updateData
    end in
  match UpdateAttendanceRecordInput.notes input with
  | defined v =>
      UpdateData.mk (UpdateData.status updateData)
        (UpdateData.is_late updateData) (defined v)
        (UpdateData.updated_at updateData)
  | undefined => updateData
  end.

Definition updateAttendanceRecord (now : Date)
    (input : UpdateAttendanceRecordInput.t)
  : handler (optional AttendanceRecord.t) :=
  (* Check if record exists *)
  existing <- select attendanceRecordsTable
      (fun r => Nat.eqb (AttendanceRecord.id r)
                  (UpdateAttendanceRecordInput.id input)) ;;
  if Nat.eqb (List.length existing) 0 then
    throw "Attendance record not found"
  else
    (* Build update object with only provided fields *)
    let updateData := build_updateData now input in
    (* Update record *)
    result <- update_attendance_records updateData
        (fun r => Nat.eqb (AttendanceRecord.id r)
                    (UpdateAttendanceRecordInput.id input)) ;;
    ret (item0 result).

(** What a call of [updateAttendanceRecord] at the time [now] may make of
    a row: [new] stands for [old] when it has its [id],
    [duty_schedule_id], [student_id] and [created_at]; is [old] itself
    when [old] is not the record of the input; and, when it is, has each
    of [status], [is_late], [notes] as [old] has it where the input
    leaves it out, as the input gives it where it does, and [now] for
    [updated_at]. *)
Definition stands_for (now : Date) (input : UpdateAttendanceRecordInput.t)
    (old new : AttendanceRecord.t) : Prop :=
  AttendanceRecord.id new = AttendanceRecord.id old /\
  AttendanceRecord.duty_schedule_id new
  = AttendanceRecord.duty_schedule_id old /\
  AttendanceRecord.student_id new = AttendanceRecord.student_id old /\
  AttendanceRecord.created_at new = AttendanceRecord.created_at old /\
  (AttendanceRecord.id old <> UpdateAttendanceRecordInput.id input ->
   new = old) /\
  (AttendanceRecord.id old = UpdateAttendanceRecordInput.id input ->
   (UpdateAttendanceRecordInput.status input = undefined ->
    AttendanceRecord.status new = AttendanceRecord.status old) /\
   (UpdateAttendanceRecordInput.is_late input = undefined ->
    AttendanceRecord.is_late new = AttendanceRecord.is_late old) /\
   (UpdateAttendanceRecordInput.notes input = undefined ->
    AttendanceRecord.notes new = AttendanceRecord.notes old) /\
   (forall v, UpdateAttendanceRecordInput.status input = defined v ->
              AttendanceRecord.status new = v) /\
   (forall v, UpdateAttendanceRecordInput.is_late input = defined v ->
              AttendanceRecord.is_late new = v) /\
   (forall v, UpdateAttendanceRecordInput.notes input = defined v ->
              AttendanceRecord.notes new = v) /\
   AttendanceRecord.updated_at new = now).

Definition getAttendanceByDutySchedule (dutyScheduleId : nat)
  : handler (list AttendanceRecord.t) :=
  select attendanceRecordsTable
    (fun r => Nat.eqb (AttendanceRecord.duty_schedule_id r) dutyScheduleId).

(** The references of an attendance record: a row of [duty_schedules]
    and a row of [students] with the ids given. *)
Definition has_duty_schedule (db : Db) (id : nat) : Prop :=
  exists d, In d (dutySchedulesTable db) /\ DutySchedule.id d = id.

Definition has_student (db : Db) (id : nat) : Prop :=
  exists s, In s (studentsTable db) /\ Student.id s = id.

Definition has_attendance_record (db : Db) (id : nat) : Prop :=
  exists r, In r (attendanceRecordsTable db) /\ AttendanceRecord.id r = id.

(** The rows of [attendance_records] of one duty schedule, in the order
    of the table. *)
Definition entries_of (dutyScheduleId : nat) (db : Db)
  : list AttendanceRecord.t :=
  filter (fun r => Nat.eqb (AttendanceRecord.duty_schedule_id r) dutyScheduleId)
    (attendanceRecordsTable db).

(* ===================================================================== *)
(** * 6. [generateAttendanceReport] ([handlers/attendance.ts])           *)
(* ===================================================================== *)

(** The line feed of ['\n']. *)
Definition LF : string := String (ascii_of_nat 10) EmptyString.

(** The lines of a text, as [text.split('\n')] gives them. *)
Fixpoint lines (text : string) : list string :=
  match text with
  | EmptyString => [""]
  | String c rest =>
      if Ascii.eqb c (ascii_of_nat 10) then "" :: lines rest
      else
        match lines rest with
        | l :: ls => String c l :: ls
        | [] => [String c ""]
        end
  end.

(** A string without a line feed. *)
Fixpoint no_LF (s : string) : bool :=
  match s with
  | EmptyString => true
  | String c rest => negb (Ascii.eqb c (ascii_of_nat 10)) && no_LF rest
  end.

(** A number in a template literal: its decimal digits. *)
Definition Number_toString (n : nat) : string :=
  NilZero.string_of_uint (Nat.to_uint n).

(** A nullable string in a condition: [null] and the empty string are
    falsy. *)
Definition truthy (s : option string) : bool :=
  match s with
  | Some v => negb (v =? "")
  | None => false
  end.

(** The string a nullable string gives in a template literal that is
    reached only when it is truthy. *)
Definition template (s : option string) : string :=
  match s with
  | Some v => v
  | None => "null"
  end.

(** The line pushed for one row of [attendanceData]. *)
Definition detail_line (record : AttendanceRecord.t * Student.t) : string :=
  let student := snd record in
  let attendance := fst record in
  Student.name student ++ " ("
    ++ ClassLevel_str (Student.class_level student)
    ++ ClassSection_str (Student.class_section student) ++ ") - "
    ++ AttendanceStatus_str (AttendanceRecord.status attendance)
    ++ (if AttendanceRecord.is_late attendance then " (Late)" else "")
    ++ (if truthy (AttendanceRecord.notes attendance)
        then " - " ++ template (AttendanceRecord.notes attendance)
        else "").

(** The sixteen lines [reportContent] starts with. *)
Definition report_head (toDateString : Date -> string)
    (duty : DutySchedule.t * Teacher.t) (summary : AttendanceSummary.t)
  : list string :=
  [ "ATTENDANCE REPORT";
    "================";
    "Teacher: " ++ Teacher.name (snd duty) ++ " (" ++ Teacher.nip (snd duty) ++ ")";
    "Date: " ++ toDateString (DutySchedule.duty_date (fst duty));
    "Floor: " ++ Floor_str (DutySchedule.floor (fst duty));
    "";
    "SUMMARY:";
    "Total Students: " ++ Number_toString (total summary);
    "Present: " ++ Number_toString (present summary);
    "Sick: " ++ Number_toString (sick summary);
    "Permission: " ++ Number_toString (permission summary);
    "Absent: " ++ Number_toString (absent summary);
    "Late: " ++ Number_toString (late summary);
    "";
    "DETAILED LIST:";
    "==============" ].

(** [attendanceData.forEach(record => reportContent.push(...))] *)
Definition push_details (reportContent : list string)
    (attendanceData : list (AttendanceRecord.t * Student.t)) : list string :=
  fold_left (fun content record => (content ++ [detail_line record])%list)
    attendanceData reportContent.

(** The handler; [toDateString] is [Date.prototype.toDateString], [order]
    the order in which the database returns the rows of the two joins,
    and the [Buffer] returned is given as the text it holds. *)
Definition generateAttendanceReport (toDateString : Date -> string)
    (order : row_order) (duty_schedule_id : nat) : handler string :=
  (* Get duty schedule with teacher info *)
  dutyInfo <- select_join order dutySchedulesTable teachersTable
      (fun d t => Nat.eqb (DutySchedule.teacher_id d) (Teacher.id t))
      (fun dt => Nat.eqb (DutySchedule.id (fst dt)) duty_schedule_id) ;;
  match dutyInfo with
  | [] => throw "Duty schedule not found"
  | duty :: _ =>
      (* Get attendance records with student info *)
      attendanceData <- select_join order attendanceRecordsTable studentsTable
          (fun a s => Nat.eqb (AttendanceRecord.student_id a) (Student.id s))
          (fun rs => Nat.eqb (AttendanceRecord.duty_schedule_id (fst rs))
                       duty_schedule_id) ;;
      (* Get summary data *)
      summary <- getAttendanceSummary duty_schedule_id ;;
      let reportContent := report_head toDateString duty summary in
      let reportContent := push_details reportContent attendanceData in
      ret (String.concat LF reportContent)
  end.

(* ===================================================================== *)
(** * 7. Saving attendance on the client ([AttendanceManagement.tsx])    *)
(* ===================================================================== *)

(** The state of the [AttendanceManagement] component that its saving
    code reads and writes (the messages and the [isSaving] flag are left
    out: nothing is decided on them). *)
Module Client.
Record t : Set := mk {
  schedules : list DutySchedule.t;
  selectedSchedule : option DutySchedule.t;
  students : list Student.t;
  attendanceRecords : list AttendanceRecord.t
}.
End Client.

(** The component as it is mounted: the [useState] initial values, and
    the schedules [loadSchedules] has set. *)
Definition initial (schedules : list DutySchedule.t) : Client.t :=
  Client.mk schedules None [] [].

(** [attendanceRecords.find(record => record.student_id === studentId)
    || null] *)
Definition getAttendanceRecord (st : Client.t) (studentId : nat)
  : option AttendanceRecord.t :=
  find (fun record => Nat.eqb (AttendanceRecord.student_id record) studentId)
    (Client.attendanceRecords st).

(** [notes || null] for the optional string parameter [notes]. *)
Definition notes_or_null (notes : optional string) : option string :=
  match notes with
  | defined v => if v =? "" then None else Some v
  | undefined => None
  end.

(** [handleAttendanceChange]: the component state and the store after
    one save; a call that throws is caught and leaves the records of the
    component as they were. *)
Definition handleAttendanceChange (now : Date) (studentId : nat)
    (status : AttendanceStatus) (isLate : bool) (notes : optional string)
    (st : Client.t) (db : Db) : Client.t * Db :=
  match Client.selectedSchedule st with
  | None => (st, db)
  | Some selectedSchedule =>
      match getAttendanceRecord st studentId with
      | Some existingRecord =>
          (* Update existing record *)
          let updateData :=
            UpdateAttendanceRecordInput.mk (AttendanceRecord.id existingRecord)
              (defined status) (defined isLate)
              (defined (notes_or_null notes)) in
          match updateAttendanceRecord now updateData db with
          | (Returned (defined updatedRecord), db') =>
              (Client.mk (Client.schedules st) (Client.selectedSchedule st)
                 (Client.students st)
                 (map (fun record =>
                         if Nat.eqb (AttendanceRecord.id record)
                                    (AttendanceRecord.id updatedRecord)
                         then updatedRecord else record)
                      (Client.attendanceRecords st)),
               db')
          | (Returned undefined, db') => (st, db')
          | (Thrown _, db') => (st, db')
          end
      | None =>
          (* Create new record *)
          let createData :=
            CreateAttendanceRecordInput.mk (DutySchedule.id selectedSchedule)
              studentId status isLate (defined (notes_or_null notes)) in
          match createAttendanceRecord now createData db with
          | (Returned newRecord, db') =>
              (Client.mk (Client.schedules st) (Client.selectedSchedule st)
                 (Client.students st)
                 (Client.attendanceRecords st ++ [newRecord])%list,
               db')
          | (Thrown _, db') => (st, db')
          end
      end
  end.

(** [loadStudentsAndAttendance] when both queries get their answers:
    both setters; when a handler throws, neither.  (A query that gets no
    answer at all is caught in the same way and sets nothing: the
    component is left as it is, and no [Loaded] event of [step] below
    stands for it.) *)
Definition loadStudentsAndAttendance (schedule : DutySchedule.t)
    (st : Client.t) (db : Db) : Client.t * Db :=
  match getStudentsByFloor (Floor_str (DutySchedule.floor schedule)) db with
  | (Returned studentsResult, db1) =>
      match getAttendanceByDutySchedule (DutySchedule.id schedule) db1 with
      | (Returned attendanceResult, db2) =>
          (Client.mk (Client.schedules st) (Client.selectedSchedule st)
             studentsResult attendanceResult, db2)
      | (Thrown _, db2) => (st, db2)
      end
  | (Thrown _, db1) => (st, db1)
  end.

(** [handleScheduleChange]: the schedule is looked up by the string of
    its id and becomes the selected one; the students and the records of
    the component stay those it had. *)
Definition handleScheduleChange (scheduleId : string) (st : Client.t)
  : Client.t :=
  let schedule :=
    find (fun s => Number_toString (DutySchedule.id s) =? scheduleId)
      (Client.schedules st) in
  Client.mk (Client.schedules st) schedule (Client.students st)
    (Client.attendanceRecords st).

(** The effect on [selectedSchedule]:
    [if (selectedSchedule) loadStudentsAndAttendance(selectedSchedule)]. *)
Definition load_effect (st : Client.t) (db : Db) : Client.t * Db :=
  match Client.selectedSchedule st with
  | Some selectedSchedule => loadStudentsAndAttendance selectedSchedule st db
  | None => (st, db)
  end.

(** What happens in the component: the teacher saves a row or selects a
    schedule, and the load that the effect started for the selected
    schedule comes back with its answers.  The load is asynchronous: a
    save can come between a [Select] and its [Loaded], and a load that
    fails never gives a [Loaded]. *)
Inductive event : Set :=
| Save (now : Date) (studentId : nat) (status : AttendanceStatus)
       (isLate : bool) (notes : optional string)
| Select (scheduleId : string)
| Loaded.

Definition step (e : event) (s : Client.t * Db) : Client.t * Db :=
  match e with
  | Save now studentId status isLate notes =>
      handleAttendanceChange now studentId status isLate notes (fst s) (snd s)
  | Select scheduleId => (handleScheduleChange scheduleId (fst s), snd s)
  | Loaded => load_effect (fst s) (snd s)
  end.

(** A sequence of events, the first of the list first. *)
Definition run (es : list event) (s : Client.t * Db) : Client.t * Db :=
  fold_left (fun s e => step e s) es s.

(** The sequences in which every selection is followed at once by its
    load: [loading] tells that a [Select] has just been seen. *)
Fixpoint settled_from (loading : bool) (es : list event) : bool :=
  match es with
  | [] => negb loading
  | Loaded :: es' => settled_from false es'
  | Select _ :: es' => if loading then false else settled_from true es'
  | Save _ _ _ _ _ :: es' => if loading then false else settled_from false es'
  end.

Definition settled (es : list event) : bool := settled_from false es.

(** The records of the store are keyed by [id]: no two rows share one,
    and the sequence is ahead of all of them. *)
Definition primary_key (db : Db) : Prop :=
  NoDup (map AttendanceRecord.id (attendanceRecordsTable db)) /\
  Forall (fun r => AttendanceRecord.id r < attendance_records_id_seq db)
    (attendanceRecordsTable db).

(** The pair a record is an entry for. *)
Definition entry_pair (r : AttendanceRecord.t) : nat * nat :=
  (AttendanceRecord.duty_schedule_id r, AttendanceRecord.student_id r).

(** At most one record for each pair of a duty schedule and a student:
    no pair comes twice in the table. *)
Definition one_entry_per_pair (records : list AttendanceRecord.t) : Prop :=
  NoDup (map entry_pair records).

(** The component shows the store: with a schedule selected, its records
    are those the store has for that schedule, each once, in whatever
    order (an update leaves the record in its place in the component, and
    not in the table). *)
Definition in_sync (st : Client.t) (db : Db) : Prop :=
  match Client.selectedSchedule st with
  | Some sel =>
      Permutation (Client.attendanceRecords st)
        (filter (fun r => Nat.eqb (AttendanceRecord.duty_schedule_id r)
                            (DutySchedule.id sel))
           (attendanceRecordsTable db))
  | None => True
  end.

(** What the saving code keeps true of the component and the store. *)
Definition inv (s : Client.t * Db) : Prop :=
  primary_key (snd s) /\ in_sync (fst s) (snd s) /\
  one_entry_per_pair (attendanceRecordsTable (snd s)).

(* ===================================================================== *)
(** * 8. A small store, as the handlers' tests set one up                *)
(* ===================================================================== *)

Module Sample.

Definition teacher1 : Teacher.t :=
  Teacher.mk 1 "Test Teacher" "123456789" (Some 1) 0%Z 0%Z.

Definition student1 : Student.t := Student.mk 1 "Test Student" L7 A 0%Z 0%Z.

Definition student2 : Student.t := Student.mk 2 "Test Student 2" L7 B 0%Z 0%Z.

Definition schedule1 : DutySchedule.t :=
  DutySchedule.mk 1 1 1705276800000%Z F2 0%Z 0%Z.

Definition record1 : AttendanceRecord.t :=
  AttendanceRecord.mk 1 1 1 Present true (Some "Test notes") 5%Z 5%Z.

Definition record2 : AttendanceRecord.t :=
  AttendanceRecord.mk 2 1 2 Absent false None 6%Z 6%Z.

(** The store before any attendance is recorded. *)
Definition db0 : Db := mkDb [teacher1] [student1; student2] [schedule1] [] 1.

(** The store with the attendance of both students recorded. *)
Definition db2 : Db :=
  mkDb [teacher1] [student1; student2] [schedule1] [record1; record2] 3.

(** The store with one record, whose notes have a line feed in them. *)
Definition db_note : Db :=
  mkDb [teacher1] [student1; student2] [schedule1]
       [AttendanceRecord.mk 1 1 1 Sick false
          (Some ("flu" ++ LF ++ "back on Monday")) 5%Z 5%Z] 2.

(** Two duties of the teacher on the floor of the two students, the
    fourth. *)
Definition schedule2 : DutySchedule.t :=
  DutySchedule.mk 2 1 1705363200000%Z F4 0%Z 0%Z.

Definition schedule3 : DutySchedule.t :=
  DutySchedule.mk 3 1 1705449600000%Z F4 0%Z 0%Z.

Definition week : list DutySchedule.t := [schedule1; schedule2; schedule3].

(** The store with the three duties, and the first student recorded for
    the third. *)
Definition db3 : Db :=
  mkDb [teacher1] [student1; student2] week
       [AttendanceRecord.mk 1 3 1 Present false None 5%Z 5%Z] 2.

End Sample.

(* ===================================================================== *)
(** * 9. The other handlers ([handlers/attendance.ts],
      [handlers/student_management.ts], [handlers/duty_schedule.ts])    *)
(* ===================================================================== *)

(** [db.delete(attendanceRecordsTable).where(cond).execute()] *)
Definition delete_attendance_records (cond : AttendanceRecord.t -> bool)
  : handler unit :=
  fun db =>
    (Returned tt,
     mkDb (teachersTable db) (studentsTable db) (dutySchedulesTable db)
          (filter (fun r => negb (cond r)) (attendanceRecordsTable db))
          (attendance_records_id_seq db)).

Definition deleteAttendanceRecord (id : nat) : handler bool :=
  (* Check if record exists *)
  existing <- select attendanceRecordsTable
      (fun r => Nat.eqb (AttendanceRecord.id r) id) ;;
  if Nat.eqb (List.length existing) 0 then
    ret false
  else
    (* Delete record *)
    _ <- delete_attendance_records
        (fun r => Nat.eqb (AttendanceRecord.id r) id) ;;
    ret true.

(** [createStudentInputSchema] *)
Module CreateStudentInput.
Record t : Set := mk {
  name : string;
  class_level : ClassLevel;
  class_section : ClassSection
}.
End CreateStudentInput.

(** [updateStudentInputSchema]: all but [id] are optional. *)
Module UpdateStudentInput.
Record t : Set := mk {
  id : nat;
  name : optional string;
  class_level : optional ClassLevel;
  class_section : optional ClassSection
}.
End UpdateStudentInput.

(** [createDutyScheduleInputSchema] *)
Module CreateDutyScheduleInput.
Record t : Set := mk {
  teacher_id : nat;
  duty_date : Date;
  floor : Floor
}.
End CreateDutyScheduleInput.

(** The store with the students table replaced. *)
Definition with_students (db : Db) (students : list Student.t) : Db :=
  mkDb (teachersTable db) students (dutySchedulesTable db)
       (attendanceRecordsTable db) (attendance_records_id_seq db).

(** The store with the duty schedules table replaced. *)
Definition with_duty_schedules (db : Db) (schedules : list DutySchedule.t)
  : Db :=
  mkDb (teachersTable db) (studentsTable db) schedules
       (attendanceRecordsTable db) (attendance_records_id_seq db).

(** [.set(updateData)] on one row of [students], the update object being
    the properties the input has, and [updated_at] always. *)
Definition set_student (now : Date) (input : UpdateStudentInput.t)
    (s : Student.t) : Student.t :=
  Student.mk
    (Student.id s)
    (or_keep (UpdateStudentInput.name input) (Student.name s))
    (or_keep (UpdateStudentInput.class_level input) (Student.class_level s))
    (or_keep (UpdateStudentInput.class_section input) (Student.class_section s))
    (Student.created_at s)
    now.

(** [db.update(studentsTable).set(updateData).where(cond).returning()
    .execute()]; as in [update_attendance_records], the updated rows come
    after the rows left alone. *)
Definition update_students (now : Date) (input : UpdateStudentInput.t)
    (cond : Student.t -> bool) : handler (list Student.t) :=
  fun db =>
    let updated :=
      map (set_student now input) (filter cond (studentsTable db)) in
    (Returned updated,
     with_students db
       (filter (fun s => negb (cond s)) (studentsTable db) ++ updated)%list).

(** [updateStudent]: the update first, the error when it changed no row. *)
Definition updateStudent (now : Date) (input : UpdateStudentInput.t)
  : handler Student.t :=
  result <- update_students now input
      (fun s => Nat.eqb (Student.id s) (UpdateStudentInput.id input)) ;;
  match result with
  | [] =>
      throw ("Student with id "
               ++ Number_toString (UpdateStudentInput.id input) ++ " not found")
  | updated :: _ => ret updated
  end.

(** What a call of [updateStudent] at the time [now] may make of a row:
    [new] stands for [old] when it has its [id] and [created_at]; is
    [old] itself when [old] is not the student of the input; and, when it
    is, has each of [name], [class_level], [class_section] as the input
    gives it or as [old] has it, and [now] for [updated_at]. *)
Definition student_stands_for (now : Date) (input : UpdateStudentInput.t)
    (old new : Student.t) : Prop :=
  Student.id new = Student.id old /\
  Student.created_at new = Student.created_at old /\
  (Student.id old <> UpdateStudentInput.id input -> new = old) /\
  (Student.id old = UpdateStudentInput.id input ->
   Student.name new
   = or_keep (UpdateStudentInput.name input) (Student.name old) /\
   Student.class_level new
   = or_keep (UpdateStudentInput.class_level input) (Student.class_level old) /\
   Student.class_section new
   = or_keep (UpdateStudentInput.class_section input)
       (Student.class_section old) /\
   Student.updated_at new = now).

Definition getStudents : handler (list Student.t) :=
  fun db => (Returned (studentsTable db), db).

(** [getStudentById]: the row, or [null]. *)
Definition getStudentById (id : nat) : handler (option Student.t) :=
  result <- select studentsTable (fun s => Nat.eqb (Student.id s) id) ;;
  match result with
  | [] => ret None
  | s :: _ => ret (Some s)
  end.

Definition getDutySchedulesByTeacher (teacherId : nat)
  : handler (list DutySchedule.t) :=
  select dutySchedulesTable
    (fun d => Nat.eqb (DutySchedule.teacher_id d) teacherId).

Definition getDutyScheduleById (id : nat) : handler (option DutySchedule.t) :=
  result <- select dutySchedulesTable (fun d => Nat.eqb (DutySchedule.id d) id) ;;
  match result with
  | [] => ret None
  | d :: _ => ret (Some d)
  end.

(** The rows of [students] and [duty_schedules] are referred to by
    [attendance_records] ([.references(() => studentsTable.id)],
    [.references(() => dutySchedulesTable.id)], with no [onDelete]): the
    database refuses a [delete] that would take a row away from under a
    record, and the handler passes the error on.  [violation] is the
    message of that error. *)
Definition deleteStudent (violation : string) (id : nat) : handler bool :=
  fun db =>
    let cond := fun s => Nat.eqb (Student.id s) id in
    let deleted := filter cond (studentsTable db) in
    if existsb (fun s => existsb (fun a => Nat.eqb (AttendanceRecord.student_id a)
                                             (Student.id s))
                           (attendanceRecordsTable db))
         deleted
    then (Thrown violation, db)
    else
      (Returned (negb (Nat.eqb (List.length deleted) 0)),
       with_students db (filter (fun s => negb (cond s)) (studentsTable db))).

Definition deleteDutySchedule (violation : string) (id : nat) : handler bool :=
  fun db =>
    let cond := fun d => Nat.eqb (DutySchedule.id d) id in
    let deleted := filter cond (dutySchedulesTable db) in
    if existsb (fun d => existsb (fun a => Nat.eqb
                                             (AttendanceRecord.duty_schedule_id a)
                                             (DutySchedule.id d))
                           (attendanceRecordsTable db))
         deleted
    then (Thrown violation, db)
    else
      (Returned (negb (Nat.eqb (List.length deleted) 0)),
       with_duty_schedules db
         (filter (fun d => negb (cond d)) (dutySchedulesTable db))).

(** The store with the sequences behind the [serial] keys of [students]
    and [duty_schedules], which the inserts of these tables draw on. *)
Record Store : Set := mkStore {
  tables : Db;
  students_id_seq : nat;
  duty_schedules_id_seq : nat
}.

(** The rows a multi-row insert into [students] makes of its values: ids
    from the sequence on, and [defaultNow()] in both timestamps. *)
Fixpoint student_rows (now : Date) (next : nat)
    (values : list CreateStudentInput.t) : list Student.t :=
  match values with
  | [] => []
  | v :: vs =>
      Student.mk next (CreateStudentInput.name v)
        (CreateStudentInput.class_level v) (CreateStudentInput.class_section v)
        now now
      :: student_rows now (S next) vs
  end.

(** [db.insert(studentsTable).values(values).returning().execute()] *)
Definition insert_students (now : Date) (values : list CreateStudentInput.t)
    (s : Store) : list Student.t * Store :=
  let rows := student_rows now (students_id_seq s) values in
  (rows,
   mkStore (with_students (tables s) (studentsTable (tables s) ++ rows)%list)
           (students_id_seq s + List.length values)
           (duty_schedules_id_seq s)).

(** [createStudent]: the insert of one row, and [result[0]], which is
    that row. *)
Definition createStudent (now : Date) (input : CreateStudentInput.t)
    (s : Store) : outcome Student.t * Store :=
  let row :=
    Student.mk (students_id_seq s) (CreateStudentInput.name input)
      (CreateStudentInput.class_level input)
      (CreateStudentInput.class_section input) now now in
  (Returned row,
   mkStore (with_students (tables s) (studentsTable (tables s) ++ [row])%list)
           (S (students_id_seq s))
           (duty_schedules_id_seq s)).

Definition bulkImportStudents (now : Date) (students : list CreateStudentInput.t)
    (s : Store) : outcome (list Student.t) * Store :=
  if Nat.eqb (List.length students) 0 then
    (Returned [], s)
  else
    let values :=
      map (fun student =>
             CreateStudentInput.mk (CreateStudentInput.name student)
               (CreateStudentInput.class_level student)
               (CreateStudentInput.class_section student))
          students in
    let (result, s') := insert_students now values s in
    (Returned result, s').

Definition createDutySchedule (now : Date) (input : CreateDutyScheduleInput.t)
    (s : Store) : outcome DutySchedule.t * Store :=
  (* Verify teacher exists *)
  let teacher :=
    filter (fun t => Nat.eqb (Teacher.id t)
                       (CreateDutyScheduleInput.teacher_id input))
      (teachersTable (tables s)) in
  if Nat.eqb (List.length teacher) 0 then
    (Thrown "Teacher not found", s)
  else
    (* Insert duty schedule record *)
    let row :=
      DutySchedule.mk (duty_schedules_id_seq s)
        (CreateDutyScheduleInput.teacher_id input)
        (CreateDutyScheduleInput.duty_date input)
        (CreateDutyScheduleInput.floor input) now now in
    (Returned row,
     mkStore (with_duty_schedules (tables s)
                (dutySchedulesTable (tables s) ++ [row])%list)
             (students_id_seq s)
             (S (duty_schedules_id_seq s))).

(** [classLevelSchema = z.enum(['7', '8', '9'])] and
    [classSectionSchema = z.enum(['A', ..., 'G'])] ([schema.ts]) on a
    string: the value of the enum, or none where the parse fails. *)
Definition classLevelSchema (value : string) : option ClassLevel :=
  if value =? "7" then Some L7
  else if value =? "8" then Some L8
  else if value =? "9" then Some L9
  else None.

Definition classSectionSchema (value : string) : option ClassSection :=
  if value =? "A" then Some A
  else if value =? "B" then Some B
  else if value =? "C" then Some C
  else if value =? "D" then Some D
  else if value =? "E" then Some E
  else if value =? "F" then Some F
  else if value =? "G" then Some G
  else None.

(** The parse of [createStudentInputSchema] on an object whose three
    properties are strings: [name] is [z.string().min(1)], the class is
    of the two enums. *)
Definition createStudentInputSchema_parse (name class_level class_section : string)
  : option CreateStudentInput.t :=
  if name =? "" then None
  else
    match classLevelSchema class_level, classSectionSchema class_section with
    | Some level, Some section => Some (CreateStudentInput.mk name level section)
    | _, _ => None
    end.

(** The [createStudent] procedure of the router ([index.ts]):
    [.input(createStudentInputSchema).mutation(({ input }) =>
    createStudent(input))].  An input that fails the parse is answered
    with an error, whose message is [bad_request], and the handler is not
    called. *)
Definition createStudent_procedure (bad_request : string) (now : Date)
    (name class_level class_section : string) (s : Store)
  : outcome Student.t * Store :=
  match createStudentInputSchema_parse name class_level class_section with
  | Some input => createStudent now input s
  | None => (Thrown bad_request, s)
  end.

(** A handler of the tables alone, on the store. *)
Definition on_tables {T} (h : handler T) (s : Store) : outcome T * Store :=
  (fst (h (tables s)),
   mkStore (snd (h (tables s))) (students_id_seq s) (duty_schedules_id_seq s)).

(** The calls that write to the store. *)
Inductive call : Set :=
| CreateAttendanceRecord (now : Date) (input : CreateAttendanceRecordInput.t)
| UpdateAttendanceRecord (now : Date) (input : UpdateAttendanceRecordInput.t)
| DeleteAttendanceRecord (id : nat)
| CreateStudent (now : Date) (input : CreateStudentInput.t)
| UpdateStudent (now : Date) (input : UpdateStudentInput.t)
| DeleteStudent (id : nat)
| BulkImportStudents (now : Date) (students : list CreateStudentInput.t)
| CreateDutySchedule (now : Date) (input : CreateDutyScheduleInput.t)
| DeleteDutySchedule (id : nat).

(** The store after a call, whatever the call comes to. *)
Definition exec (violation : string) (c : call) (s : Store) : Store :=
  match c with
  | CreateAttendanceRecord now input =>
      snd (on_tables (createAttendanceRecord now input) s)
  | UpdateAttendanceRecord now input =>
      snd (on_tables (updateAttendanceRecord now input) s)
  | DeleteAttendanceRecord id => snd (on_tables (deleteAttendanceRecord id) s)
  | CreateStudent now input => snd (createStudent now input s)
  | UpdateStudent now input => snd (on_tables (updateStudent now input) s)
  | DeleteStudent id => snd (on_tables (deleteStudent violation id) s)
  | BulkImportStudents now students => snd (bulkImportStudents now students s)
  | CreateDutySchedule now input => snd (createDutySchedule now input s)
  | DeleteDutySchedule id => snd (on_tables (deleteDutySchedule violation id) s)
  end.

Definition exec_all (violation : string) (cs : list call) (s : Store) : Store :=
  fold_left (fun s c => exec violation c s) cs s.

(** The keys of the store: each of the three tables is keyed by [id] with
    its sequence ahead, and every attendance record has its student and
    its duty schedule. *)
Definition keyed (s : Store) : Prop :=
  primary_key (tables s) /\
  (NoDup (map Student.id (studentsTable (tables s))) /\
   Forall (fun x => Student.id x < students_id_seq s)
     (studentsTable (tables s))) /\
  (NoDup (map DutySchedule.id (dutySchedulesTable (tables s))) /\
   Forall (fun x => DutySchedule.id x < duty_schedules_id_seq s)
     (dutySchedulesTable (tables s))) /\
  (forall a, In a (attendanceRecordsTable (tables s)) ->
             has_student (tables s) (AttendanceRecord.student_id a) /\
             has_duty_schedule (tables s) (AttendanceRecord.duty_schedule_id a)).

(** The double quote of the CSV fields. *)
Definition DQUOTE : string := String (ascii_of_nat 34) EmptyString.

(** The row of the CSV for one student; [toISOString] is
    [Date.prototype.toISOString]. *)
Definition student_csv_row (toISOString : Date -> string) (student : Student.t)
  : string :=
  Number_toString (Student.id student) ++ "," ++ DQUOTE
    ++ Student.name student ++ DQUOTE ++ ","
    ++ ClassLevel_str (Student.class_level student) ++ ","
    ++ ClassSection_str (Student.class_section student) ++ "," ++ DQUOTE
    ++ toISOString (Student.created_at student) ++ DQUOTE ++ "," ++ DQUOTE
    ++ toISOString (Student.updated_at student) ++ DQUOTE.

(** [exportStudents]; the [Buffer] returned is given as the text it
    holds. *)
Definition exportStudents (toISOString : Date -> string) : handler string :=
  students <- getStudents ;;
  let headers :=
    "ID,Name,Class Level,Class Section,Created At,Updated At" ++ LF in
  let rows := String.concat LF (map (student_csv_row toISOString) students) in
  let csvContent := headers ++ rows in
  ret csvContent.

(** A store for the examples: the sample tables, and the sequences ahead
    of their rows. *)
Definition sample_store : Store := mkStore Sample.db2 3 2.

(* ===================================================================== *)
(** * 10. The students list and the attendance row of the client
      ([StudentManagement.tsx], [AttendanceManagement.tsx])             *)
(* ===================================================================== *)

(** What [createStudentInputSchema] and [updateStudentInputSchema] ask of
    an input besides its types: [name] is [z.string().min(1)].  A
    [mutate] with an input that fails is rejected. *)
Definition createStudentInputSchema (input : CreateStudentInput.t) : bool :=
  negb (CreateStudentInput.name input =? "").

Definition updateStudentInputSchema (input : UpdateStudentInput.t) : bool :=
  match UpdateStudentInput.name input with
  | defined name => negb (name =? "")
  | undefined => true
  end.

(** [handleAddStudent]: the [students] of the component and the store
    after it; a [mutate] that is rejected or throws is caught. *)
Definition handleAddStudent (now : Date) (formData : CreateStudentInput.t)
    (students : list Student.t) (s : Store) : list Student.t * Store :=
  if createStudentInputSchema formData then
    match createStudent now formData s with
    | (Returned newStudent, s') => ((students ++ [newStudent])%list, s')
    | (Thrown _, s') => (students, s')
    end
  else (students, s).

Definition handleEditStudent (now : Date) (editFormData : UpdateStudentInput.t)
    (students : list Student.t) (s : Store) : list Student.t * Store :=
  if updateStudentInputSchema editFormData then
    match on_tables (updateStudent now editFormData) s with
    | (Returned updatedStudent, s') =>
        (map (fun x => if Nat.eqb (Student.id x) (Student.id updatedStudent)
                       then updatedStudent else x)
             students,
         s')
    | (Thrown _, s') => (students, s')
    end
  else (students, s).

Definition handleDeleteStudent (violation : string) (id : nat)
    (students : list Student.t) (s : Store) : list Student.t * Store :=
  match on_tables (deleteStudent violation id) s with
  | (Returned _, s') =>
      (filter (fun x => negb (Nat.eqb (Student.id x) id)) students, s')
  | (Thrown _, s') => (students, s')
  end.

(** What the administrator does in the students list. *)
Inductive students_event : Set :=
| AddStudent (now : Date) (formData : CreateStudentInput.t)
| EditStudent (now : Date) (editFormData : UpdateStudentInput.t)
| RemoveStudent (id : nat).

Definition students_step (violation : string) (e : students_event)
    (c : list Student.t * Store) : list Student.t * Store :=
  match e with
  | AddStudent now formData => handleAddStudent now formData (fst c) (snd c)
  | EditStudent now editFormData =>
      handleEditStudent now editFormData (fst c) (snd c)
  | RemoveStudent id => handleDeleteStudent violation id (fst c) (snd c)
  end.

Definition students_run (violation : string) (es : list students_event)
    (c : list Student.t * Store) : list Student.t * Store :=
  fold_left (fun c e => students_step violation e c) es c.

(** What the students list keeps: the store keyed, and the list of the
    component the rows of the students table of the store, each once (an
    edit leaves the student in its place in the list, and not in the
    table). *)
Definition students_shown (c : list Student.t * Store) : Prop :=
  keyed (snd c) /\ Permutation (fst c) (studentsTable (tables (snd c))).

(** The state of an [AttendanceRow]. *)
Module Row.
Record t : Set := mk {
  status : AttendanceStatus;
  isLate : bool;
  notes : string;
  hasChanges : bool
}.
End Row.

(** The row as it is mounted for a record, or for none: the [useState]
    initial values. *)
Definition row_of (attendanceRecord : option AttendanceRecord.t) : Row.t :=
  match attendanceRecord with
  | Some r =>
      Row.mk (AttendanceRecord.status r) (AttendanceRecord.is_late r)
        (match AttendanceRecord.notes r with
         | Some n => n
         | None => ""
         end)
        false
  | None => Row.mk Present false "" false
  end.

(** The effect on [attendanceRecord]: a record sets the three fields
    again, none leaves them as they are; [hasChanges] is reset in both
    cases. *)
Definition row_effect (attendanceRecord : option AttendanceRecord.t)
    (row : Row.t) : Row.t :=
  match attendanceRecord with
  | Some _ => row_of attendanceRecord
  | None => Row.mk (Row.status row) (Row.isLate row) (Row.notes row) false
  end.

Definition handleStatusChange (newStatus : AttendanceStatus) (row : Row.t)
  : Row.t :=
  Row.mk newStatus (Row.isLate row) (Row.notes row) true.

Definition handleLateChange (newIsLate : bool) (row : Row.t) : Row.t :=
  Row.mk (Row.status row) newIsLate (Row.notes row) true.

Definition handleNotesChange (newNotes : string) (row : Row.t) : Row.t :=
  Row.mk (Row.status row) (Row.isLate row) newNotes true.

(** What the teacher does in a row.  The checkbox is
    [disabled={status !== 'present'}]: with another status it takes no
    change. *)
Inductive row_event : Set :=
| StatusChange (newStatus : AttendanceStatus)
| LateChange (newIsLate : bool)
| NotesChange (newNotes : string).

Definition row_step (e : row_event) (row : Row.t) : Row.t :=
  match e with
  | StatusChange newStatus => handleStatusChange newStatus row
  | LateChange newIsLate =>
      match Row.status row with
      | Present => handleLateChange newIsLate row
      | _ => row
      end
  | NotesChange newNotes => handleNotesChange newNotes row
  end.

(** [handleSave] of the row of a student: [onSave(status, isLate, notes)],
    which is [handleAttendanceChange] for the student. *)
Definition handleSave (now : Date) (studentId : nat) (row : Row.t)
    (st : Client.t) (db : Db) : Client.t * Db :=
  handleAttendanceChange now studentId (Row.status row) (Row.isLate row)
    (defined (Row.notes row)) st db.

(* ===================================================================== *)
(** * Properties                                                         *)
(* ===================================================================== *)

(** The [forEach] started from any summary object adds the counts of the
    list to it, and leaves [total] alone. *)
Lemma fold_count_record (records : list AttendanceRecord.t) :
  forall s0,
    let s := fold_left count_record records s0 in
    total s = total s0 /\
    present s = present s0 + count (has_status Present) records /\
    sick s = sick s0 + count (has_status Sick) records /\
    permission s = permission s0 + count (has_status Permission) records /\
    absent s = absent s0 + count (has_status Absent) records /\
    late s = late s0 + count AttendanceRecord.is_late records.
Proof.
  induction records as [| r rs IH]; intros s0; cbn zeta.
  - cbn. repeat split; lia.
  - cbn [fold_left].
    specialize (IH (count_record s0 r)). cbn zeta in IH.
    destruct IH as (Ht & Hp & Hs & Hm & Ha & Hl).
    rewrite Ht, Hp, Hs, Hm, Ha, Hl. clear.
    unfold count, count_record, has_status. cbn [filter].
    destruct (AttendanceRecord.status r), (AttendanceRecord.is_late r);
      cbn; repeat split; lia.
Qed.

(** The four status counts split the list, and no count is above its
    length. *)
Lemma count_status_split (records : list AttendanceRecord.t) :
  count (has_status Present) records + count (has_status Sick) records
  + count (has_status Permission) records + count (has_status Absent) records
  = List.length records.
Proof.
  unfold count, has_status.
  induction records as [| r rs IH]; [reflexivity |].
  cbn [filter List.length]. destruct (AttendanceRecord.status r); cbn; lia.
Qed.

Lemma count_le_length (p : AttendanceRecord.t -> bool)
    (records : list AttendanceRecord.t) :
  count p records <= List.length records.
Proof. unfold count. apply filter_length_le. Qed.

(** The handler returns the summary of the rows of its duty schedule and
    leaves the store as it is. *)
Lemma getAttendanceSummary_run (dutyScheduleId : nat) (db : Db) :
  getAttendanceSummary dutyScheduleId db =
  (Returned (summarize (entries_of dutyScheduleId db)), db).
Proof. reflexivity. Qed.

Lemma getAttendanceByDutySchedule_run (dutyScheduleId : nat) (db : Db) :
  getAttendanceByDutySchedule dutyScheduleId db =
  (Returned (entries_of dutyScheduleId db), db).
Proof. reflexivity. Qed.

(** The fields of a summary are the counts of its list. *)
Lemma summarize_fields (records : list AttendanceRecord.t) :
  total (summarize records) = List.length records /\
  present (summarize records) = count (has_status Present) records /\
  sick (summarize records) = count (has_status Sick) records /\
  permission (summarize records) = count (has_status Permission) records /\
  absent (summarize records) = count (has_status Absent) records /\
  late (summarize records) = count AttendanceRecord.is_late records.
Proof.
  unfold summarize.
  pose proof (fold_count_record records
                (AttendanceSummary.mk (List.length records) 0 0 0 0 0)) as H.
  cbn zeta in H. cbn [total present sick permission absent late] in H.
  exact H.
Qed.

(** C1.  For every list of attendance records the summary has: [total]
    the number of records; [present], [sick], [permission] and [absent]
    the number of records of that status; [late] the number of records
    with [is_late] set, whatever their status.  The summary of the empty
    list is all zero, and [getAttendanceSummary] returns the summary of
    the records the store has for the duty schedule. *)
Theorem getAttendanceSummary_counts :
  (forall records : list AttendanceRecord.t,
      total (summarize records) = List.length records /\
      present (summarize records) = count (has_status Present) records /\
      sick (summarize records) = count (has_status Sick) records /\
      permission (summarize records) = count (has_status Permission) records /\
      absent (summarize records) = count (has_status Absent) records /\
      late (summarize records) = count AttendanceRecord.is_late records) /\
  summarize [] = AttendanceSummary.mk 0 0 0 0 0 0 /\
  (forall (dutyScheduleId : nat) (db : Db),
      getAttendanceSummary dutyScheduleId db =
      (Returned (summarize (entries_of dutyScheduleId db)), db)).
Proof.
  split; [exact summarize_fields |].
  split; [reflexivity | intros; apply getAttendanceSummary_run].
Qed.

(** A late record that is not present is counted in [late] all the same. *)
Example summarize_late_absent :
  summarize [AttendanceRecord.mk 1 1 1 Absent true None 0%Z 0%Z]
  = AttendanceSummary.mk 1 0 0 0 1 1.
Proof. reflexivity. Qed.

(** The example of the handler's test: one late present record and one
    absent record. *)
Example summarize_present_late_and_absent :
  summarize [AttendanceRecord.mk 1 1 1 Present true None 0%Z 0%Z;
             AttendanceRecord.mk 2 1 2 Absent false None 0%Z 0%Z]
  = AttendanceSummary.mk 2 1 0 0 1 1.
Proof. reflexivity. Qed.

(** C8.  In every summary the four status counts add up to [total], and
    [late] is at most [total]; so it is for each summary the handler
    returns. *)
Theorem getAttendanceSummary_invariants :
  (forall records : list AttendanceRecord.t,
      present (summarize records) + sick (summarize records)
      + permission (summarize records) + absent (summarize records)
      = total (summarize records) /\
      late (summarize records) <= total (summarize records)) /\
  (forall (dutyScheduleId : nat) (db : Db),
      exists summary,
        getAttendanceSummary dutyScheduleId db = (Returned summary, db) /\
        present summary + sick summary + permission summary + absent summary
        = total summary /\
        late summary <= total summary).
Proof.
  assert (Hall : forall records : list AttendanceRecord.t,
      present (summarize records) + sick (summarize records)
      + permission (summarize records) + absent (summarize records)
      = total (summarize records) /\
      late (summarize records) <= total (summarize records)).
  { intros records.
    destruct (summarize_fields records) as (Ht & Hp & Hs & Hm & Ha & Hl).
    rewrite Ht, Hp, Hs, Hm, Ha, Hl.
    split; [apply count_status_split | apply count_le_length]. }
  split; [exact Hall |].
  intros dutyScheduleId db.
  exists (summarize (entries_of dutyScheduleId db)).
  split; [apply getAttendanceSummary_run | apply Hall].
Qed.

(* --------------------------------------------------------------------- *)
(** ** Floor rosters                                                     *)
(* --------------------------------------------------------------------- *)

(** Case analysis on the class of a student row. *)
Ltac by_class s :=
  destruct s as [? ? level section ? ?]; destruct level, section;
  cbn; intuition (congruence || discriminate || auto).

Lemma on_floor_2 (s : Student.t) :
  on_floor "2" s = true <->
  Student.class_level s = L9 /\ In (Student.class_section s) [A; B; C; D; E; F].
Proof. by_class s. Qed.

Lemma on_floor_3 (s : Student.t) :
  on_floor "3" s = true <->
  (Student.class_level s = L8 /\ In (Student.class_section s) [A; B; C; D; E; F])
  \/ (Student.class_level s = L9 /\ Student.class_section s = G).
Proof. by_class s. Qed.

Lemma on_floor_4 (s : Student.t) :
  on_floor "4" s = true <->
  (Student.class_level s = L7
   /\ In (Student.class_section s) [A; B; C; D; E; F; G])
  \/ (Student.class_level s = L8 /\ Student.class_section s = G).
Proof. by_class s. Qed.

(** The roster of a floor of the schema is the students of the table the
    predicate of the floor holds for, in the order of the table. *)
Lemma getStudentsByFloor_run (f : Floor) (db : Db) :
  getStudentsByFloor (Floor_str f) db =
  (Returned (filter (on_floor (Floor_str f)) (studentsTable db)), db).
Proof. destruct f; reflexivity. Qed.

(** The floor label the client shows for a class of the catalogue is the
    floor whose roster has the class. *)
Lemma getFloorByClass_on_floor (f : Floor) (s : Student.t) :
  getFloorByClass (ClassLevel_str (Student.class_level s))
                  (ClassSection_str (Student.class_section s))
  = floor_label (Floor_str f)
  <-> on_floor (Floor_str f) s = true.
Proof.
  destruct s as [? ? level section ? ?]; destruct f, level, section;
    cbn; split; intros H; (reflexivity || discriminate H).
Qed.

(** C2.  The roster predicates follow the catalogue: floor 2 is grade 9
    with sections A to F; floor 3 is grade 8 with sections A to F, or
    9G; floor 4 is grade 7 with sections A to G, or 8G.  The roster query
    of a floor returns the students its predicate holds for, and the
    class-to-floor label agrees with it: 9G is on floor 3, 8G and 7A on
    floor 4, 9A on floor 2. *)
Theorem floor_catalogue :
  (forall s : Student.t,
      on_floor "2" s = true <->
      Student.class_level s = L9
      /\ In (Student.class_section s) [A; B; C; D; E; F]) /\
  (forall s : Student.t,
      on_floor "3" s = true <->
      (Student.class_level s = L8
       /\ In (Student.class_section s) [A; B; C; D; E; F])
      \/ (Student.class_level s = L9 /\ Student.class_section s = G)) /\
  (forall s : Student.t,
      on_floor "4" s = true <->
      (Student.class_level s = L7
       /\ In (Student.class_section s) [A; B; C; D; E; F; G])
      \/ (Student.class_level s = L8 /\ Student.class_section s = G)) /\
  (forall (f : Floor) (db : Db),
      getStudentsByFloor (Floor_str f) db =
      (Returned (filter (on_floor (Floor_str f)) (studentsTable db)), db)) /\
  (forall (f : Floor) (s : Student.t),
      getFloorByClass (ClassLevel_str (Student.class_level s))
                      (ClassSection_str (Student.class_section s))
      = floor_label (Floor_str f)
      <-> on_floor (Floor_str f) s = true) /\
  (getFloorByClass "9" "G" = "Lantai 3" /\ getFloorByClass "8" "G" = "Lantai 4"
   /\ getFloorByClass "7" "A" = "Lantai 4" /\ getFloorByClass "9" "A" = "Lantai 2").
Proof.
  split; [exact on_floor_2 |].
  split; [exact on_floor_3 |].
  split; [exact on_floor_4 |].
  split; [exact getStudentsByFloor_run |].
  split; [exact getFloorByClass_on_floor |].
  repeat split.
Qed.

(** A floor whose roster predicate holds of some row is a floor of the
    schema. *)
Lemma on_floor_valid (floor : string) (s : Student.t) :
  on_floor floor s = true -> exists f : Floor, floor = Floor_str f.
Proof.
  unfold on_floor, floor_conditions.
  destruct (String.eqb_spec floor "2") as [-> |]; [exists F2; reflexivity |].
  destruct (String.eqb_spec floor "3") as [-> |]; [exists F3; reflexivity |].
  destruct (String.eqb_spec floor "4") as [-> |]; [exists F4; reflexivity |].
  discriminate.
Qed.

(** C3.  The three roster predicates split the catalogue: a student of
    any grade 7, 8, 9 and section A to G is on a floor of 2, 3, 4, and on
    no other floor; so the student is in the roster of that floor and in
    no other roster. *)
Theorem floor_rosters_partition (s : Student.t) :
  exists f : Floor,
    on_floor (Floor_str f) s = true /\
    (forall floor : string, on_floor floor s = true -> floor = Floor_str f) /\
    (forall (g : Floor) (db : Db),
        exists roster : list Student.t,
          getStudentsByFloor (Floor_str g) db = (Returned roster, db) /\
          (In s roster <-> In s (studentsTable db) /\ g = f)).
Proof.
  assert (H : exists f : Floor,
             on_floor (Floor_str f) s = true /\
             forall g : Floor, on_floor (Floor_str g) s = true -> g = f).
  { destruct s as [? ? level section ? ?]; destruct level, section;
      ((exists F2; split; [reflexivity |]) || (exists F3; split; [reflexivity |])
       || (exists F4; split; [reflexivity |]));
      intros g; destruct g; cbn; intros Hg; (reflexivity || discriminate Hg). }
  destruct H as (f & Hf & Huniq). exists f.
  split; [exact Hf |]. split.
  - intros floor Hfl. destruct (on_floor_valid floor s Hfl) as (g & ->).
    f_equal. apply Huniq. exact Hfl.
  - intros g db. exists (filter (on_floor (Floor_str g)) (studentsTable db)).
    split; [apply getStudentsByFloor_run |].
    rewrite filter_In. split.
    + intros [Hin Hg]. split; [exact Hin | apply Huniq; exact Hg].
    + intros [Hin ->]. split; assumption.
Qed.



(** A class of the catalogue goes through the procedure to the handler. *)
Example createStudent_procedure_of_catalogue :
  fst (createStudent_procedure "Invalid enum value" 7%Z "New Student" "8" "G"
         sample_store)
  = Returned (Student.mk 3 "New Student" L8 G 7%Z 7%Z).
Proof. reflexivity. Qed.

(* --------------------------------------------------------------------- *)
(** ** Creating and updating attendance records                          *)
(* --------------------------------------------------------------------- *)

(** [rows.length === 0] after a [select]: no row of the table passes the
    condition. *)
Lemma select_length_0 {R} (cond : R -> bool) (rows : list R) :
  Nat.eqb (List.length (filter cond rows)) 0 = negb (existsb cond rows).
Proof.
  induction rows as [| r rs IH]; [reflexivity |].
  cbn [filter existsb]. destruct (cond r); [reflexivity | exact IH].
Qed.

Lemma has_duty_schedule_existsb (db : Db) (id : nat) :
  has_duty_schedule db id <->
  existsb (fun d => Nat.eqb (DutySchedule.id d) id) (dutySchedulesTable db) = true.
Proof.
  unfold has_duty_schedule. rewrite existsb_exists.
  split; intros (d & Hin & Hid); exists d; split; try assumption;
    apply Nat.eqb_eq; assumption.
Qed.

Lemma has_student_existsb (db : Db) (id : nat) :
  has_student db id <->
  existsb (fun s => Nat.eqb (Student.id s) id) (studentsTable db) = true.
Proof.
  unfold has_student. rewrite existsb_exists.
  split; intros (d & Hin & Hid); exists d; split; try assumption;
    apply Nat.eqb_eq; assumption.
Qed.

Lemma has_attendance_record_existsb (db : Db) (id : nat) :
  has_attendance_record db id <->
  existsb (fun r => Nat.eqb (AttendanceRecord.id r) id)
    (attendanceRecordsTable db) = true.
Proof.
  unfold has_attendance_record. rewrite existsb_exists.
  split; intros (d & Hin & Hid); exists d; split; try assumption;
    apply Nat.eqb_eq; assumption.
Qed.

(** The three ways a call of [createAttendanceRecord] goes. *)
Lemma createAttendanceRecord_run (now : Date)
    (input : CreateAttendanceRecordInput.t) (db : Db) :
  createAttendanceRecord now input db =
  if existsb (fun d => Nat.eqb (DutySchedule.id d)
                         (CreateAttendanceRecordInput.duty_schedule_id input))
       (dutySchedulesTable db)
  then
    if existsb (fun s => Nat.eqb (Student.id s)
                           (CreateAttendanceRecordInput.student_id input))
         (studentsTable db)
    then
      insert_attendance_record now
        (CreateAttendanceRecordInput.duty_schedule_id input)
        (CreateAttendanceRecordInput.student_id input)
        (CreateAttendanceRecordInput.status input)
        (CreateAttendanceRecordInput.is_late input)
        (or_null (CreateAttendanceRecordInput.notes input)) db
    else (Thrown "Student not found", db)
  else (Thrown "Duty schedule not found", db).
Proof.
  unfold createAttendanceRecord, bind, select, throw.
  rewrite select_length_0.
  destruct (existsb _ (dutySchedulesTable db)); cbn [negb]; [| reflexivity].
  rewrite select_length_0.
  destruct (existsb _ (studentsTable db)); reflexivity.
Qed.

(** C6.  [createAttendanceRecord] throws and leaves the store as it is
    when no duty schedule has the [duty_schedule_id] of the input
    ("Duty schedule not found"), and when one has but no student has the
    [student_id] ("Student not found"); when both are there it adds one
    record with the values of the input to the end of the table, changes
    nothing else, and returns that record. *)
Theorem createAttendanceRecord_references (now : Date)
    (input : CreateAttendanceRecordInput.t) (db : Db) :
  (~ has_duty_schedule db (CreateAttendanceRecordInput.duty_schedule_id input) ->
   createAttendanceRecord now input db = (Thrown "Duty schedule not found", db))
  /\
  (has_duty_schedule db (CreateAttendanceRecordInput.duty_schedule_id input) ->
   ~ has_student db (CreateAttendanceRecordInput.student_id input) ->
   createAttendanceRecord now input db = (Thrown "Student not found", db))
  /\
  (has_duty_schedule db (CreateAttendanceRecordInput.duty_schedule_id input) ->
   has_student db (CreateAttendanceRecordInput.student_id input) ->
   exists (record : AttendanceRecord.t) (db' : Db),
     createAttendanceRecord now input db = (Returned record, db') /\
     attendanceRecordsTable db' = (attendanceRecordsTable db ++ [record])%list /\
     teachersTable db' = teachersTable db /\
     studentsTable db' = studentsTable db /\
     dutySchedulesTable db' = dutySchedulesTable db /\
     AttendanceRecord.duty_schedule_id record
     = CreateAttendanceRecordInput.duty_schedule_id input /\
     AttendanceRecord.student_id record
     = CreateAttendanceRecordInput.student_id input /\
     AttendanceRecord.status record = CreateAttendanceRecordInput.status input /\
     AttendanceRecord.is_late record = CreateAttendanceRecordInput.is_late input).
Proof.
  rewrite createAttendanceRecord_run.
  rewrite has_duty_schedule_existsb, has_student_existsb.
  destruct (existsb _ (dutySchedulesTable db)).
  - destruct (existsb _ (studentsTable db)).
    + split; [intros H; exfalso; apply H; reflexivity |].
      split; [intros _ H; exfalso; apply H; reflexivity |].
      intros _ _. unfold insert_attendance_record.
      eexists. eexists. split; [reflexivity |]. cbn. repeat split.
    + split; [intros H; exfalso; apply H; reflexivity |].
      split; [reflexivity |]. intros _ H. discriminate H.
  - split; [reflexivity |].
    split; intros H; discriminate H.
Qed.

Lemma createAttendanceRecord_references_witness :
  createAttendanceRecord 7%Z
    (CreateAttendanceRecordInput.mk 99 1 Present false undefined) Sample.db0
  = (Thrown "Duty schedule not found", Sample.db0)
  /\
  createAttendanceRecord 7%Z
    (CreateAttendanceRecordInput.mk 1 99 Present false undefined) Sample.db0
  = (Thrown "Student not found", Sample.db0)
  /\
  exists (record : AttendanceRecord.t) (db' : Db),
    createAttendanceRecord 7%Z
      (CreateAttendanceRecordInput.mk 1 1 Present false undefined) Sample.db0
    = (Returned record, db') /\
    attendanceRecordsTable db' = [record] /\
    AttendanceRecord.student_id record = 1.
Proof.
  split; [| split].
  - apply (createAttendanceRecord_references 7%Z
             (CreateAttendanceRecordInput.mk 99 1 Present false undefined)
             Sample.db0).
    rewrite has_duty_schedule_existsb. cbn. discriminate.
  - apply (createAttendanceRecord_references 7%Z
             (CreateAttendanceRecordInput.mk 1 99 Present false undefined)
             Sample.db0).
    + rewrite has_duty_schedule_existsb. reflexivity.
    + rewrite has_student_existsb. cbn. discriminate.
  - destruct (createAttendanceRecord_references 7%Z
                (CreateAttendanceRecordInput.mk 1 1 Present false undefined)
                Sample.db0) as (_ & _ & H).
    destruct H as (record & db' & Hrun & Htable & _ & _ & _ & _ & Hstudent & _).
    + rewrite has_duty_schedule_existsb. reflexivity.
    + rewrite has_student_existsb. reflexivity.
    + exists record, db'. repeat split; assumption.
Defined.

(** The rows of a table after an [update] are the rows it had, each
    once, those that pass the condition updated. *)
Lemma update_Permutation {R} (cond : R -> bool) (f : R -> R) (rows : list R) :
  Permutation
    (filter (fun r => negb (cond r)) rows ++ map f (filter cond rows))
    (map (fun r => if cond r then f r else r) rows).
Proof.
  induction rows as [| r rs IH]; [constructor |].
  cbn [filter map]. destruct (cond r); cbn [negb map].
  - apply Permutation_sym. eapply Permutation_trans.
    + apply perm_skip. apply Permutation_sym. exact IH.
    + apply Permutation_middle.
  - cbn [List.app]. apply perm_skip. exact IH.
Qed.

(** A [filter] of a rearrangement is a rearrangement of the [filter]. *)
Lemma filter_Permutation {R} (p : R -> bool) (l l' : list R) :
  Permutation l l' -> Permutation (filter p l) (filter p l').
Proof.
  induction 1 as [| x l l' _ IH | x y l | l l' l'' _ IH1 _ IH2].
  - constructor.
  - cbn [filter]. destruct (p x); [apply perm_skip |]; exact IH.
  - cbn [filter]. destruct (p x), (p y);
      try apply Permutation_refl. apply perm_swap.
  - eapply Permutation_trans; eassumption.
Qed.

(** The two ways a call of [updateAttendanceRecord] goes. *)
Lemma updateAttendanceRecord_run (now : Date)
    (input : UpdateAttendanceRecordInput.t) (db : Db) :
  let cond := fun r => Nat.eqb (AttendanceRecord.id r)
                         (UpdateAttendanceRecordInput.id input) in
  updateAttendanceRecord now input db =
  if existsb cond (attendanceRecordsTable db) then
    (Returned (item0 (map (set_row (build_updateData now input))
                          (filter cond (attendanceRecordsTable db)))),
     mkDb (teachersTable db) (studentsTable db) (dutySchedulesTable db)
       (filter (fun r => negb (cond r)) (attendanceRecordsTable db)
          ++ map (set_row (build_updateData now input))
               (filter cond (attendanceRecordsTable db)))%list
       (attendance_records_id_seq db))
  else (Thrown "Attendance record not found", db).
Proof.
  cbn zeta. unfold updateAttendanceRecord, bind, select, throw.
  rewrite select_length_0.
  destruct (existsb _ (attendanceRecordsTable db)); reflexivity.
Qed.

(** The table after [updateAttendanceRecord] for a record that is there:
    the rows it had, each once, those of the id updated. *)
Lemma updateAttendanceRecord_table (now : Date)
    (input : UpdateAttendanceRecordInput.t) (db : Db) :
  existsb (fun r => Nat.eqb (AttendanceRecord.id r)
                      (UpdateAttendanceRecordInput.id input))
    (attendanceRecordsTable db) = true ->
  Permutation
    (attendanceRecordsTable (snd (updateAttendanceRecord now input db)))
    (map (fun r => if Nat.eqb (AttendanceRecord.id r)
                        (UpdateAttendanceRecordInput.id input)
                   then set_row (build_updateData now input) r else r)
       (attendanceRecordsTable db)).
Proof.
  intros Hr. rewrite updateAttendanceRecord_run. cbn zeta. rewrite Hr.
  cbn [snd attendanceRecordsTable].
  apply (update_Permutation
           (fun r => Nat.eqb (AttendanceRecord.id r)
                       (UpdateAttendanceRecordInput.id input))).
Qed.

(** The update object has the properties of the input, and [updated_at]. *)
Lemma build_updateData_fields (now : Date) (input : UpdateAttendanceRecordInput.t) :
  UpdateData.status (build_updateData now input)
  = UpdateAttendanceRecordInput.status input /\
  UpdateData.is_late (build_updateData now input)
  = UpdateAttendanceRecordInput.is_late input /\
  UpdateData.notes (build_updateData now input)
  = UpdateAttendanceRecordInput.notes input /\
  UpdateData.updated_at (build_updateData now input) = defined now.
Proof.
  unfold build_updateData.
  destruct input as [id [| st] [| l] [| n]]; cbn; repeat split.
Qed.

(** The first row a [select] gives is a row of the table that passes the
    condition. *)
Lemma filter_first {R} (cond : R -> bool) (rows : list R) :
  existsb cond rows = true ->
  exists r rest, filter cond rows = r :: rest /\ In r rows /\ cond r = true.
Proof.
  intros H. apply existsb_exists in H. destruct H as (x & Hin & Hx).
  assert (Hf : In x (filter cond rows)) by (apply filter_In; split; assumption).
  destruct (filter cond rows) as [| r rest] eqn:E; [destruct Hf |].
  exists r, rest. split; [reflexivity |].
  assert (Hr : In r (filter cond rows)) by (rewrite E; left; reflexivity).
  apply filter_In in Hr. exact Hr.
Qed.

(** C9.  [createAttendanceRecord] stores [null] for notes that are
    absent, [null] or the empty string; [updateAttendanceRecord] with the
    empty string for notes stores the empty string, in the record it
    returns and in every row of that id. *)
Theorem notes_empty_string (now : Date) (input : CreateAttendanceRecordInput.t)
    (update : UpdateAttendanceRecordInput.t) (db : Db) :
  (has_duty_schedule db (CreateAttendanceRecordInput.duty_schedule_id input) ->
   has_student db (CreateAttendanceRecordInput.student_id input) ->
   In (CreateAttendanceRecordInput.notes input)
      [undefined; defined None; defined (Some "")] ->
   exists (record : AttendanceRecord.t) (db' : Db),
     createAttendanceRecord now input db = (Returned record, db') /\
     In record (attendanceRecordsTable db') /\
     AttendanceRecord.notes record = None)
  /\
  (has_attendance_record db (UpdateAttendanceRecordInput.id update) ->
   UpdateAttendanceRecordInput.notes update = defined (Some "") ->
   exists (record : AttendanceRecord.t) (db' : Db),
     updateAttendanceRecord now update db = (Returned (defined record), db') /\
     In record (attendanceRecordsTable db') /\
     AttendanceRecord.notes record = Some "" /\
     forall r : AttendanceRecord.t,
       In r (attendanceRecordsTable db') ->
       AttendanceRecord.id r = UpdateAttendanceRecordInput.id update ->
       AttendanceRecord.notes r = Some "").
Proof.
  split.
  - intros Hd Hs Hnotes. rewrite createAttendanceRecord_run.
    apply has_duty_schedule_existsb in Hd. apply has_student_existsb in Hs.
    rewrite Hd, Hs. unfold insert_attendance_record.
    eexists. eexists. split; [reflexivity |]. cbn.
    split; [apply in_or_app; right; left; reflexivity |].
    destruct Hnotes as [<- | [<- | [<- | []]]]; reflexivity.
  - intros Hr Hnotes. rewrite updateAttendanceRecord_run.
    apply has_attendance_record_existsb in Hr. rewrite Hr.
    destruct (filter_first _ _ Hr) as (r0 & rest & Hf & Hin & Hid).
    rewrite Hf. cbn [map item0].
    destruct (build_updateData_fields now update) as (_ & _ & Hn & _).
    eexists. eexists. split; [reflexivity |]. cbn [attendanceRecordsTable].
    split; [| split].
    + apply in_or_app. right. left. reflexivity.
    + unfold set_row. cbn. rewrite Hn, Hnotes. reflexivity.
    + intros r Hinr Hidr. apply in_app_or in Hinr.
      destruct Hinr as [Hinr | [<- | Hinr]].
      * apply filter_In in Hinr. destruct Hinr as (_ & Hneg).
        apply Nat.eqb_eq in Hidr. rewrite Hidr in Hneg. discriminate Hneg.
      * unfold set_row. cbn. rewrite Hn, Hnotes. reflexivity.
      * apply in_map_iff in Hinr. destruct Hinr as (old & <- & _).
        unfold set_row. cbn. rewrite Hn, Hnotes. reflexivity.
Qed.

Lemma notes_empty_string_witness :
  (exists (record : AttendanceRecord.t) (db' : Db),
     createAttendanceRecord 7%Z
       (CreateAttendanceRecordInput.mk 1 1 Present false (defined (Some "")))
       Sample.db0 = (Returned record, db') /\
     In record (attendanceRecordsTable db') /\
     AttendanceRecord.notes record = None)
  /\
  (exists (record : AttendanceRecord.t) (db' : Db),
     updateAttendanceRecord 7%Z
       (UpdateAttendanceRecordInput.mk 1 undefined undefined (defined (Some "")))
       Sample.db2 = (Returned (defined record), db') /\
     In record (attendanceRecordsTable db') /\
     AttendanceRecord.notes record = Some "" /\
     forall r : AttendanceRecord.t,
       In r (attendanceRecordsTable db') ->
       AttendanceRecord.id r = 1 ->
       AttendanceRecord.notes r = Some "").
Proof.
  destruct (notes_empty_string 7%Z
              (CreateAttendanceRecordInput.mk 1 1 Present false (defined (Some "")))
              (UpdateAttendanceRecordInput.mk 1 undefined undefined
                 (defined (Some "")))
              Sample.db0) as (Hcreate & _).
  destruct (notes_empty_string 7%Z
              (CreateAttendanceRecordInput.mk 1 1 Present false (defined (Some "")))
              (UpdateAttendanceRecordInput.mk 1 undefined undefined
                 (defined (Some "")))
              Sample.db2) as (_ & Hupdate).
  split.
  - apply Hcreate.
    + rewrite has_duty_schedule_existsb. reflexivity.
    + rewrite has_student_existsb. reflexivity.
    + cbn. tauto.
  - apply Hupdate.
    + rewrite has_attendance_record_existsb. reflexivity.
    + reflexivity.
Defined.

(** The call of the witness, run: the record created with empty notes
    has [null], the record updated with empty notes has the empty
    string. *)
Example create_empty_notes :
  fst (createAttendanceRecord 7%Z
         (CreateAttendanceRecordInput.mk 1 1 Present false (defined (Some "")))
         Sample.db0)
  = Returned (AttendanceRecord.mk 1 1 1 Present false None 7%Z 7%Z).
Proof. reflexivity. Qed.

Example update_empty_notes :
  fst (updateAttendanceRecord 7%Z
         (UpdateAttendanceRecordInput.mk 1 undefined undefined (defined (Some "")))
         Sample.db2)
  = Returned (defined (AttendanceRecord.mk 1 1 1 Present true (Some "") 5%Z 7%Z)).
Proof. reflexivity. Qed.

(** What [.set(updateData)] does to a row, field by field. *)
Lemma set_row_frame (now : Date) (input : UpdateAttendanceRecordInput.t)
    (old : AttendanceRecord.t) :
  let new := set_row (build_updateData now input) old in
  AttendanceRecord.id new = AttendanceRecord.id old /\
  AttendanceRecord.duty_schedule_id new = AttendanceRecord.duty_schedule_id old /\
  AttendanceRecord.student_id new = AttendanceRecord.student_id old /\
  AttendanceRecord.created_at new = AttendanceRecord.created_at old /\
  AttendanceRecord.status new
  = or_keep (UpdateAttendanceRecordInput.status input)
      (AttendanceRecord.status old) /\
  AttendanceRecord.is_late new
  = or_keep (UpdateAttendanceRecordInput.is_late input)
      (AttendanceRecord.is_late old) /\
  AttendanceRecord.notes new
  = or_keep (UpdateAttendanceRecordInput.notes input)
      (AttendanceRecord.notes old) /\
  AttendanceRecord.updated_at new = now.
Proof.
  destruct (build_updateData_fields now input) as (Hs & Hl & Hn & Hu).
  cbn zeta. unfold set_row. cbn. rewrite Hs, Hl, Hn, Hu. repeat split.
Qed.

(** The row the update makes of a row stands for it. *)
Lemma set_row_stands_for (now : Date) (input : UpdateAttendanceRecordInput.t)
    (old : AttendanceRecord.t) :
  stands_for now input old
    (if Nat.eqb (AttendanceRecord.id old) (UpdateAttendanceRecordInput.id input)
     then set_row (build_updateData now input) old else old).
Proof.
  unfold stands_for.
  destruct (set_row_frame now input old)
    as (Fid & Fduty & Fstudent & Fcreated & Fstatus & Flate & Fnotes & Fupd).
  destruct (Nat.eqb_spec (AttendanceRecord.id old)
              (UpdateAttendanceRecordInput.id input)) as [E | E].
  - do 4 (split; [assumption |]).
    split; [intros C; contradiction |]. intros _.
    rewrite Fstatus, Flate, Fnotes, Fupd.
    repeat split; intros; try match goal with
                              | H : _ = _ |- _ => rewrite H
                              end; reflexivity.
  - do 4 (split; [reflexivity |]).
    split; [reflexivity | intros C; contradiction].
Qed.

(** C10.  For a record that is there, [updateAttendanceRecord] returns
    the record of that id as stored.  The table after the call has a row
    for every row it had, and no other row: the ids are those it had,
    each as often; the row for a row keeps its [id], [duty_schedule_id],
    [student_id] and [created_at]; the row for a row of another id is
    that row, unchanged; in the row for the record of the id, each of
    [status], [is_late], [notes] left out of the input keeps its value,
    each one given takes the value given, and [updated_at] is the time of
    the call.  No other table changes. *)
Theorem updateAttendanceRecord_frame (now : Date)
    (input : UpdateAttendanceRecordInput.t) (db : Db) :
  has_attendance_record db (UpdateAttendanceRecordInput.id input) ->
  exists (updated : AttendanceRecord.t) (db' : Db),
    updateAttendanceRecord now input db = (Returned (defined updated), db') /\
    In updated (attendanceRecordsTable db') /\
    AttendanceRecord.id updated = UpdateAttendanceRecordInput.id input /\
    teachersTable db' = teachersTable db /\
    studentsTable db' = studentsTable db /\
    dutySchedulesTable db' = dutySchedulesTable db /\
    attendance_records_id_seq db' = attendance_records_id_seq db /\
    Permutation (map AttendanceRecord.id (attendanceRecordsTable db'))
      (map AttendanceRecord.id (attendanceRecordsTable db)) /\
    (forall old : AttendanceRecord.t,
       In old (attendanceRecordsTable db) ->
       exists new : AttendanceRecord.t,
         In new (attendanceRecordsTable db') /\ stands_for now input old new) /\
    (forall new : AttendanceRecord.t,
       In new (attendanceRecordsTable db') ->
       exists old : AttendanceRecord.t,
         In old (attendanceRecordsTable db) /\ stands_for now input old new).
Proof.
  intros Hr. rewrite updateAttendanceRecord_run.
  apply has_attendance_record_existsb in Hr. rewrite Hr.
  destruct (filter_first _ _ Hr) as (r0 & rest & Hf & Hin & Hid).
  pose proof (update_Permutation
                (fun r => Nat.eqb (AttendanceRecord.id r)
                            (UpdateAttendanceRecordInput.id input))
                (set_row (build_updateData now input))
                (attendanceRecordsTable db)) as Hperm.
  cbn beta in Hperm.
  assert (Hitem : item0 (map (set_row (build_updateData now input))
                           (filter (fun r => Nat.eqb (AttendanceRecord.id r)
                                               (UpdateAttendanceRecordInput.id input))
                              (attendanceRecordsTable db)))
                  = defined (set_row (build_updateData now input) r0))
    by (rewrite Hf; reflexivity).
  rewrite Hitem.
  eexists. eexists. split; [reflexivity |].
  cbn [attendanceRecordsTable teachersTable studentsTable dutySchedulesTable
       attendance_records_id_seq].
  split; [apply in_or_app; right; rewrite Hf; left; reflexivity |].
  split; [apply Nat.eqb_eq in Hid; exact Hid |].
  do 4 (split; [reflexivity |]).
  split; [| split].
  - eapply Permutation_trans; [apply Permutation_map; exact Hperm |].
    rewrite map_map.
    erewrite map_ext; [apply Permutation_refl |].
    intros r. cbn beta.
    destruct (Nat.eqb (AttendanceRecord.id r)
                (UpdateAttendanceRecordInput.id input)); reflexivity.
  - intros old Hold. eexists. split; [| apply (set_row_stands_for now input old)].
    eapply Permutation_in; [apply Permutation_sym; exact Hperm |].
    apply in_map_iff. exists old. split; [reflexivity | exact Hold].
  - intros new Hnew.
    apply (Permutation_in _ Hperm) in Hnew. apply in_map_iff in Hnew.
    destruct Hnew as (old & <- & Hold). exists old.
    split; [exact Hold | apply (set_row_stands_for now input old)].
Qed.

Lemma updateAttendanceRecord_frame_witness :
  exists (updated : AttendanceRecord.t) (db' : Db),
    updateAttendanceRecord 7%Z
      (UpdateAttendanceRecordInput.mk 1 (defined Sick) undefined undefined)
      Sample.db2 = (Returned (defined updated), db') /\
    AttendanceRecord.id updated = 1 /\
    updated = AttendanceRecord.mk 1 1 1 Sick true (Some "Test notes") 5%Z 7%Z /\
    In updated (attendanceRecordsTable db') /\
    In Sample.record2 (attendanceRecordsTable db') /\
    List.length (attendanceRecordsTable db') = 2.
Proof.
  destruct (updateAttendanceRecord_frame 7%Z
              (UpdateAttendanceRecordInput.mk 1 (defined Sick) undefined undefined)
              Sample.db2) as (updated & db' & Hrun & Hin & Hid & _).
  - rewrite has_attendance_record_existsb. reflexivity.
  - exists updated, db'. split; [exact Hrun |]. split; [exact Hid |].
    cbn in Hrun. injection Hrun as <- <-.
    split; [reflexivity |]. split; [right; left; reflexivity |].
    split; [left; reflexivity | reflexivity].
Defined.

(* --------------------------------------------------------------------- *)
(** ** One entry for each duty schedule and student                      *)
(* --------------------------------------------------------------------- *)

Lemma map_map_keep {R K} (key : R -> K) (g : R -> R) (rows : list R) :
  (forall r, key (g r) = key r) -> map key (map g rows) = map key rows.
Proof.
  intros H. rewrite map_map. apply map_ext. exact H.
Qed.

Lemma filter_map_keep {R} (p : R -> bool) (g : R -> R) (rows : list R) :
  (forall r, p (g r) = p r) -> filter p (map g rows) = map g (filter p rows).
Proof.
  intros H. induction rows as [| r rs IH]; [reflexivity |].
  cbn [map filter]. rewrite H. destruct (p r); cbn [map]; rewrite IH; reflexivity.
Qed.

(** Rows of a keyed table with the same key are the same row. *)
Lemma NoDup_map_eq {R K} (key : R -> K) (rows : list R) (a b : R) :
  NoDup (map key rows) -> In a rows -> In b rows -> key a = key b -> a = b.
Proof.
  induction rows as [| r rs IH]; intros Hnd Ha Hb Hk; [destruct Ha |].
  cbn [map] in Hnd. inversion Hnd as [| ? ? Hnotin Hnd']; subst.
  destruct Ha as [-> | Ha], Hb as [-> | Hb].
  - reflexivity.
  - exfalso. apply Hnotin. rewrite Hk. apply in_map. exact Hb.
  - exfalso. apply Hnotin. rewrite <- Hk. apply in_map. exact Ha.
  - apply IH; assumption.
Qed.

Lemma NoDup_snoc {K} (keys : list K) (k : K) :
  NoDup keys -> ~ In k keys -> NoDup (keys ++ [k]).
Proof.
  intros Hnd Hk. induction Hnd as [| x l Hx Hnd IH]; cbn.
  - constructor; [intros [] | constructor].
  - constructor.
    + intros Hin. apply in_app_or in Hin. destruct Hin as [Hin | [-> | []]].
      * contradiction.
      * apply Hk. left. reflexivity.
    + apply IH. intros Hin. apply Hk. right. exact Hin.
Qed.

(** A row of the update keeps its id, its duty schedule and its student. *)
Lemma set_row_keys (u : UpdateData.t) (r : AttendanceRecord.t) :
  AttendanceRecord.id (set_row u r) = AttendanceRecord.id r /\
  AttendanceRecord.duty_schedule_id (set_row u r)
  = AttendanceRecord.duty_schedule_id r /\
  entry_pair (set_row u r) = entry_pair r.
Proof. repeat split. Qed.

(** A key that an update leaves alone has the values it had, each as
    often, in the table after the update. *)
Lemma Permutation_map_keep {R K} (key : R -> K) (g : R -> R) (l l' : list R) :
  Permutation l' (map g l) -> (forall r, key (g r) = key r) ->
  Permutation (map key l') (map key l).
Proof.
  intros Hperm Hkey.
  rewrite <- (map_map_keep key g l Hkey). apply Permutation_map. exact Hperm.
Qed.

(** An update keeps the three properties. *)
Lemma update_keeps_inv (now : Date) (studentId : nat) (status : AttendanceStatus)
    (isLate : bool) (notes : optional string) (st : Client.t) (db : Db)
    (sel : DutySchedule.t) (existingRecord : AttendanceRecord.t) :
  inv (st, db) ->
  Client.selectedSchedule st = Some sel ->
  getAttendanceRecord st studentId = Some existingRecord ->
  inv (handleAttendanceChange now studentId status isLate notes st db).
Proof.
  intros (Hpk & Hsync & Hone) Hsel Hget. cbn [fst snd] in *.
  unfold handleAttendanceChange. rewrite Hsel, Hget.
  rewrite updateAttendanceRecord_run. cbn zeta.
  cbn [UpdateAttendanceRecordInput.id].
  set (input := UpdateAttendanceRecordInput.mk _ _ _ _).
  set (u := build_updateData now input).
  set (cond := fun r => Nat.eqb (AttendanceRecord.id r)
                          (AttendanceRecord.id existingRecord)).
  destruct (existsb cond (attendanceRecordsTable db)) eqn:Eex;
    [| exact (conj Hpk (conj Hsync Hone))].
  destruct (filter_first _ _ Eex) as (r0 & rest & Hf & Hin0 & Hid0).
  assert (Hitem : item0 (map (set_row u)
                           (filter cond (attendanceRecordsTable db)))
                  = defined (set_row u r0)) by (rewrite Hf; reflexivity).
  rewrite Hitem.
  set (g := fun r => if cond r then set_row u r else r).
  pose proof (update_Permutation cond (set_row u) (attendanceRecordsTable db))
    as Hperm.
  change (fun r => if cond r then set_row u r else r) with g in Hperm.
  set (table' := (filter (fun r => negb (cond r)) (attendanceRecordsTable db)
                    ++ map (set_row u) (filter cond (attendanceRecordsTable db)))%list)
    in *.
  assert (Hgid : forall r, AttendanceRecord.id (g r) = AttendanceRecord.id r).
  { intros r. unfold g. destruct (cond r); reflexivity. }
  assert (Hgpair : forall r, entry_pair (g r) = entry_pair r).
  { intros r. unfold g. destruct (cond r); reflexivity. }
  unfold inv, primary_key, one_entry_per_pair in *.
  cbn [fst snd attendanceRecordsTable attendance_records_id_seq].
  destruct Hpk as (Hnd & Hlt). split; [split |]; [| | split].
  - eapply Permutation_NoDup; [| exact Hnd].
    apply Permutation_sym.
    apply (Permutation_map_keep AttendanceRecord.id g); assumption.
  - apply Forall_forall. intros r Hr.
    apply (Permutation_in _ Hperm) in Hr. apply in_map_iff in Hr.
    destruct Hr as (old & <- & Hold). rewrite Hgid.
    rewrite Forall_forall in Hlt. apply Hlt. exact Hold.
  - unfold in_sync in *. cbn [Client.selectedSchedule Client.attendanceRecords].
    rewrite Hsel in *. cbn [attendanceRecordsTable].
    apply Permutation_sym.
    eapply Permutation_trans; [apply filter_Permutation; exact Hperm |].
    rewrite filter_map_keep
      by (intros r; unfold g;
          match goal with
          | |- context [if ?c then _ else _] => destruct c
          end; reflexivity).
    eapply Permutation_trans;
      [apply Permutation_map; apply Permutation_sym; exact Hsync |].
    erewrite map_ext_in; [apply Permutation_refl |].
    intros r Hr.
    assert (Hrin : In r (attendanceRecordsTable db)).
    { apply (Permutation_in _ Hsync) in Hr. apply filter_In in Hr. apply Hr. }
    unfold g, cond in *. cbn [set_row AttendanceRecord.id].
    apply Nat.eqb_eq in Hid0. rewrite Hid0.
    destruct (Nat.eqb_spec (AttendanceRecord.id r)
                (AttendanceRecord.id existingRecord)) as [E | E];
      [| reflexivity].
    f_equal.
    apply (NoDup_map_eq AttendanceRecord.id (attendanceRecordsTable db));
      try assumption. congruence.
  - eapply Permutation_NoDup; [| exact Hone].
    apply Permutation_sym.
    apply (Permutation_map_keep entry_pair g); assumption.
Qed.

(** A create keeps the three properties. *)
Lemma create_keeps_inv (now : Date) (studentId : nat) (status : AttendanceStatus)
    (isLate : bool) (notes : optional string) (st : Client.t) (db : Db)
    (sel : DutySchedule.t) :
  inv (st, db) ->
  Client.selectedSchedule st = Some sel ->
  getAttendanceRecord st studentId = None ->
  inv (handleAttendanceChange now studentId status isLate notes st db).
Proof.
  intros (Hpk & Hsync & Hone) Hsel Hget. cbn [fst snd] in *.
  unfold handleAttendanceChange. rewrite Hsel, Hget.
  rewrite createAttendanceRecord_run.
  cbn [CreateAttendanceRecordInput.duty_schedule_id
       CreateAttendanceRecordInput.student_id].
  destruct (existsb _ (dutySchedulesTable db));
    [| exact (conj Hpk (conj Hsync Hone))].
  destruct (existsb _ (studentsTable db));
    [| exact (conj Hpk (conj Hsync Hone))].
  unfold insert_attendance_record.
  unfold inv, primary_key, one_entry_per_pair, in_sync in *.
  cbn [fst snd attendanceRecordsTable attendance_records_id_seq
       Client.selectedSchedule Client.attendanceRecords].
  rewrite Hsel in *. destruct Hpk as (Hnd & Hlt).
  rewrite !map_app, filter_app. cbn [map filter AttendanceRecord.id entry_pair
    AttendanceRecord.duty_schedule_id AttendanceRecord.student_id].
  rewrite Nat.eqb_refl.
  split; [split |]; [| | split; [apply Permutation_app_tail; exact Hsync |]].
  - apply NoDup_snoc; [exact Hnd |].
    intros Hin. apply in_map_iff in Hin. destruct Hin as (r & Hid & Hr).
    rewrite Forall_forall in Hlt. specialize (Hlt r Hr). lia.
  - apply Forall_app. split.
    + revert Hlt. apply Forall_impl. intros r Hr. lia.
    + constructor; [cbn; lia | constructor].
  - apply NoDup_snoc; [exact Hone |].
    intros Hin. apply in_map_iff in Hin. destruct Hin as (r & Hpair & Hr).
    unfold entry_pair in Hpair. injection Hpair as Hduty Hstudent.
    assert (Hlocal : In r (Client.attendanceRecords st)).
    { apply (Permutation_in _ (Permutation_sym Hsync)).
      apply filter_In. split; [exact Hr |].
      apply Nat.eqb_eq. exact Hduty. }
    unfold getAttendanceRecord in Hget.
    pose proof (find_none _ _ Hget r Hlocal) as Hno. cbn beta in Hno.
    apply Nat.eqb_neq in Hno. contradiction.
Qed.

(** A save keeps them. *)
Lemma handleAttendanceChange_keeps_inv (now : Date) (studentId : nat)
    (status : AttendanceStatus) (isLate : bool) (notes : optional string)
    (st : Client.t) (db : Db) :
  inv (st, db) ->
  inv (handleAttendanceChange now studentId status isLate notes st db).
Proof.
  intros Hinv.
  destruct (Client.selectedSchedule st) as [sel |] eqn:Hsel.
  - destruct (getAttendanceRecord st studentId) as [existingRecord |] eqn:Hget.
    + eapply update_keeps_inv; eassumption.
    + eapply create_keeps_inv; eassumption.
  - unfold handleAttendanceChange. rewrite Hsel. exact Hinv.
Qed.

(** The load that comes back gives them: the records of the component
    are then those the store has for the selected schedule. *)
Lemma load_effect_gives_inv (st : Client.t) (db : Db) :
  primary_key db -> one_entry_per_pair (attendanceRecordsTable db) ->
  inv (load_effect st db).
Proof.
  intros Hpk Hone. unfold load_effect.
  destruct (Client.selectedSchedule st) as [sel |] eqn:Hsel.
  - unfold loadStudentsAndAttendance.
    rewrite getStudentsByFloor_run, getAttendanceByDutySchedule_run.
    split; [exact Hpk | split; [| exact Hone]].
    unfold in_sync. cbn [fst snd Client.selectedSchedule Client.attendanceRecords].
    rewrite Hsel. apply Permutation_refl.
  - split; [exact Hpk | split; [| exact Hone]].
    unfold in_sync. cbn [fst]. rewrite Hsel. exact I.
Qed.

(** A sequence in which every selection is followed at once by its load
    keeps them; while a load is awaited, the store is as it was. *)
Lemma settled_run_keeps_inv (es : list event) :
  forall (loading : bool) (s : Client.t * Db),
    settled_from loading es = true ->
    primary_key (snd s) ->
    one_entry_per_pair (attendanceRecordsTable (snd s)) ->
    (loading = false -> in_sync (fst s) (snd s)) ->
    inv (run es s).
Proof.
  induction es as [| e es IH]; intros loading s Hes Hpk Hone Hsync.
  - cbn [settled_from] in Hes. destruct loading; [discriminate Hes |].
    exact (conj Hpk (conj (Hsync eq_refl) Hone)).
  - cbn [run fold_left]. fold (run es (step e s)).
    destruct s as [st db]. cbn [fst snd] in *.
    destruct e as [now studentId status isLate notes | scheduleId |];
      cbn [settled_from] in Hes; cbn [step fst snd].
    + destruct loading; [discriminate Hes |].
      pose proof (handleAttendanceChange_keeps_inv now studentId status isLate
                    notes st db (conj Hpk (conj (Hsync eq_refl) Hone)))
        as (Hpk' & Hsync' & Hone').
      apply (IH false); [exact Hes | exact Hpk' | exact Hone' |].
      intros _. exact Hsync'.
    + destruct loading; [discriminate Hes |].
      apply (IH true); [exact Hes | exact Hpk | exact Hone |].
      intros C. discriminate C.
    + pose proof (load_effect_gives_inv st db Hpk Hone) as (Hpk' & Hsync' & Hone').
      apply (IH false); [exact Hes | exact Hpk' | exact Hone' |].
      intros _. exact Hsync'.
Qed.

(** C7.  The saving code looks the student up in the records of the
    component: when it finds a record it calls [updateAttendanceRecord]
    with the id of that record, and it calls [createAttendanceRecord] only
    when it finds none.  So, from a store keyed by [id] with at most one
    record for each duty schedule and student, and a component whose
    records are those of the store for its selected schedule (as they are
    once loaded, or with no schedule selected), every sequence of saves,
    and of schedule selections each followed at once by its load, leaves
    at most one record for each duty schedule and student, and the
    component and the store as they were related. *)
Theorem saves_keep_one_entry_per_pair (es : list event) (st : Client.t) (db : Db) :
  primary_key db ->
  in_sync st db ->
  one_entry_per_pair (attendanceRecordsTable db) ->
  settled es = true ->
  one_entry_per_pair (attendanceRecordsTable (snd (run es (st, db)))) /\
  primary_key (snd (run es (st, db))) /\
  in_sync (fst (run es (st, db))) (snd (run es (st, db))) /\
  (forall (now : Date) (studentId : nat) (status : AttendanceStatus)
          (isLate : bool) (notes : optional string)
          (st' : Client.t) (db' : Db) (sel : DutySchedule.t),
      Client.selectedSchedule st' = Some sel ->
      (forall existingRecord : AttendanceRecord.t,
          getAttendanceRecord st' studentId = Some existingRecord ->
          In existingRecord (Client.attendanceRecords st') /\
          AttendanceRecord.student_id existingRecord = studentId /\
          snd (handleAttendanceChange now studentId status isLate notes st' db')
          = snd (updateAttendanceRecord now
                   (UpdateAttendanceRecordInput.mk
                      (AttendanceRecord.id existingRecord)
                      (defined status) (defined isLate)
                      (defined (notes_or_null notes))) db')) /\
      (getAttendanceRecord st' studentId = None ->
       (forall r : AttendanceRecord.t,
           In r (Client.attendanceRecords st') ->
           AttendanceRecord.student_id r <> studentId) /\
       snd (handleAttendanceChange now studentId status isLate notes st' db')
       = snd (createAttendanceRecord now
                (CreateAttendanceRecordInput.mk (DutySchedule.id sel)
                   studentId status isLate (defined (notes_or_null notes)))
                db'))).
Proof.
  intros Hpk Hsync Hone Hes.
  pose proof (settled_run_keeps_inv es false (st, db) Hes Hpk Hone
                (fun _ => Hsync))
    as (Hpk' & Hsync' & Hone').
  split; [exact Hone' |]. split; [exact Hpk' |]. split; [exact Hsync' |].
  intros now studentId status isLate notes st' db' sel Hsel. split.
  - intros existingRecord Hget.
    pose proof (find_some _ _ Hget) as (Hin & Hstudent).
    apply Nat.eqb_eq in Hstudent.
    split; [exact Hin |]. split; [exact Hstudent |].
    unfold handleAttendanceChange. rewrite Hsel, Hget.
    destruct (updateAttendanceRecord _ _ db') as [[[| updated] | msg] db''];
      reflexivity.
  - intros Hget. split.
    + intros r Hr. pose proof (find_none _ _ Hget r Hr) as Hno.
      apply Nat.eqb_neq in Hno. exact Hno.
    + unfold handleAttendanceChange. rewrite Hsel, Hget.
      destruct (createAttendanceRecord _ _ db') as [[newRecord | msg] db''];
        reflexivity.
Qed.

(** A session on the sample store: the schedule is selected and loaded,
    the first student is saved twice and the second once. *)
Lemma saves_keep_one_entry_per_pair_witness :
  one_entry_per_pair
    (attendanceRecordsTable
       (snd (run [Select "1"; Loaded;
                  Save 7%Z 1 Present true (defined "Overslept");
                  Save 8%Z 1 Sick false undefined;
                  Save 9%Z 2 Absent false (defined "")]
                 (initial [Sample.schedule1], Sample.db0)))).
Proof.
  apply (saves_keep_one_entry_per_pair
           [Select "1"; Loaded;
            Save 7%Z 1 Present true (defined "Overslept");
            Save 8%Z 1 Sick false undefined;
            Save 9%Z 2 Absent false (defined "")]
           (initial [Sample.schedule1]) Sample.db0).
  - split; [constructor | constructor].
  - exact I.
  - constructor.
  - reflexivity.
Defined.

(** The store after that session: one record for each student, the
    first one as the second save left it. *)
Example session_records :
  attendanceRecordsTable
    (snd (run [Select "1"; Loaded;
               Save 7%Z 1 Present true (defined "Overslept");
               Save 8%Z 1 Sick false undefined;
               Save 9%Z 2 Absent false (defined "")]
              (initial [Sample.schedule1], Sample.db0)))
  = [AttendanceRecord.mk 1 1 1 Sick false None 7%Z 8%Z;
     AttendanceRecord.mk 2 1 2 Absent false None 9%Z 9%Z].
Proof. reflexivity. Qed.

(** C7, as the claim has it, fails: the bound on the store alone is not
    kept.  The teacher selects the schedule 2, whose students and records
    are loaded, then the schedule 3, whose load fails: the component
    keeps the records of the schedule 2, which are none.  The store has
    one record for each pair then; the save of the first student finds no
    record in the component, calls [createAttendanceRecord], and the store
    has two records for the schedule 3 and the student 1. *)
Lemma stale_records_duplicate_entry :
  let before :=
    run [Select "2"; Loaded; Select "3"]
        (initial Sample.week, Sample.db3) in
  let after := step (Save 9%Z 1 Sick false undefined) before in
  primary_key (snd before) /\
  one_entry_per_pair (attendanceRecordsTable (snd before)) /\
  Client.students (fst before) = [Sample.student1; Sample.student2] /\
  attendanceRecordsTable (snd after)
  = [AttendanceRecord.mk 1 3 1 Present false None 5%Z 5%Z;
     AttendanceRecord.mk 2 3 1 Sick false None 9%Z 9%Z] /\
  ~ one_entry_per_pair (attendanceRecordsTable (snd after)).
Proof.
  cbn zeta. split; [| split; [| split; [| split]]].
  - split.
    + cbn. constructor; [intros [] | constructor].
    + cbn. constructor; [cbn; lia | constructor].
  - cbn. constructor; [intros [] | constructor].
  - reflexivity.
  - reflexivity.
  - cbn. intros H. inversion H as [| x l Hnot _]. apply Hnot. left. reflexivity.
Qed.

(* --------------------------------------------------------------------- *)
(** ** The attendance report                                             *)
(* --------------------------------------------------------------------- *)

(** A condition on the left rows of a join can be put on the left table. *)
Lemma filter_innerJoin_left {L R} (c : L -> bool) (on : L -> R -> bool)
    (left : list L) (right : list R) :
  filter (fun lr => c (fst lr)) (innerJoin left right on)
  = innerJoin (filter c left) right on.
Proof.
  unfold innerJoin. induction left as [| l ls IH]; [reflexivity |].
  cbn [flat_map filter]. rewrite filter_app, IH.
  destruct (c l) eqn:E; cbn [flat_map]; f_equal.
  - induction (filter (on l) right) as [| r rs IHr]; [reflexivity |].
    cbn [map filter fst]. rewrite E, IHr. reflexivity.
  - induction (filter (on l) right) as [| r rs IHr]; [reflexivity |].
    cbn [map filter fst]. rewrite E. exact IHr.
Qed.

(** In a keyed table a condition that picks out one key selects one row. *)
Lemma filter_key {R} (key : R -> nat) (p : R -> bool) (rows : list R) (x : R) :
  NoDup (map key rows) -> In x rows ->
  (forall y, p y = true <-> key y = key x) ->
  filter p rows = [x].
Proof.
  intros Hnd Hin Hp. induction rows as [| r rs IH]; [destruct Hin |].
  cbn [map] in Hnd. inversion Hnd as [| ? ? Hnotin Hnd']; subst.
  assert (Hnone : forall l : list R,
             ~ In (key x) (map key l) -> filter p l = []).
  { intros l Hl. induction l as [| y l IHl]; [reflexivity |].
    cbn [filter]. destruct (p y) eqn:E.
    - exfalso. apply Hl. left. apply Hp. exact E.
    - apply IHl. intros C. apply Hl. right. exact C. }
  cbn [filter]. destruct Hin as [-> | Hin].
  - rewrite (proj2 (Hp x) eq_refl). f_equal. apply Hnone. exact Hnotin.
  - destruct (p r) eqn:E.
    + exfalso. apply Hnotin. apply Hp in E. rewrite E. apply in_map. exact Hin.
    + apply IH; assumption.
Qed.

(** Where every left row has its row of a keyed right table, the join
    has one row for each left row, in their order. *)
Lemma innerJoin_students (entries : list AttendanceRecord.t)
    (students : list Student.t) :
  NoDup (map Student.id students) ->
  (forall a, In a entries ->
             exists s, In s students /\ Student.id s = AttendanceRecord.student_id a) ->
  exists studs : list Student.t,
    Forall2 (fun a s => In s students
                        /\ Student.id s = AttendanceRecord.student_id a)
      entries studs /\
    innerJoin entries students
      (fun a s => Nat.eqb (AttendanceRecord.student_id a) (Student.id s))
    = combine entries studs.
Proof.
  intros Hnd. induction entries as [| a es IH]; intros Href.
  - exists []. split; [constructor | reflexivity].
  - destruct IH as (studs & Hall & Hjoin).
    { intros b Hb. apply Href. right. exact Hb. }
    destruct (Href a (or_introl eq_refl)) as (s & Hin & Hid).
    exists (s :: studs). split; [constructor; [split; assumption | exact Hall] |].
    unfold innerJoin in *. cbn [flat_map combine].
    rewrite (filter_key Student.id _ students s Hnd Hin), Hjoin; [reflexivity |].
    intros y. rewrite Nat.eqb_eq, Hid. split; intros E; symmetry; exact E.
Qed.

(** The [forEach] adds the detail lines after the lines that are there. *)
Lemma push_details_map (attendanceData : list (AttendanceRecord.t * Student.t)) :
  forall reportContent : list string,
    push_details reportContent attendanceData
    = (reportContent ++ map detail_line attendanceData)%list.
Proof.
  unfold push_details.
  induction attendanceData as [| record rest IH]; intros reportContent.
  - cbn. rewrite app_nil_r. reflexivity.
  - cbn [fold_left map]. rewrite IH, <- app_assoc. reflexivity.
Qed.

(** *** Lines of a text *)

Lemma lines_cons (text : string) : exists l ls, lines text = l :: ls.
Proof.
  destruct text as [| c rest]; cbn [lines]; [eauto |].
  destruct (Ascii.eqb c (ascii_of_nat 10)); [eauto |].
  destruct (lines rest); eauto.
Qed.

Lemma no_LF_app (a b : string) : no_LF (a ++ b) = no_LF a && no_LF b.
Proof.
  induction a as [| c a IH]; [reflexivity |].
  cbn [append no_LF]. rewrite IH, andb_assoc. reflexivity.
Qed.

Lemma append_empty (a : string) : a ++ "" = a.
Proof.
  induction a as [| c a IH]; [reflexivity |]. cbn [append]. rewrite IH.
  reflexivity.
Qed.

(** A string without a line feed, put before a text, is put before its
    first line. *)
Lemma lines_app (a text : string) :
  no_LF a = true ->
  lines (a ++ text) = (a ++ hd "" (lines text)) :: tl (lines text).
Proof.
  intros Ha. induction a as [| c a IH].
  - cbn [append]. destruct (lines_cons text) as (l & ls & ->). reflexivity.
  - cbn [no_LF] in Ha. apply andb_true_iff in Ha. destruct Ha as (Hc & Ha).
    cbn [append lines]. apply negb_true_iff in Hc. rewrite Hc, (IH Ha).
    reflexivity.
Qed.

Lemma lines_no_LF (a : string) : no_LF a = true -> lines a = [a].
Proof.
  intros Ha. induction a as [| c a IH]; [reflexivity |].
  cbn [no_LF] in Ha. apply andb_true_iff in Ha. destruct Ha as (Hc & Ha).
  cbn [lines]. apply negb_true_iff in Hc. rewrite Hc, (IH Ha). reflexivity.
Qed.

(** Splitting undoes joining, for elements without a line feed. *)
Lemma lines_concat (l : string) (ls : list string) :
  Forall (fun x => no_LF x = true) (l :: ls) ->
  lines (String.concat LF (l :: ls)) = l :: ls.
Proof.
  revert l. induction ls as [| l' ls IH]; intros l Hall.
  - cbn [String.concat]. apply lines_no_LF.
    inversion Hall; assumption.
  - inversion Hall as [| ? ? Hl Hrest]; subst.
    change (String.concat LF (l :: l' :: ls))
      with (l ++ LF ++ String.concat LF (l' :: ls)).
    rewrite (lines_app _ _ Hl).
    change (LF ++ String.concat LF (l' :: ls))
      with (String (ascii_of_nat 10) (String.concat LF (l' :: ls))).
    cbn [lines]. rewrite Ascii.eqb_refl, (IH l' Hrest). cbn [hd tl].
    rewrite append_empty. reflexivity.
Qed.

(** The digits of a number have no line feed among them. *)
Lemma no_LF_Number_toString (n : nat) : no_LF (Number_toString n) = true.
Proof.
  unfold Number_toString, NilZero.string_of_uint.
  assert (H : forall d, no_LF (NilEmpty.string_of_uint d) = true).
  { induction d; cbn; assumption || reflexivity. }
  destruct (Nat.to_uint n); try apply H. reflexivity.
Qed.

Lemma no_LF_enums (l : ClassLevel) (c : ClassSection) (s : AttendanceStatus)
    (f : Floor) :
  no_LF (ClassLevel_str l) = true /\ no_LF (ClassSection_str c) = true /\
  no_LF (AttendanceStatus_str s) = true /\ no_LF (Floor_str f) = true.
Proof. destruct l, c, s, f; repeat split. Qed.

(** Rows paired by [combine] are related as the lists are. *)
Lemma Forall2_combine {X Y} (P : X -> Y -> Prop) (xs : list X) (ys : list Y) :
  Forall2 P xs ys -> forall x y, In (x, y) (combine xs ys) -> P x y.
Proof.
  induction 1 as [| x0 y0 xs ys Hxy Hall IH]; intros x y Hin; [destruct Hin |].
  cbn [combine] in Hin. destruct Hin as [E | Hin].
  - injection E as <- <-. exact Hxy.
  - apply IH. exact Hin.
Qed.

Section Report.

Variable toDateString : Date -> string.

(** C4.  For a duty schedule of the store with its teacher, the tables
    being keyed by [id] and every attendance record having its student,
    and whatever the order in which the database returns the rows of a
    join, the report is the items below joined by line feeds: the header
    with the teacher's name and NIP, the date and the floor; the six
    counts of the summary in the order total, present, sick, permission,
    absent, late; then one item for each attendance record of the duty
    schedule with its student, in the order in which the join returned
    them, with the student's name, the class, the status, [" (Late)"] for
    a late record and the notes where there are any.  The store is left
    as it is.  Where no name, NIP, date or note has a line feed in it,
    the items are the lines of the text. *)
Theorem generateAttendanceReport_layout (order : row_order)
    (db : Db) (d : DutySchedule.t) (t : Teacher.t) :
  rearranges order ->
  NoDup (map DutySchedule.id (dutySchedulesTable db)) ->
  NoDup (map Teacher.id (teachersTable db)) ->
  NoDup (map Student.id (studentsTable db)) ->
  (forall a, In a (attendanceRecordsTable db) ->
             has_student db (AttendanceRecord.student_id a)) ->
  In d (dutySchedulesTable db) ->
  In t (teachersTable db) ->
  Teacher.id t = DutySchedule.teacher_id d ->
  let entries := entries_of (DutySchedule.id d) db in
  let line := fun (a : AttendanceRecord.t) (s : Student.t) =>
    Student.name s ++ " (" ++ ClassLevel_str (Student.class_level s)
      ++ ClassSection_str (Student.class_section s) ++ ") - "
      ++ AttendanceStatus_str (AttendanceRecord.status a)
      ++ (if AttendanceRecord.is_late a then " (Late)" else "")
      ++ match AttendanceRecord.notes a with
         | Some n => if n =? "" then "" else " - " ++ n
         | None => ""
         end in
  exists studs : list Student.t,
    let attendanceData := order _ (combine entries studs) in
    let report_items :=
      List.app
        [ "ATTENDANCE REPORT";
          "================";
          "Teacher: " ++ Teacher.name t ++ " (" ++ Teacher.nip t ++ ")";
          "Date: " ++ toDateString (DutySchedule.duty_date d);
          "Floor: " ++ Floor_str (DutySchedule.floor d);
          "";
          "SUMMARY:";
          "Total Students: " ++ Number_toString (List.length entries);
          "Present: " ++ Number_toString (count (has_status Present) entries);
          "Sick: " ++ Number_toString (count (has_status Sick) entries);
          "Permission: "
            ++ Number_toString (count (has_status Permission) entries);
          "Absent: " ++ Number_toString (count (has_status Absent) entries);
          "Late: " ++ Number_toString (count AttendanceRecord.is_late entries);
          "";
          "DETAILED LIST:";
          "==============" ]
        (map (fun p => line (fst p) (snd p)) attendanceData) in
    Forall2 (fun a s => In s (studentsTable db)
                        /\ Student.id s = AttendanceRecord.student_id a)
      entries studs /\
    Permutation attendanceData (combine entries studs) /\
    generateAttendanceReport toDateString order (DutySchedule.id d) db
    = (Returned (String.concat LF report_items), db) /\
    (no_LF (Teacher.name t) = true ->
     no_LF (Teacher.nip t) = true ->
     no_LF (toDateString (DutySchedule.duty_date d)) = true ->
     (forall s, In s (studentsTable db) -> no_LF (Student.name s) = true) ->
     (forall a n, In a entries -> AttendanceRecord.notes a = Some n ->
                  no_LF n = true) ->
     lines (String.concat LF report_items) = report_items).
Proof.
  intros Horder Hkd Hkt Hks Href Hd Ht Hid entries line.
  destruct (innerJoin_students entries (studentsTable db) Hks)
    as (studs & Hall & Hjoin).
  { intros a Ha. apply Href. unfold entries, entries_of in Ha.
    apply filter_In in Ha. apply Ha. }
  exists studs. cbn zeta. split; [exact Hall |].
  split; [apply Horder |]. split.
  - unfold generateAttendanceReport, bind, select_join.
    (* the duty schedule and its teacher *)
    rewrite (filter_innerJoin_left
               (fun x => Nat.eqb (DutySchedule.id x) (DutySchedule.id d))).
    rewrite (filter_key DutySchedule.id _ (dutySchedulesTable db) d Hkd Hd)
      by (intros y; apply Nat.eqb_eq).
    unfold innerJoin at 1. cbn [flat_map].
    rewrite (filter_key Teacher.id _ (teachersTable db) t Hkt Ht)
      by (intros y; rewrite Nat.eqb_eq, Hid; split; intros E; symmetry; exact E).
    cbn [map app].
    rewrite (Permutation_length_1_inv (Permutation_sym (Horder _ [(d, t)]))).
    (* the records and their students *)
    rewrite (filter_innerJoin_left
               (fun x => Nat.eqb (AttendanceRecord.duty_schedule_id x)
                           (DutySchedule.id d))).
    fold (entries_of (DutySchedule.id d) db). fold entries. rewrite Hjoin.
    rewrite getAttendanceSummary_run. fold entries. unfold ret.
    rewrite push_details_map. unfold report_head. cbn [fst snd].
    destruct (summarize_fields entries) as (-> & -> & -> & -> & -> & ->).
    do 3 f_equal. cbn [List.app]. do 16 f_equal.
    apply map_ext. intros [a s]. unfold detail_line, line.
    cbn [fst snd]. do 7 f_equal.
    destruct (AttendanceRecord.notes a) as [n |]; [| reflexivity].
    cbn [truthy template]. destruct (n =? ""); reflexivity.
  - intros Hname Hnip Hdate Hstudents Hnotes. cbn [List.app].
    apply lines_concat.
    destruct (no_LF_enums L7 A Present (DutySchedule.floor d))
      as (_ & _ & _ & Hfloor).
    repeat apply Forall_cons;
      rewrite ?no_LF_app, ?no_LF_Number_toString, ?Hname, ?Hnip, ?Hdate,
        ?Hfloor; try reflexivity.
    apply Forall_forall. intros x Hx. apply in_map_iff in Hx.
    destruct Hx as ([a s] & <- & Hin). cbn [fst snd]. unfold line.
    apply (Permutation_in _ (Horder _ (combine entries studs))) in Hin.
    pose proof (in_combine_l _ _ _ _ Hin) as Ha.
    destruct (Forall2_combine _ _ _ Hall a s Hin) as (Hs & _).
    destruct (no_LF_enums (Student.class_level s) (Student.class_section s)
                (AttendanceRecord.status a) F2) as (Hl & Hc & Hst & _).
    rewrite !no_LF_app, (Hstudents s Hs), Hl, Hc, Hst.
    destruct (AttendanceRecord.is_late a); cbn [andb no_LF];
      (destruct (AttendanceRecord.notes a) as [n |] eqn:En; [| reflexivity];
       destruct (n =? ""); [reflexivity |];
       rewrite no_LF_app, (Hnotes a n Ha En); reflexivity).
Qed.

End Report.

(** The order of the enumeration, and the reverse order, rearrange. *)
Lemma as_listed_rearranges : rearranges as_listed.
Proof. intros R rows. apply Permutation_refl. Qed.

Lemma rev_rearranges : rearranges (fun R => @rev R).
Proof. intros R rows. apply Permutation_sym. apply Permutation_rev. Qed.

Lemma generateAttendanceReport_layout_witness :
  exists report : string,
    generateAttendanceReport (fun _ => "Mon Jan 15 2024") (fun R => @rev R) 1
      Sample.db2
    = (Returned report, Sample.db2) /\
    lines report
    = [ "ATTENDANCE REPORT";
        "================";
        "Teacher: Test Teacher (123456789)";
        "Date: Mon Jan 15 2024";
        "Floor: 2";
        "";
        "SUMMARY:";
        "Total Students: 2";
        "Present: 1";
        "Sick: 0";
        "Permission: 0";
        "Absent: 1";
        "Late: 1";
        "";
        "DETAILED LIST:";
        "==============";
        "Test Student 2 (7B) - absent";
        "Test Student (7A) - present (Late) - Test notes" ].
Proof.
  destruct (generateAttendanceReport_layout (fun _ => "Mon Jan 15 2024")
              (fun R => @rev R) Sample.db2 Sample.schedule1 Sample.teacher1)
    as (studs & Hall & _ & Hrun & Hlines).
  - apply rev_rearranges.
  - cbn. repeat constructor; cbn; intuition discriminate.
  - cbn. repeat constructor; cbn; intuition discriminate.
  - cbn. repeat constructor; cbn; intuition discriminate.
  - intros a Ha. apply has_student_existsb.
    cbn in Ha. destruct Ha as [<- | [<- | []]]; reflexivity.
  - left. reflexivity.
  - left. reflexivity.
  - reflexivity.
  - change (entries_of (DutySchedule.id Sample.schedule1) Sample.db2)
      with [Sample.record1; Sample.record2] in *.
    inversion Hall as [| a1 s1 l1 k1 (Hs1 & Hid1) Hall1]; subst.
    inversion Hall1 as [| a2 s2 l2 k2 (Hs2 & Hid2) Hall2]; subst.
    inversion Hall2; subst.
    cbn in Hs1, Hs2.
    destruct Hs1 as [<- | [<- | []]]; [| discriminate Hid1].
    destruct Hs2 as [<- | [<- | []]]; [discriminate Hid2 |].
    eexists. split; [exact Hrun |].
    rewrite Hlines; [reflexivity | reflexivity | reflexivity | reflexivity | |].
    + intros s Hs. cbn in Hs. destruct Hs as [<- | [<- | []]]; reflexivity.
    + intros a n Ha Hn. cbn in Ha.
      destruct Ha as [<- | [<- | []]]; cbn in Hn; [| discriminate Hn].
      injection Hn as <-. reflexivity.
Defined.

(** C4, as the claim has it, fails: a note is put into the report as it
    is, and the notes of a record are free text.  The store below has one
    attendance record for the duty schedule, with a line feed in its
    notes: after the sixteen lines of the header and the summary the
    report has two lines for it. *)
Lemma report_note_line_feed :
  exists report : string,
    generateAttendanceReport (fun _ => "Mon Jan 15 2024") as_listed 1
      Sample.db_note
    = (Returned report, Sample.db_note) /\
    List.length (entries_of 1 Sample.db_note) = 1 /\
    skipn 16 (lines report)
    = ["Test Student (7A) - sick - flu"; "back on Monday"].
Proof.
  eexists. split; [reflexivity |]. split; reflexivity.
Qed.

(** The report of the sample store, line by line. *)
Example report_of_sample :
  fst (generateAttendanceReport (fun _ => "Mon Jan 15 2024") as_listed 1
         Sample.db2)
  = Returned
      (String.concat LF
         [ "ATTENDANCE REPORT";
           "================";
           "Teacher: Test Teacher (123456789)";
           "Date: Mon Jan 15 2024";
           "Floor: 2";
           "";
           "SUMMARY:";
           "Total Students: 2";
           "Present: 1";
           "Sick: 0";
           "Permission: 0";
           "Absent: 1";
           "Late: 1";
           "";
           "DETAILED LIST:";
           "==============";
           "Test Student (7A) - present (Late) - Test notes";
           "Test Student 2 (7B) - absent" ]).
Proof. reflexivity. Qed.

(** No schedule of the id, or none with its teacher: the handler throws. *)
Example report_of_unknown_schedule :
  generateAttendanceReport (fun _ => "") as_listed 99 Sample.db2
  = (Thrown "Duty schedule not found", Sample.db2).
Proof. reflexivity. Qed.

(* --------------------------------------------------------------------- *)
(** ** Deleting attendance records, and how the handlers compose         *)
(* --------------------------------------------------------------------- *)

(** The two ways a call of [deleteAttendanceRecord] goes. *)
Lemma deleteAttendanceRecord_run (id : nat) (db : Db) :
  deleteAttendanceRecord id db =
  if existsb (fun r => Nat.eqb (AttendanceRecord.id r) id)
       (attendanceRecordsTable db)
  then
    (Returned true,
     mkDb (teachersTable db) (studentsTable db) (dutySchedulesTable db)
       (filter (fun r => negb (Nat.eqb (AttendanceRecord.id r) id))
          (attendanceRecordsTable db))
       (attendance_records_id_seq db))
  else (Returned false, db).
Proof.
  unfold deleteAttendanceRecord, bind, select, ret.
  rewrite select_length_0.
  destruct (existsb _ (attendanceRecordsTable db)); reflexivity.
Qed.

(** X1.  [deleteAttendanceRecord] returns [false] and leaves the store
    as it is when no record has the id.  When one has, it returns [true];
    the records left are those of the other ids, no record has the id any
    more, nothing else changes, and deleting again returns [false]. *)
Theorem deleteAttendanceRecord_removes (id : nat) (db : Db) :
  (~ has_attendance_record db id ->
   deleteAttendanceRecord id db = (Returned false, db))
  /\
  (has_attendance_record db id ->
   exists db' : Db,
     deleteAttendanceRecord id db = (Returned true, db') /\
     (forall r, In r (attendanceRecordsTable db') <->
                In r (attendanceRecordsTable db) /\ AttendanceRecord.id r <> id) /\
     ~ has_attendance_record db' id /\
     teachersTable db' = teachersTable db /\
     studentsTable db' = studentsTable db /\
     dutySchedulesTable db' = dutySchedulesTable db /\
     attendance_records_id_seq db' = attendance_records_id_seq db /\
     deleteAttendanceRecord id db' = (Returned false, db')).
Proof.
  rewrite (deleteAttendanceRecord_run id db), has_attendance_record_existsb.
  destruct (existsb _ (attendanceRecordsTable db)) eqn:E.
  - split; [intros H; exfalso; apply H; reflexivity |]. intros _.
    eexists. split; [reflexivity |].
    cbn [attendanceRecordsTable teachersTable studentsTable dutySchedulesTable
         attendance_records_id_seq].
    assert (Hin : forall r,
               In r (filter (fun r => negb (Nat.eqb (AttendanceRecord.id r) id))
                       (attendanceRecordsTable db)) <->
               In r (attendanceRecordsTable db) /\ AttendanceRecord.id r <> id).
    { intros r. rewrite filter_In, negb_true_iff, Nat.eqb_neq. reflexivity. }
    assert (Hgone : existsb (fun r => Nat.eqb (AttendanceRecord.id r) id)
                      (filter (fun r => negb (Nat.eqb (AttendanceRecord.id r) id))
                         (attendanceRecordsTable db)) = false).
    { apply not_true_is_false. intros C. apply existsb_exists in C.
      destruct C as (r & Hr & Hid). apply Hin in Hr. apply Nat.eqb_eq in Hid.
      tauto. }
    split; [exact Hin |].
    split; [rewrite has_attendance_record_existsb; cbn [attendanceRecordsTable];
            rewrite Hgone; discriminate |].
    do 4 (split; [reflexivity |]).
    rewrite deleteAttendanceRecord_run. cbn [attendanceRecordsTable].
    rewrite Hgone. reflexivity.
  - split; [reflexivity | intros H; discriminate H].
Qed.

Lemma deleteAttendanceRecord_removes_witness :
  deleteAttendanceRecord 99 Sample.db2 = (Returned false, Sample.db2)
  /\
  exists db' : Db,
    deleteAttendanceRecord 1 Sample.db2 = (Returned true, db') /\
    attendanceRecordsTable db' = [Sample.record2] /\
    deleteAttendanceRecord 1 db' = (Returned false, db').
Proof.
  split.
  - apply (deleteAttendanceRecord_removes 99 Sample.db2).
    rewrite has_attendance_record_existsb. cbn. discriminate.
  - destruct (deleteAttendanceRecord_removes 1 Sample.db2) as (_ & H).
    destruct H as (db' & Hrun & _ & _ & _ & _ & _ & _ & Hagain).
    + rewrite has_attendance_record_existsb. reflexivity.
    + exists db'. split; [exact Hrun |]. split; [| exact Hagain].
      cbn in Hrun. injection Hrun as <-. reflexivity.
Defined.

(** Rows below the sequence are not the row the sequence gives next. *)
Lemma filter_below_seq (rows : list AttendanceRecord.t) (seq : nat) :
  Forall (fun r => AttendanceRecord.id r < seq) rows ->
  filter (fun r => negb (Nat.eqb (AttendanceRecord.id r) seq)) rows = rows.
Proof.
  induction 1 as [| r rs Hr Hrs IH]; [reflexivity |].
  cbn [filter]. destruct (Nat.eqb_spec (AttendanceRecord.id r) seq) as [E | E].
  - lia.
  - cbn [negb]. rewrite IH. reflexivity.
Qed.

(** X2.  In a store keyed by [id], deleting the record that
    [createAttendanceRecord] has just returned gives back the tables as
    they were before the create; only the sequence has moved on, so the
    id is not given out again. *)
Theorem create_then_delete (now : Date) (input : CreateAttendanceRecordInput.t)
    (db : Db) :
  primary_key db ->
  has_duty_schedule db (CreateAttendanceRecordInput.duty_schedule_id input) ->
  has_student db (CreateAttendanceRecordInput.student_id input) ->
  exists (record : AttendanceRecord.t) (db' db'' : Db),
    createAttendanceRecord now input db = (Returned record, db') /\
    AttendanceRecord.id record = attendance_records_id_seq db /\
    deleteAttendanceRecord (AttendanceRecord.id record) db'
    = (Returned true, db'') /\
    attendanceRecordsTable db'' = attendanceRecordsTable db /\
    teachersTable db'' = teachersTable db /\
    studentsTable db'' = studentsTable db /\
    dutySchedulesTable db'' = dutySchedulesTable db /\
    attendance_records_id_seq db'' = S (attendance_records_id_seq db).
Proof.
  intros (_ & Hlt) Hd Hs. rewrite createAttendanceRecord_run.
  apply has_duty_schedule_existsb in Hd. apply has_student_existsb in Hs.
  rewrite Hd, Hs. unfold insert_attendance_record.
  eexists. eexists. eexists. split; [reflexivity |].
  cbn [AttendanceRecord.id]. split; [reflexivity |].
  rewrite deleteAttendanceRecord_run. cbn [attendanceRecordsTable].
  rewrite existsb_app. cbn [existsb AttendanceRecord.id].
  rewrite Nat.eqb_refl, orb_true_r. split; [reflexivity |].
  cbn [attendanceRecordsTable teachersTable studentsTable dutySchedulesTable
       attendance_records_id_seq].
  rewrite filter_app, (filter_below_seq _ _ Hlt).
  cbn [filter AttendanceRecord.id]. rewrite Nat.eqb_refl. cbn [negb].
  rewrite app_nil_r. repeat split.
Qed.

Lemma create_then_delete_witness :
  exists (record : AttendanceRecord.t) (db' db'' : Db),
    createAttendanceRecord 7%Z
      (CreateAttendanceRecordInput.mk 1 1 Sick false undefined) Sample.db0
    = (Returned record, db') /\
    deleteAttendanceRecord (AttendanceRecord.id record) db'
    = (Returned true, db'') /\
    attendanceRecordsTable db'' = [] /\
    attendance_records_id_seq db'' = 2.
Proof.
  destruct (create_then_delete 7%Z
              (CreateAttendanceRecordInput.mk 1 1 Sick false undefined)
              Sample.db0)
    as (record & db' & db'' & Hc & _ & Hd & Ht & _ & _ & _ & Hseq).
  - split; constructor.
  - rewrite has_duty_schedule_existsb. reflexivity.
  - rewrite has_student_existsb. reflexivity.
  - exists record, db', db''. repeat split; assumption.
Defined.

(** X3.  After a [createAttendanceRecord] that goes through, the records
    [getAttendanceByDutySchedule] returns for the duty schedule of the
    input are those it returned before followed by the new record; for
    every other duty schedule they are the same as before. *)
Theorem create_then_getAttendanceByDutySchedule (now : Date)
    (input : CreateAttendanceRecordInput.t) (db : Db) (dutyScheduleId : nat) :
  has_duty_schedule db (CreateAttendanceRecordInput.duty_schedule_id input) ->
  has_student db (CreateAttendanceRecordInput.student_id input) ->
  exists (record : AttendanceRecord.t) (db' : Db) (before : list AttendanceRecord.t),
    createAttendanceRecord now input db = (Returned record, db') /\
    getAttendanceByDutySchedule dutyScheduleId db = (Returned before, db) /\
    getAttendanceByDutySchedule dutyScheduleId db'
    = (Returned
         (if Nat.eqb (CreateAttendanceRecordInput.duty_schedule_id input)
                     dutyScheduleId
          then before ++ [record] else before)%list,
       db').
Proof.
  intros Hd Hs. rewrite createAttendanceRecord_run.
  apply has_duty_schedule_existsb in Hd. apply has_student_existsb in Hs.
  rewrite Hd, Hs. unfold insert_attendance_record.
  eexists. eexists. exists (entries_of dutyScheduleId db).
  split; [reflexivity |]. split; [reflexivity |].
  rewrite getAttendanceByDutySchedule_run. unfold entries_of.
  cbn [attendanceRecordsTable]. rewrite filter_app.
  cbn [filter AttendanceRecord.duty_schedule_id].
  destruct (Nat.eqb _ dutyScheduleId); [reflexivity |].
  rewrite app_nil_r. reflexivity.
Qed.

Lemma create_then_getAttendanceByDutySchedule_witness :
  exists (record : AttendanceRecord.t) (db' : Db),
    createAttendanceRecord 7%Z
      (CreateAttendanceRecordInput.mk 1 2 Sick false undefined)
      (mkDb [Sample.teacher1] [Sample.student1; Sample.student2]
            [Sample.schedule1] [Sample.record1] 2)
    = (Returned record, db') /\
    getAttendanceByDutySchedule 1 db'
    = (Returned [Sample.record1; record], db').
Proof.
  destruct (create_then_getAttendanceByDutySchedule 7%Z
              (CreateAttendanceRecordInput.mk 1 2 Sick false undefined)
              (mkDb [Sample.teacher1] [Sample.student1; Sample.student2]
                    [Sample.schedule1] [Sample.record1] 2) 1)
    as (record & db' & before & Hc & Hb & Ha).
  - rewrite has_duty_schedule_existsb. reflexivity.
  - rewrite has_student_existsb. reflexivity.
  - exists record, db'. split; [exact Hc |].
    cbn in Hb. injection Hb as <-. exact Ha.
Defined.

(** What a condition that the update keeps selects in the table after
    it: the updated rows; and what its negation selects: the rows left
    alone. *)
Lemma filter_filter_negb {R} (cond : R -> bool) (rows : list R) :
  filter cond (filter (fun r => negb (cond r)) rows) = [].
Proof.
  induction rows as [| r rs IH]; [reflexivity |].
  cbn [filter]. destruct (cond r) eqn:E; cbn [negb filter]; [exact IH |].
  rewrite E. exact IH.
Qed.

Lemma filter_filter_same {R} (cond : R -> bool) (rows : list R) :
  filter cond (filter cond rows) = filter cond rows.
Proof.
  induction rows as [| r rs IH]; [reflexivity |].
  cbn [filter]. destruct (cond r) eqn:E; [| exact IH].
  cbn [filter]. rewrite E, IH. reflexivity.
Qed.

Lemma filter_updated {R} (cond : R -> bool) (f : R -> R) (rows : list R) :
  (forall r, cond (f r) = cond r) ->
  filter cond
    (filter (fun r => negb (cond r)) rows ++ map f (filter cond rows))
  = map f (filter cond rows).
Proof.
  intros H. rewrite filter_app, filter_filter_negb.
  rewrite (filter_map_keep cond f _ H), filter_filter_same. reflexivity.
Qed.

Lemma filter_negb_updated {R} (cond : R -> bool) (f : R -> R) (rows : list R) :
  (forall r, cond (f r) = cond r) ->
  filter (fun r => negb (cond r))
    (filter (fun r => negb (cond r)) rows ++ map f (filter cond rows))
  = filter (fun r => negb (cond r)) rows.
Proof.
  intros H. rewrite filter_app, filter_filter_same.
  rewrite (filter_map_keep (fun r => negb (cond r)) f)
    by (intros r; rewrite H; reflexivity).
  assert (Hnone : filter (fun r => negb (cond r)) (filter cond rows) = []).
  { clear H. induction rows as [| r rs IH]; [reflexivity |].
    cbn [filter]. destruct (cond r) eqn:E; [| exact IH].
    cbn [filter]. rewrite E. exact IH. }
  rewrite Hnone. cbn [map]. apply app_nil_r.
Qed.

(** X4.  [updateAttendanceRecord] with an id no record has throws
    "Attendance record not found" and leaves the store as it is; with an
    id a record has, a second call with the same input at the same time
    returns what the first returned and changes nothing more. *)
Theorem updateAttendanceRecord_missing_and_again (now : Date)
    (input : UpdateAttendanceRecordInput.t) (db : Db) :
  (~ has_attendance_record db (UpdateAttendanceRecordInput.id input) ->
   updateAttendanceRecord now input db
   = (Thrown "Attendance record not found", db))
  /\
  (has_attendance_record db (UpdateAttendanceRecordInput.id input) ->
   exists (updated : AttendanceRecord.t) (db' : Db),
     updateAttendanceRecord now input db = (Returned (defined updated), db') /\
     updateAttendanceRecord now input db' = (Returned (defined updated), db')).
Proof.
  rewrite (updateAttendanceRecord_run now input db).
  rewrite has_attendance_record_existsb. cbn zeta.
  set (cond := fun r => Nat.eqb (AttendanceRecord.id r)
                          (UpdateAttendanceRecordInput.id input)).
  set (u := build_updateData now input).
  destruct (existsb cond (attendanceRecordsTable db)) eqn:E.
  - split; [intros H; exfalso; apply H; reflexivity |]. intros _.
    destruct (filter_first _ _ E) as (r0 & rest & Hf & Hin & Hid).
    assert (Hitem : item0 (map (set_row u)
                             (filter cond (attendanceRecordsTable db)))
                    = defined (set_row u r0)) by (rewrite Hf; reflexivity).
    assert (Hcond : forall r, cond (set_row u r) = cond r)
      by (intros r; reflexivity).
    assert (Hidem : forall r, set_row u (set_row u r) = set_row u r).
    { intros r. unfold set_row. cbn.
      destruct (UpdateData.status u), (UpdateData.is_late u),
        (UpdateData.notes u), (UpdateData.updated_at u); reflexivity. }
    rewrite Hitem.
    eexists. eexists. split; [reflexivity |].
    rewrite updateAttendanceRecord_run. cbn zeta.
    cbn [attendanceRecordsTable teachersTable studentsTable dutySchedulesTable
         attendance_records_id_seq].
    fold u. fold cond.
    change (fun r : AttendanceRecord.t =>
              negb (Nat.eqb (AttendanceRecord.id r)
                      (UpdateAttendanceRecordInput.id input)))
      with (fun r => negb (cond r)).
    assert (Hex : existsb cond
                    (filter (fun r => negb (cond r)) (attendanceRecordsTable db)
                       ++ map (set_row u)
                            (filter cond (attendanceRecordsTable db))) = true).
    { apply existsb_exists. exists (set_row u r0). split.
      - apply in_or_app. right. rewrite Hf. left. reflexivity.
      - rewrite Hcond. exact Hid. }
    rewrite Hex.
    rewrite (filter_updated cond (set_row u) _ Hcond).
    rewrite (filter_negb_updated cond (set_row u) _ Hcond).
    rewrite map_map.
    rewrite (map_ext _ _ Hidem).
    rewrite Hitem. reflexivity.
  - split; [reflexivity | intros H; discriminate H].
Qed.

Lemma updateAttendanceRecord_missing_and_again_witness :
  updateAttendanceRecord 7%Z
    (UpdateAttendanceRecordInput.mk 99 (defined Absent) undefined undefined)
    Sample.db2
  = (Thrown "Attendance record not found", Sample.db2)
  /\
  exists (updated : AttendanceRecord.t) (db' : Db),
    updateAttendanceRecord 7%Z
      (UpdateAttendanceRecordInput.mk 2 (defined Sick) undefined undefined)
      Sample.db2 = (Returned (defined updated), db') /\
    updateAttendanceRecord 7%Z
      (UpdateAttendanceRecordInput.mk 2 (defined Sick) undefined undefined)
      db' = (Returned (defined updated), db').
Proof.
  split.
  - apply (updateAttendanceRecord_missing_and_again 7%Z
             (UpdateAttendanceRecordInput.mk 99 (defined Absent) undefined undefined)
             Sample.db2).
    rewrite has_attendance_record_existsb. cbn. discriminate.
  - apply (updateAttendanceRecord_missing_and_again 7%Z
             (UpdateAttendanceRecordInput.mk 2 (defined Sick) undefined undefined)
             Sample.db2).
    rewrite has_attendance_record_existsb. reflexivity.
Defined.

(* --------------------------------------------------------------------- *)
(** ** The summary and the handlers                                      *)
(* --------------------------------------------------------------------- *)

(** Summaries with the same six counts are the same. *)
Lemma summary_eq (s1 s2 : AttendanceSummary.t) :
  total s1 = total s2 -> present s1 = present s2 -> sick s1 = sick s2 ->
  permission s1 = permission s2 -> absent s1 = absent s2 -> late s1 = late s2 ->
  s1 = s2.
Proof.
  destruct s1, s2. cbn. intros; subst; reflexivity.
Qed.

(** Summaries of lists with the same counts are the same. *)
Lemma summarize_by_counts (l1 l2 : list AttendanceRecord.t) :
  List.length l1 = List.length l2 ->
  (forall p, In p [has_status Present; has_status Sick; has_status Permission;
                   has_status Absent; AttendanceRecord.is_late] ->
             count p l1 = count p l2) ->
  summarize l1 = summarize l2.
Proof.
  intros Hlen Hcount.
  destruct (summarize_fields l1) as (T1 & P1 & S1 & M1 & A1 & L1).
  destruct (summarize_fields l2) as (T2 & P2 & S2 & M2 & A2 & L2).
  apply summary_eq; rewrite ?T1, ?P1, ?S1, ?M1, ?A1, ?L1, ?T2, ?P2, ?S2, ?M2,
    ?A2, ?L2; try exact Hlen; apply Hcount; cbn; tauto.
Qed.

Lemma count_Permutation (p : AttendanceRecord.t -> bool)
    (l1 l2 : list AttendanceRecord.t) :
  Permutation l1 l2 -> count p l1 = count p l2.
Proof.
  intros H. unfold count. apply Permutation_length.
  induction H as [| x l l' H IH | x y l | l l' l'' H1 IH1 H2 IH2].
  - constructor.
  - cbn [filter]. destruct (p x); [constructor |]; exact IH.
  - cbn [filter]. destruct (p x), (p y); try reflexivity. constructor.
  - eapply Permutation_trans; eassumption.
Qed.

(** The summary of a list is that of any rearrangement of it. *)
Lemma summarize_Permutation (l1 l2 : list AttendanceRecord.t) :
  Permutation l1 l2 -> summarize l1 = summarize l2.
Proof.
  intros H. apply summarize_by_counts.
  - apply Permutation_length. exact H.
  - intros p _. apply count_Permutation. exact H.
Qed.

(** X5.  The summary does not depend on the order of the records: the
    [select] of [getAttendanceSummary] has no [orderBy], and whatever
    order its rows come in, the summary is the same. *)
Theorem summarize_order (records records' : list AttendanceRecord.t) :
  Permutation records records' -> summarize records = summarize records'.
Proof.
  intros H. apply summarize_by_counts.
  - apply Permutation_length. exact H.
  - intros p _. apply count_Permutation. exact H.
Qed.

Lemma summarize_order_witness :
  summarize [Sample.record1; Sample.record2]
  = summarize [Sample.record2; Sample.record1].
Proof.
  apply (summarize_order [Sample.record1; Sample.record2]
           [Sample.record2; Sample.record1]).
  constructor.
Defined.

Lemma count_app (p : AttendanceRecord.t -> bool)
    (l1 l2 : list AttendanceRecord.t) :
  count p (l1 ++ l2) = count p l1 + count p l2.
Proof. unfold count. rewrite filter_app, length_app. reflexivity. Qed.

(** X6.  After a [createAttendanceRecord] that goes through, the summary
    of the duty schedule of the input has one more in [total] and in the
    count of the status of the input, one more in [late] when the input
    is late, and the other counts as before; the summary of every other
    duty schedule is as before. *)
Theorem summary_after_create (now : Date)
    (input : CreateAttendanceRecordInput.t) (db : Db) (other : nat) :
  has_duty_schedule db (CreateAttendanceRecordInput.duty_schedule_id input) ->
  has_student db (CreateAttendanceRecordInput.student_id input) ->
  other <> CreateAttendanceRecordInput.duty_schedule_id input ->
  exists (record : AttendanceRecord.t) (db' : Db)
         (before after : AttendanceSummary.t),
    createAttendanceRecord now input db = (Returned record, db') /\
    getAttendanceSummary (CreateAttendanceRecordInput.duty_schedule_id input) db
    = (Returned before, db) /\
    getAttendanceSummary (CreateAttendanceRecordInput.duty_schedule_id input) db'
    = (Returned after, db') /\
    total after = S (total before) /\
    present after = present before + Nat.b2n (has_status Present record) /\
    sick after = sick before + Nat.b2n (has_status Sick record) /\
    permission after
    = permission before + Nat.b2n (has_status Permission record) /\
    absent after = absent before + Nat.b2n (has_status Absent record) /\
    late after
    = late before + Nat.b2n (CreateAttendanceRecordInput.is_late input) /\
    AttendanceRecord.status record = CreateAttendanceRecordInput.status input /\
    fst (getAttendanceSummary other db') = fst (getAttendanceSummary other db).
Proof.
  intros Hd Hs Hother. rewrite createAttendanceRecord_run.
  apply has_duty_schedule_existsb in Hd. apply has_student_existsb in Hs.
  rewrite Hd, Hs. unfold insert_attendance_record.
  eexists. eexists. eexists. eexists.
  split; [reflexivity |]. rewrite !getAttendanceSummary_run.
  split; [reflexivity |]. split; [reflexivity |].
  unfold entries_of. cbn [attendanceRecordsTable fst]. rewrite !filter_app.
  cbn [filter AttendanceRecord.duty_schedule_id]. rewrite Nat.eqb_refl.
  apply Nat.eqb_neq in Hother. rewrite Nat.eqb_sym, Hother, app_nil_r.
  set (entries := filter _ (attendanceRecordsTable db)).
  set (record := AttendanceRecord.mk _ _ _ _ _ _ _ _).
  destruct (summarize_fields entries) as (-> & -> & -> & -> & -> & ->).
  destruct (summarize_fields (entries ++ [record]))
    as (-> & -> & -> & -> & -> & ->).
  rewrite !count_app, length_app. unfold count. cbn [filter List.length].
  repeat split; try reflexivity; try lia;
    unfold record; cbn [AttendanceRecord.is_late];
    match goal with
    | |- context [if ?c then _ else _] => destruct c; cbn; lia
    end.
Qed.

Lemma summary_after_create_witness :
  exists (record : AttendanceRecord.t) (db' : Db)
         (before after : AttendanceSummary.t),
    createAttendanceRecord 7%Z
      (CreateAttendanceRecordInput.mk 1 2 Sick true undefined)
      (mkDb [Sample.teacher1] [Sample.student1; Sample.student2]
            [Sample.schedule1] [Sample.record1] 2)
    = (Returned record, db') /\
    before = AttendanceSummary.mk 1 1 0 0 0 1 /\
    getAttendanceSummary 1 db' = (Returned after, db') /\
    total after = 2 /\ sick after = 1 /\ late after = 2.
Proof.
  destruct (summary_after_create 7%Z
              (CreateAttendanceRecordInput.mk 1 2 Sick true undefined)
              (mkDb [Sample.teacher1] [Sample.student1; Sample.student2]
                    [Sample.schedule1] [Sample.record1] 2) 5)
    as (record & db' & before & after & Hc & Hb & Ha & Ht & _ & Hs & _ & _ & Hl & _).
  - rewrite has_duty_schedule_existsb. reflexivity.
  - rewrite has_student_existsb. reflexivity.
  - discriminate.
  - exists record, db', before, after.
    cbn in Hb. injection Hb as <-.
    pose proof Hc as Hc'. cbn in Hc'. injection Hc' as <- _.
    cbn in Ht, Hs, Hl.
    repeat split; assumption.
Defined.

(** A test the update does not change counts the same after it. *)
Lemma count_map_keep (p : AttendanceRecord.t -> bool)
    (g : AttendanceRecord.t -> AttendanceRecord.t)
    (rows : list AttendanceRecord.t) :
  (forall r, p (g r) = p r) -> count p (map g rows) = count p rows.
Proof.
  intros H. unfold count. rewrite (filter_map_keep p g rows H).
  apply length_map.
Qed.

(** X7.  [updateAttendanceRecord] moves no record from one duty schedule
    to another: after it the summary of every duty schedule has the
    [total] it had.  An update that gives neither [status] nor [is_late]
    (one of the notes alone) leaves every summary as it was. *)
Theorem summary_after_update (now : Date)
    (input : UpdateAttendanceRecordInput.t) (db : Db) (dutyScheduleId : nat) :
  has_attendance_record db (UpdateAttendanceRecordInput.id input) ->
  exists (updated : AttendanceRecord.t) (db' : Db)
         (before after : AttendanceSummary.t),
    updateAttendanceRecord now input db = (Returned (defined updated), db') /\
    getAttendanceSummary dutyScheduleId db = (Returned before, db) /\
    getAttendanceSummary dutyScheduleId db' = (Returned after, db') /\
    total after = total before /\
    (UpdateAttendanceRecordInput.status input = undefined ->
     UpdateAttendanceRecordInput.is_late input = undefined ->
     after = before).
Proof.
  intros Hr. rewrite updateAttendanceRecord_run. cbn zeta.
  apply has_attendance_record_existsb in Hr. rewrite Hr.
  destruct (filter_first _ _ Hr) as (r0 & rest & Hf & _ & _).
  set (u := build_updateData now input).
  assert (Hitem : item0 (map (set_row u)
                           (filter (fun r => Nat.eqb (AttendanceRecord.id r)
                                               (UpdateAttendanceRecordInput.id input))
                              (attendanceRecordsTable db)))
                  = defined (set_row u r0)) by (rewrite Hf; reflexivity).
  rewrite Hitem.
  eexists. eexists. eexists. eexists.
  split; [reflexivity |]. rewrite !getAttendanceSummary_run.
  split; [reflexivity |]. split; [reflexivity |].
  set (g := fun r : AttendanceRecord.t =>
              if Nat.eqb (AttendanceRecord.id r)
                         (UpdateAttendanceRecordInput.id input)
              then set_row u r else r).
  set (entries := entries_of dutyScheduleId db).
  assert (Hsum : summarize
                   (entries_of dutyScheduleId
                      (mkDb (teachersTable db) (studentsTable db)
                         (dutySchedulesTable db)
                         (filter (fun r => negb (Nat.eqb (AttendanceRecord.id r)
                                                   (UpdateAttendanceRecordInput.id input)))
                            (attendanceRecordsTable db)
                            ++ map (set_row u)
                                 (filter (fun r => Nat.eqb (AttendanceRecord.id r)
                                                     (UpdateAttendanceRecordInput.id input))
                                    (attendanceRecordsTable db)))
                         (attendance_records_id_seq db)))
                 = summarize (map g entries)).
  { apply summarize_Permutation. unfold entries, entries_of.
    cbn [attendanceRecordsTable].
    rewrite <- (filter_map_keep _ g)
      by (intros r; unfold g; destruct (Nat.eqb (AttendanceRecord.id r) _);
          reflexivity).
    apply filter_Permutation.
    apply (update_Permutation
             (fun r => Nat.eqb (AttendanceRecord.id r)
                         (UpdateAttendanceRecordInput.id input))). }
  rewrite Hsum.
  split.
  - destruct (summarize_fields entries) as (-> & _).
    destruct (summarize_fields (map g entries)) as (-> & _).
    apply length_map.
  - intros Hstatus Hlate.
    destruct (build_updateData_fields now input) as (Hs & Hl & _ & _).
    fold u in Hs, Hl. rewrite Hstatus in Hs. rewrite Hlate in Hl.
    assert (Hkeep : forall r,
               AttendanceRecord.status (g r) = AttendanceRecord.status r /\
               AttendanceRecord.is_late (g r) = AttendanceRecord.is_late r).
    { intros r. unfold g. destruct (Nat.eqb (AttendanceRecord.id r) _);
        [| split; reflexivity].
      unfold set_row. cbn. rewrite Hs, Hl. split; reflexivity. }
    apply summarize_by_counts; [apply length_map |].
    intros p Hp. apply count_map_keep. intros r.
    destruct (Hkeep r) as (Hst & Hla).
    cbn in Hp. destruct Hp as [<- | [<- | [<- | [<- | [<- | []]]]]];
      unfold has_status; rewrite ?Hst, ?Hla; reflexivity.
Qed.

Lemma summary_after_update_witness :
  exists (updated : AttendanceRecord.t) (db' : Db) (after : AttendanceSummary.t),
    updateAttendanceRecord 7%Z
      (UpdateAttendanceRecordInput.mk 1 undefined undefined
         (defined (Some "Bus broke down")))
      Sample.db2 = (Returned (defined updated), db') /\
    getAttendanceSummary 1 db' = (Returned after, db') /\
    after = AttendanceSummary.mk 2 1 0 0 1 1.
Proof.
  destruct (summary_after_update 7%Z
              (UpdateAttendanceRecordInput.mk 1 undefined undefined
                 (defined (Some "Bus broke down")))
              Sample.db2 1)
    as (updated & db' & before & after & Hu & Hb & Ha & _ & Hsame).
  - rewrite has_attendance_record_existsb. reflexivity.
  - exists updated, db', after. split; [exact Hu |]. split; [exact Ha |].
    rewrite Hsame; [| reflexivity | reflexivity].
    cbn in Hb. injection Hb as <-. reflexivity.
Defined.

Lemma filter_filter_comm {R} (p q : R -> bool) (rows : list R) :
  filter p (filter q rows) = filter q (filter p rows).
Proof.
  induction rows as [| r rs IH]; [reflexivity |].
  cbn [filter]. destruct (p r) eqn:Ep, (q r) eqn:Eq; cbn [filter];
    rewrite ?Ep, ?Eq, IH; reflexivity.
Qed.

(** Taking the one row of an id out of a keyed table lowers a count by
    one when the row is counted, and leaves it when not. *)
Lemma count_without (p : AttendanceRecord.t -> bool)
    (rows : list AttendanceRecord.t) (r : AttendanceRecord.t) :
  NoDup (map AttendanceRecord.id rows) -> In r rows ->
  count p rows
  = count p (filter (fun x => negb (Nat.eqb (AttendanceRecord.id x)
                                      (AttendanceRecord.id r))) rows)
    + Nat.b2n (p r).
Proof.
  intros Hnd Hin. induction rows as [| x xs IH]; [destruct Hin |].
  cbn [map] in Hnd. inversion Hnd as [| ? ? Hnotin Hnd']; subst.
  unfold count in *. cbn [filter].
  destruct Hin as [-> | Hin].
  - rewrite Nat.eqb_refl. cbn [negb].
    assert (Hrest : filter (fun x => negb (Nat.eqb (AttendanceRecord.id x)
                                             (AttendanceRecord.id r))) xs = xs).
    { clear IH Hnd Hnd'. induction xs as [| y ys IHy]; [reflexivity |].
      cbn [filter]. destruct (Nat.eqb_spec (AttendanceRecord.id y)
                                (AttendanceRecord.id r)) as [E | E].
      - exfalso. apply Hnotin. left. exact E.
      - cbn [negb]. rewrite IHy; [reflexivity |].
        intros C. apply Hnotin. right. exact C. }
    rewrite Hrest. destruct (p r); cbn; lia.
  - destruct (Nat.eqb_spec (AttendanceRecord.id x) (AttendanceRecord.id r))
      as [E | E].
    + exfalso. apply Hnotin. rewrite E. apply in_map. exact Hin.
    + cbn [negb filter]. specialize (IH Hnd' Hin).
      destruct (p x); cbn [List.length]; lia.
Qed.

Lemma NoDup_map_filter {R K} (key : R -> K) (p : R -> bool) (rows : list R) :
  NoDup (map key rows) -> NoDup (map key (filter p rows)).
Proof.
  induction rows as [| r rs IH]; intros H; [constructor |].
  cbn [map] in H. inversion H as [| ? ? Hnotin Hnd]; subst.
  cbn [filter]. destruct (p r); [| apply IH; exact Hnd].
  cbn [map]. constructor; [| apply IH; exact Hnd].
  intros C. apply Hnotin. apply in_map_iff in C. destruct C as (x & E & Hx).
  apply filter_In in Hx. rewrite <- E. apply in_map. apply Hx.
Qed.

(** X8.  In a store keyed by [id], deleting a record takes it out of the
    summary of its duty schedule, one off [total], off the count of its
    status and, when it is late, off [late]; the summary of every other
    duty schedule is as before. *)
Theorem summary_after_delete (r : AttendanceRecord.t) (db : Db) (other : nat) :
  primary_key db ->
  In r (attendanceRecordsTable db) ->
  other <> AttendanceRecord.duty_schedule_id r ->
  exists (db' : Db) (before after : AttendanceSummary.t),
    deleteAttendanceRecord (AttendanceRecord.id r) db = (Returned true, db') /\
    getAttendanceSummary (AttendanceRecord.duty_schedule_id r) db
    = (Returned before, db) /\
    getAttendanceSummary (AttendanceRecord.duty_schedule_id r) db'
    = (Returned after, db') /\
    total before = S (total after) /\
    present before = present after + Nat.b2n (has_status Present r) /\
    sick before = sick after + Nat.b2n (has_status Sick r) /\
    permission before = permission after + Nat.b2n (has_status Permission r) /\
    absent before = absent after + Nat.b2n (has_status Absent r) /\
    late before = late after + Nat.b2n (AttendanceRecord.is_late r) /\
    fst (getAttendanceSummary other db') = fst (getAttendanceSummary other db).
Proof.
  intros (Hnd & _) Hin Hother. rewrite deleteAttendanceRecord_run.
  assert (Hex : existsb (fun x => Nat.eqb (AttendanceRecord.id x)
                                    (AttendanceRecord.id r))
                  (attendanceRecordsTable db) = true).
  { apply existsb_exists. exists r. split; [exact Hin | apply Nat.eqb_refl]. }
  rewrite Hex. eexists. eexists. eexists.
  split; [reflexivity |]. rewrite !getAttendanceSummary_run.
  split; [reflexivity |]. split; [reflexivity |].
  unfold entries_of. cbn [attendanceRecordsTable fst].
  rewrite !(filter_filter_comm _
              (fun x => negb (Nat.eqb (AttendanceRecord.id x)
                                (AttendanceRecord.id r)))).
  set (entries := filter (fun x => Nat.eqb (AttendanceRecord.duty_schedule_id x)
                                     (AttendanceRecord.duty_schedule_id r))
                    (attendanceRecordsTable db)).
  assert (Hre : In r entries).
  { apply filter_In. split; [exact Hin | apply Nat.eqb_refl]. }
  assert (Hnde : NoDup (map AttendanceRecord.id entries))
    by (apply NoDup_map_filter; exact Hnd).
  set (rest := filter _ entries).
  destruct (summarize_fields entries) as (-> & -> & -> & -> & -> & ->).
  destruct (summarize_fields rest) as (-> & -> & -> & -> & -> & ->).
  assert (Hlen : List.length entries = S (List.length rest)).
  { pose proof (count_without (fun _ => true) entries r Hnde Hre) as H.
    unfold count in H. fold rest in H.
    assert (Ht : forall l : list AttendanceRecord.t,
               filter (fun _ => true) l = l).
    { induction l as [| y ys IHy]; [reflexivity |]. cbn. rewrite IHy.
      reflexivity. }
    rewrite !Ht in H. cbn in H. lia. }
  split; [exact Hlen |].
  do 5 (split; [apply (count_without _ entries r Hnde Hre) |]).
  (* the other duty schedules *)
  f_equal. f_equal.
  set (others := filter _ (attendanceRecordsTable db)).
  assert (Hkeep : forall x, In x others ->
                            negb (Nat.eqb (AttendanceRecord.id x)
                                    (AttendanceRecord.id r)) = true).
  { intros x Hx. apply filter_In in Hx. destruct Hx as (Hxin & Hxd).
    apply Nat.eqb_eq in Hxd. apply negb_true_iff, Nat.eqb_neq. intros E.
    apply Hother. rewrite <- Hxd. f_equal.
    apply (NoDup_map_eq AttendanceRecord.id (attendanceRecordsTable db));
      assumption. }
  clearbody others. induction others as [| y ys IHy]; [reflexivity |].
  cbn [filter]. rewrite (Hkeep y (or_introl eq_refl)). f_equal.
  apply IHy. intros x Hx. apply Hkeep. right. exact Hx.
Qed.

Lemma summary_after_delete_witness :
  exists (db' : Db) (after : AttendanceSummary.t),
    deleteAttendanceRecord 1 Sample.db2 = (Returned true, db') /\
    getAttendanceSummary 1 db' = (Returned after, db') /\
    total after = 1 /\ present after = 0 /\ late after = 0.
Proof.
  destruct (summary_after_delete Sample.record1 Sample.db2 5)
    as (db' & before & after & Hd & Hb & Ha & Ht & Hp & _ & _ & _ & Hl & _).
  - split; [| repeat constructor].
    cbn. repeat constructor; cbn; intuition discriminate.
  - left. reflexivity.
  - discriminate.
  - exists db', after. split; [exact Hd |]. split; [exact Ha |].
    cbn in Hb. injection Hb as <-. cbn in Ht, Hp, Hl.
    repeat split; lia.
Defined.

(* --------------------------------------------------------------------- *)
(** ** When the report is made                                           *)
(* --------------------------------------------------------------------- *)

Lemma in_innerJoin {L R} (on : L -> R -> bool) (left : list L) (right : list R)
    (l : L) (r : R) :
  In (l, r) (innerJoin left right on) <->
  In l left /\ In r right /\ on l r = true.
Proof.
  unfold innerJoin. rewrite in_flat_map. split.
  - intros (x & Hx & Hin). apply in_map_iff in Hin.
    destruct Hin as (y & E & Hy). injection E as -> ->.
    apply filter_In in Hy. tauto.
  - intros (Hl & Hr & Hon). exists l. split; [exact Hl |].
    apply in_map. apply filter_In. split; assumption.
Qed.

(** X9.  [generateAttendanceReport] returns a report when the store has
    a duty schedule of the id together with the teacher of that schedule,
    and throws "Duty schedule not found" when it has not: so also for a
    schedule that is there but whose teacher is not.  Either way the
    store is left as it is, and so in whatever order the database
    returns the rows of a join. *)
Theorem generateAttendanceReport_found_or_not (toDateString : Date -> string)
    (order : row_order) (duty_schedule_id : nat) (db : Db) :
  rearranges order ->
  let found :=
    exists d t, In d (dutySchedulesTable db) /\ In t (teachersTable db) /\
                DutySchedule.id d = duty_schedule_id /\
                Teacher.id t = DutySchedule.teacher_id d in
  (found ->
   exists report : string,
     generateAttendanceReport toDateString order duty_schedule_id db
     = (Returned report, db))
  /\
  (~ found ->
   generateAttendanceReport toDateString order duty_schedule_id db
   = (Thrown "Duty schedule not found", db)).
Proof.
  intros Horder. cbn zeta. unfold generateAttendanceReport, bind, select_join.
  set (rows := filter _ (innerJoin (dutySchedulesTable db) _ _)).
  assert (Hrows : forall d t, In (d, t) rows <->
                    In d (dutySchedulesTable db) /\ In t (teachersTable db) /\
                    DutySchedule.id d = duty_schedule_id /\
                    Teacher.id t = DutySchedule.teacher_id d).
  { intros d t. unfold rows. rewrite filter_In, in_innerJoin.
    cbn [fst]. rewrite !Nat.eqb_eq. intuition congruence. }
  assert (Hinfo : forall d t, In (d, t) (order _ rows) <->
                    In d (dutySchedulesTable db) /\ In t (teachersTable db) /\
                    DutySchedule.id d = duty_schedule_id /\
                    Teacher.id t = DutySchedule.teacher_id d).
  { intros d t. rewrite <- Hrows. split.
    - apply Permutation_in. apply Horder.
    - apply Permutation_in. apply Permutation_sym. apply Horder. }
  destruct (order _ rows) as [| [d t] rest].
  - split; [| reflexivity].
    intros (d & t & H). apply Hinfo in H. destruct H.
  - split.
    + intros _. rewrite getAttendanceSummary_run. unfold ret.
      eexists. reflexivity.
    + intros H. exfalso. apply H. exists d, t. apply Hinfo. left. reflexivity.
Qed.

Lemma generateAttendanceReport_found_or_not_witness :
  (exists report : string,
      generateAttendanceReport (fun _ => "Mon Jan 15 2024") as_listed 1
        Sample.db2
      = (Returned report, Sample.db2))
  /\
  generateAttendanceReport (fun _ => "Mon Jan 15 2024") as_listed 1
    (mkDb [] [Sample.student1] [Sample.schedule1] [] 1)
  = (Thrown "Duty schedule not found",
     mkDb [] [Sample.student1] [Sample.schedule1] [] 1).
Proof.
  split.
  - apply (generateAttendanceReport_found_or_not (fun _ => "Mon Jan 15 2024")
             as_listed 1 Sample.db2).
    + apply as_listed_rearranges.
    + exists Sample.schedule1, Sample.teacher1. cbn. tauto.
  - apply (generateAttendanceReport_found_or_not (fun _ => "Mon Jan 15 2024")
             as_listed 1 (mkDb [] [Sample.student1] [Sample.schedule1] [] 1)).
    + apply as_listed_rearranges.
    + intros (d & t & _ & Ht & _). destruct Ht.
Defined.

(* --------------------------------------------------------------------- *)
(** ** The rosters of the three floors together                          *)
(* --------------------------------------------------------------------- *)

(** Three tests of which each row passes one split a list in three. *)
Lemma filter_three {R} (p q r : R -> bool) (rows : list R) :
  (forall x, (p x = true /\ q x = false /\ r x = false)
             \/ (p x = false /\ q x = true /\ r x = false)
             \/ (p x = false /\ q x = false /\ r x = true)) ->
  Permutation (filter p rows ++ filter q rows ++ filter r rows) rows.
Proof.
  intros H. induction rows as [| x xs IH]; [constructor |].
  cbn [filter].
  destruct (H x) as [(-> & -> & ->) | [(-> & -> & ->) | (-> & -> & ->)]].
  - cbn [app]. constructor. exact IH.
  - apply Permutation_sym. eapply Permutation_trans;
      [| apply Permutation_middle]. constructor. apply Permutation_sym. exact IH.
  - apply Permutation_sym.
    rewrite app_assoc. eapply Permutation_trans; [| apply Permutation_middle].
    constructor. rewrite <- app_assoc. apply Permutation_sym. exact IH.
Qed.

(** X10.  The rosters of floors 2, 3 and 4 together are the students
    table, each student once: put one after the other they are a
    permutation of the table, and their lengths add up to the number of
    students. *)
Theorem floor_rosters_cover (db : Db) :
  exists roster2 roster3 roster4 : list Student.t,
    getStudentsByFloor "2" db = (Returned roster2, db) /\
    getStudentsByFloor "3" db = (Returned roster3, db) /\
    getStudentsByFloor "4" db = (Returned roster4, db) /\
    Permutation (roster2 ++ roster3 ++ roster4) (studentsTable db) /\
    List.length roster2 + List.length roster3 + List.length roster4
    = List.length (studentsTable db).
Proof.
  exists (filter (on_floor "2") (studentsTable db)),
         (filter (on_floor "3") (studentsTable db)),
         (filter (on_floor "4") (studentsTable db)).
  split; [apply (getStudentsByFloor_run F2) |].
  split; [apply (getStudentsByFloor_run F3) |].
  split; [apply (getStudentsByFloor_run F4) |].
  assert (H : Permutation
                (filter (on_floor "2") (studentsTable db)
                 ++ filter (on_floor "3") (studentsTable db)
                 ++ filter (on_floor "4") (studentsTable db))
                (studentsTable db)).
  { apply filter_three. intros s.
    destruct s as [? ? level section ? ?]; destruct level, section; cbn; tauto. }
  split; [exact H |].
  apply Permutation_length in H. rewrite !length_app in H. lia.
Qed.

(* --------------------------------------------------------------------- *)
(** ** Students                                                          *)
(* --------------------------------------------------------------------- *)

Lemma with_students_same (db : Db) : with_students db (studentsTable db) = db.
Proof. destruct db. reflexivity. Qed.

Lemma with_duty_schedules_same (db : Db) :
  with_duty_schedules db (dutySchedulesTable db) = db.
Proof. destruct db. reflexivity. Qed.

(** An update of the rows a condition picks changes nothing where it
    picks none. *)
Lemma map_if_none {R} (cond : R -> bool) (f : R -> R) (rows : list R) :
  existsb cond rows = false ->
  map (fun r => if cond r then f r else r) rows = rows.
Proof.
  induction rows as [| r rs IH]; [reflexivity |].
  cbn [existsb map]. intros H. apply orb_false_iff in H.
  destruct H as (-> & H). rewrite (IH H). reflexivity.
Qed.

Lemma filter_none {R} (cond : R -> bool) (rows : list R) :
  existsb cond rows = false -> filter cond rows = [].
Proof.
  induction rows as [| r rs IH]; [reflexivity |].
  cbn [existsb filter]. intros H. apply orb_false_iff in H.
  destruct H as (-> & H). exact (IH H).
Qed.

Lemma filter_negb_none {R} (cond : R -> bool) (rows : list R) :
  existsb cond rows = false -> filter (fun r => negb (cond r)) rows = rows.
Proof.
  induction rows as [| r rs IH]; [reflexivity |].
  cbn [existsb filter]. intros H. apply orb_false_iff in H.
  destruct H as (-> & H). cbn [negb]. rewrite (IH H). reflexivity.
Qed.

(** The two ways a call of [updateStudent] goes. *)
Lemma updateStudent_run (now : Date) (input : UpdateStudentInput.t) (db : Db) :
  let cond := fun s => Nat.eqb (Student.id s) (UpdateStudentInput.id input) in
  updateStudent now input db =
  match filter cond (studentsTable db) with
  | [] =>
      (Thrown ("Student with id "
                 ++ Number_toString (UpdateStudentInput.id input)
                 ++ " not found"), db)
  | s :: rest =>
      (Returned (set_student now input s),
       with_students db
         (filter (fun s => negb (cond s)) (studentsTable db)
            ++ map (set_student now input) (s :: rest))%list)
  end.
Proof.
  cbn zeta. unfold updateStudent, bind, update_students, throw, ret.
  destruct (filter _ (studentsTable db)) as [| s rest] eqn:E; cbn [map].
  - rewrite app_nil_r, filter_negb_none, with_students_same; [reflexivity |].
    destruct (existsb _ (studentsTable db)) eqn:Ex; [| reflexivity].
    destruct (filter_first _ _ Ex) as (r & rs & Hf & _). congruence.
  - reflexivity.
Qed.

(** The students table after [updateStudent] for a student that is
    there: the rows it had, each once, those of the id updated. *)
Lemma updateStudent_table (now : Date) (input : UpdateStudentInput.t) (db : Db) :
  existsb (fun s => Nat.eqb (Student.id s) (UpdateStudentInput.id input))
    (studentsTable db) = true ->
  Permutation
    (studentsTable (snd (updateStudent now input db)))
    (map (fun s => if Nat.eqb (Student.id s) (UpdateStudentInput.id input)
                   then set_student now input s else s)
       (studentsTable db)).
Proof.
  intros Hs. rewrite updateStudent_run. cbn zeta.
  destruct (filter_first _ _ Hs) as (s0 & rest & Hf & _).
  rewrite Hf. cbn [snd with_students studentsTable]. rewrite <- Hf.
  apply (update_Permutation
           (fun s => Nat.eqb (Student.id s) (UpdateStudentInput.id input))).
Qed.

(** The row the update makes of a student stands for it. *)
Lemma set_student_stands_for (now : Date) (input : UpdateStudentInput.t)
    (old : Student.t) :
  student_stands_for now input old
    (if Nat.eqb (Student.id old) (UpdateStudentInput.id input)
     then set_student now input old else old).
Proof.
  unfold student_stands_for.
  destruct (Nat.eqb_spec (Student.id old) (UpdateStudentInput.id input))
    as [E | E].
  - split; [reflexivity |]. split; [reflexivity |].
    split; [intros C; contradiction |]. intros _. repeat split.
  - split; [reflexivity |]. split; [reflexivity |].
    split; [reflexivity | intros C; contradiction].
Qed.

(** X11.  [updateStudent] with an id no student has throws "Student with
    id <id> not found" and leaves the store as it is.  With an id a
    student has, it returns the student as stored.  The table after the
    call has a row for every row it had, and no other row: the ids are
    those it had, each as often; the row for a row keeps its [id] and
    [created_at]; the row for a row of another id is that row, unchanged;
    in the row for the student of the id each of [name], [class_level],
    [class_section] takes the value the input has or keeps its own, and
    [updated_at] is the time of the call.  No other table changes. *)
Theorem updateStudent_frame (now : Date) (input : UpdateStudentInput.t)
    (db : Db) :
  (~ has_student db (UpdateStudentInput.id input) ->
   updateStudent now input db
   = (Thrown ("Student with id "
                ++ Number_toString (UpdateStudentInput.id input)
                ++ " not found"), db))
  /\
  (has_student db (UpdateStudentInput.id input) ->
   exists (updated : Student.t) (db' : Db),
     updateStudent now input db = (Returned updated, db') /\
     In updated (studentsTable db') /\
     Student.id updated = UpdateStudentInput.id input /\
     teachersTable db' = teachersTable db /\
     dutySchedulesTable db' = dutySchedulesTable db /\
     attendanceRecordsTable db' = attendanceRecordsTable db /\
     Permutation (map Student.id (studentsTable db'))
       (map Student.id (studentsTable db)) /\
     (forall old : Student.t,
        In old (studentsTable db) ->
        exists new : Student.t,
          In new (studentsTable db') /\ student_stands_for now input old new) /\
     (forall new : Student.t,
        In new (studentsTable db') ->
        exists old : Student.t,
          In old (studentsTable db) /\ student_stands_for now input old new)).
Proof.
  rewrite (updateStudent_run now input db). cbn zeta.
  rewrite has_student_existsb.
  destruct (existsb _ (studentsTable db)) eqn:Ex.
  - split; [intros H; exfalso; apply H; reflexivity |]. intros _.
    destruct (filter_first _ _ Ex) as (s0 & rest & Hf & Hin & Hid).
    pose proof (update_Permutation
                  (fun s => Nat.eqb (Student.id s) (UpdateStudentInput.id input))
                  (set_student now input) (studentsTable db)) as Hperm.
    cbn beta in Hperm. rewrite Hf in *.
    eexists. eexists. split; [reflexivity |].
    cbn [with_students studentsTable teachersTable dutySchedulesTable
         attendanceRecordsTable].
    split; [apply in_or_app; right; left; reflexivity |].
    split; [apply Nat.eqb_eq in Hid; exact Hid |].
    do 3 (split; [reflexivity |]).
    split; [| split].
    + eapply Permutation_trans; [apply Permutation_map; exact Hperm |].
      rewrite map_map.
      erewrite map_ext; [apply Permutation_refl |].
      intros r. cbn beta.
      destruct (Nat.eqb (Student.id r) (UpdateStudentInput.id input));
        reflexivity.
    + intros old Hold. eexists.
      split; [| apply (set_student_stands_for now input old)].
      eapply Permutation_in; [apply Permutation_sym; exact Hperm |].
      apply in_map_iff. exists old. split; [reflexivity | exact Hold].
    + intros new Hnew.
      apply (Permutation_in _ Hperm) in Hnew. apply in_map_iff in Hnew.
      destruct Hnew as (old & <- & Hold). exists old.
      split; [exact Hold | apply (set_student_stands_for now input old)].
  - rewrite (filter_none _ _ Ex).
    split; [reflexivity | intros H; discriminate H].
Qed.

Lemma updateStudent_frame_witness :
  updateStudent 7%Z (UpdateStudentInput.mk 99 (defined "Nobody") undefined undefined)
    Sample.db2
  = (Thrown "Student with id 99 not found", Sample.db2)
  /\
  exists (updated : Student.t) (db' : Db),
    updateStudent 7%Z (UpdateStudentInput.mk 1 undefined (defined L9) (defined G))
      Sample.db2 = (Returned updated, db') /\
    updated = Student.mk 1 "Test Student" L9 G 0%Z 7%Z /\
    In updated (studentsTable db') /\
    In Sample.student2 (studentsTable db') /\
    List.length (studentsTable db') = 2.
Proof.
  split.
  - apply (updateStudent_frame 7%Z
             (UpdateStudentInput.mk 99 (defined "Nobody") undefined undefined)
             Sample.db2).
    rewrite has_student_existsb. cbn. discriminate.
  - destruct (updateStudent_frame 7%Z
                (UpdateStudentInput.mk 1 undefined (defined L9) (defined G))
                Sample.db2) as (_ & H).
    destruct H as (updated & db' & Hrun & _).
    + rewrite has_student_existsb. reflexivity.
    + exists updated, db'. split; [exact Hrun |].
      cbn in Hrun. injection Hrun as <- <-.
      split; [reflexivity |]. split; [right; left; reflexivity |].
      split; [left; reflexivity | reflexivity].
Defined.

(** X12.  After [updateStudent] has changed the class of a student,
    [getStudentById] returns the student as updated, the student is in
    the roster of the floor of the new class and in no other roster, and
    the students of other ids are in the rosters they were in. *)
Theorem updateStudent_moves_floor (now : Date) (input : UpdateStudentInput.t)
    (db : Db) :
  has_student db (UpdateStudentInput.id input) ->
  exists (updated : Student.t) (db' : Db),
    updateStudent now input db = (Returned updated, db') /\
    getStudentById (UpdateStudentInput.id input) db'
    = (Returned (Some updated), db') /\
    forall (f : Floor) (roster roster' : list Student.t),
      getStudentsByFloor (Floor_str f) db = (Returned roster, db) ->
      getStudentsByFloor (Floor_str f) db' = (Returned roster', db') ->
      (In updated roster' <->
       getFloorByClass (ClassLevel_str (Student.class_level updated))
                       (ClassSection_str (Student.class_section updated))
       = floor_label (Floor_str f)) /\
      (forall s, Student.id s <> UpdateStudentInput.id input ->
                 (In s roster' <-> In s roster)).
Proof.
  intros Hs. rewrite updateStudent_run. cbn zeta.
  apply has_student_existsb in Hs.
  destruct (filter_first _ _ Hs) as (s0 & rest & Hf & Hin & Hid).
  set (cond := fun s => Nat.eqb (Student.id s) (UpdateStudentInput.id input)).
  set (g := fun s : Student.t =>
              if Nat.eqb (Student.id s) (UpdateStudentInput.id input)
              then set_student now input s else s).
  pose proof (update_Permutation cond (set_student now input) (studentsTable db))
    as Hperm.
  change (fun r => if cond r then set_student now input r else r) with g
    in Hperm.
  fold cond in Hf. rewrite Hf in *.
  eexists. eexists. split; [reflexivity |].
  change (fun s : Student.t =>
            negb (Nat.eqb (Student.id s) (UpdateStudentInput.id input)))
    with (fun s => negb (cond s)).
  remember (filter (fun s => negb (cond s)) (studentsTable db)
              ++ map (set_student now input) (s0 :: rest))%list
    as table' eqn:Etable.
  assert (Hmem : forall x, In x table' <-> In x (map g (studentsTable db))).
  { intros x. split; apply Permutation_in;
      [exact Hperm | apply Permutation_sym; exact Hperm]. }
  assert (Hcond : forall s, cond (set_student now input s) = cond s)
    by (intros s; reflexivity).
  split.
  - unfold getStudentById, bind, select, ret.
    cbn [with_students studentsTable].
    fold cond. rewrite Etable, <- Hf.
    rewrite (filter_updated cond (set_student now input) _ Hcond), Hf.
    reflexivity.
  - intros f roster roster' Hr Hr'.
    rewrite getStudentsByFloor_run in Hr, Hr'.
    injection Hr as <-. injection Hr' as <-.
    cbn [with_students studentsTable]. split.
    + rewrite getFloorByClass_on_floor, filter_In. split; [tauto |].
      intros Hon. split; [| exact Hon].
      apply Hmem.
      apply in_map_iff. exists s0. unfold g. cbn beta.
      unfold cond in Hid. rewrite Hid.
      split; [reflexivity | exact Hin].
    + intros s Hne. rewrite !filter_In, Hmem, in_map_iff. split.
      * intros ((x & Hx & Hxin) & Hon). split; [| exact Hon].
        unfold g in Hx. cbn beta in Hx.
        destruct (Nat.eqb (Student.id x) (UpdateStudentInput.id input)) eqn:Ex.
        -- exfalso. apply Hne. rewrite <- Hx. apply Nat.eqb_eq in Ex. exact Ex.
        -- rewrite <- Hx. exact Hxin.
      * intros (Hsin & Hon). split; [| exact Hon].
        exists s. split; [| exact Hsin].
        apply Nat.eqb_neq in Hne. unfold g. cbn beta. rewrite Hne. reflexivity.
Qed.

Lemma updateStudent_moves_floor_witness :
  exists (updated : Student.t) (db' : Db),
    updateStudent 7%Z (UpdateStudentInput.mk 2 undefined (defined L9) (defined G))
      Sample.db2 = (Returned updated, db') /\
    getStudentById 2 db' = (Returned (Some updated), db') /\
    getStudentsByFloor "3" db' = (Returned [updated], db') /\
    getStudentsByFloor "4" db' = (Returned [Sample.student1], db').
Proof.
  destruct (updateStudent_moves_floor 7%Z
              (UpdateStudentInput.mk 2 undefined (defined L9) (defined G))
              Sample.db2) as (updated & db' & Hrun & Hget & _).
  - rewrite has_student_existsb. reflexivity.
  - exists updated, db'. split; [exact Hrun |]. split; [exact Hget |].
    cbn in Hrun. injection Hrun as <- <-. split; reflexivity.
Defined.

(** When the database refuses the delete of a student: the student is
    there and an attendance record is of that student. *)
Lemma deleteStudent_refused (id : nat) (db : Db) :
  existsb (fun s => existsb (fun a => Nat.eqb (AttendanceRecord.student_id a)
                                        (Student.id s))
                      (attendanceRecordsTable db))
    (filter (fun s => Nat.eqb (Student.id s) id) (studentsTable db)) = true
  <->
  has_student db id /\
  exists a, In a (attendanceRecordsTable db) /\ AttendanceRecord.student_id a = id.
Proof.
  rewrite existsb_exists. unfold has_student. split.
  - intros (s & Hs & Ha). apply filter_In in Hs. destruct Hs as (Hs & Hid).
    apply Nat.eqb_eq in Hid. apply existsb_exists in Ha.
    destruct Ha as (a & Ha & Hr). apply Nat.eqb_eq in Hr.
    split; [exists s; tauto | exists a; split; [exact Ha | congruence]].
  - intros ((s & Hs & Hid) & (a & Ha & Hr)). exists s. split.
    + apply filter_In. split; [exact Hs | apply Nat.eqb_eq; exact Hid].
    + apply existsb_exists. exists a. split; [exact Ha |].
      apply Nat.eqb_eq. congruence.
Qed.

(** X13.  [deleteStudent] returns [false] and leaves the store as it is
    when no student has the id.  A student no attendance record is of is
    taken out of the table, [true] is returned, and the other students
    and tables stay.  A student with an attendance record cannot be
    deleted: the foreign key of [attendance_records.student_id] makes
    the delete fail, the handler throws, and the store is as it was. *)
Theorem deleteStudent_cases (violation : string) (id : nat) (db : Db) :
  (~ has_student db id ->
   deleteStudent violation id db = (Returned false, db))
  /\
  (has_student db id ->
   (forall a, In a (attendanceRecordsTable db) ->
              AttendanceRecord.student_id a <> id) ->
   exists db' : Db,
     deleteStudent violation id db = (Returned true, db') /\
     (forall s, In s (studentsTable db') <->
                In s (studentsTable db) /\ Student.id s <> id) /\
     teachersTable db' = teachersTable db /\
     dutySchedulesTable db' = dutySchedulesTable db /\
     attendanceRecordsTable db' = attendanceRecordsTable db)
  /\
  (has_student db id ->
   (exists a, In a (attendanceRecordsTable db)
              /\ AttendanceRecord.student_id a = id) ->
   deleteStudent violation id db = (Thrown violation, db)).
Proof.
  unfold deleteStudent. cbn zeta.
  pose proof (deleteStudent_refused id db) as Href.
  destruct (existsb _ (filter _ (studentsTable db))) eqn:Eref.
  - destruct (proj1 Href eq_refl) as (Hs & Ha).
    split; [intros C; contradiction |]. split; [| reflexivity].
    intros _ Hnone. destruct Ha as (a & Ha & Hr). exfalso.
    exact (Hnone a Ha Hr).
  - pose proof (has_student_existsb db id) as Hex.
    destruct (existsb (fun s => Nat.eqb (Student.id s) id) (studentsTable db))
      eqn:Ex.
    + split; [intros C; exfalso; apply C; apply Hex; reflexivity |].
      split.
      * intros _ _.
        destruct (filter_first _ _ Ex) as (s0 & rest & Hf & _). rewrite Hf.
        eexists. split; [reflexivity |].
        cbn [with_students studentsTable teachersTable dutySchedulesTable
             attendanceRecordsTable].
        split; [| repeat split].
        intros s. rewrite filter_In, negb_true_iff, Nat.eqb_neq. reflexivity.
      * intros Hs Ha. assert (C : false = true) by (apply Href; tauto).
        discriminate C.
    + split.
      * intros _. rewrite (filter_none _ _ Ex). cbn [List.length Nat.eqb negb].
        rewrite (filter_negb_none _ _ Ex), with_students_same. reflexivity.
      * split; intros Hs; apply Hex in Hs; discriminate Hs.
Qed.

Lemma deleteStudent_cases_witness :
  deleteStudent "violates foreign key constraint" 99 Sample.db2
  = (Returned false, Sample.db2)
  /\
  (exists db' : Db,
      deleteStudent "violates foreign key constraint" 2 Sample.db0
      = (Returned true, db') /\
      studentsTable db' = [Sample.student1])
  /\
  deleteStudent "violates foreign key constraint" 2 Sample.db2
  = (Thrown "violates foreign key constraint", Sample.db2).
Proof.
  split; [| split].
  - apply (deleteStudent_cases "violates foreign key constraint" 99 Sample.db2).
    rewrite has_student_existsb. cbn. discriminate.
  - destruct (deleteStudent_cases "violates foreign key constraint" 2 Sample.db0)
      as (_ & H & _).
    destruct H as (db' & Hrun & _).
    + rewrite has_student_existsb. reflexivity.
    + intros a [].
    + exists db'. split; [exact Hrun |].
      cbn in Hrun. injection Hrun as <-. reflexivity.
  - apply (deleteStudent_cases "violates foreign key constraint" 2 Sample.db2).
    + rewrite has_student_existsb. reflexivity.
    + exists Sample.record2. split; [right; left; reflexivity | reflexivity].
Defined.

Lemma student_rows_app (now : Date) (l1 l2 : list CreateStudentInput.t) :
  forall next,
    student_rows now next (l1 ++ l2)
    = (student_rows now next l1
       ++ student_rows now (next + List.length l1) l2)%list.
Proof.
  induction l1 as [| v vs IH]; intros next; cbn [student_rows app List.length].
  - rewrite Nat.add_0_r. reflexivity.
  - rewrite IH. do 3 f_equal. lia.
Qed.

Lemma student_rows_ids (now : Date) (values : list CreateStudentInput.t) :
  forall next,
    map Student.id (student_rows now next values)
    = seq next (List.length values).
Proof.
  induction values as [| v vs IH]; intros next; [reflexivity |].
  cbn [student_rows map seq List.length Student.id]. rewrite IH. reflexivity.
Qed.

Lemma student_rows_values (now : Date) (values : list CreateStudentInput.t) :
  forall next,
    map (fun r => CreateStudentInput.mk (Student.name r) (Student.class_level r)
                    (Student.class_section r))
        (student_rows now next values)
    = values.
Proof.
  induction values as [| v vs IH]; intros next; [reflexivity |].
  cbn [student_rows map]. rewrite IH. destruct v. reflexivity.
Qed.

(** [bulkImportStudents] is the insert of its list, the empty list too. *)
Lemma bulkImportStudents_run (now : Date) (students : list CreateStudentInput.t)
    (s : Store) :
  bulkImportStudents now students s
  = (Returned (student_rows now (students_id_seq s) students),
     mkStore
       (with_students (tables s)
          (studentsTable (tables s)
           ++ student_rows now (students_id_seq s) students)%list)
       (students_id_seq s + List.length students)
       (duty_schedules_id_seq s)).
Proof.
  unfold bulkImportStudents.
  destruct students as [| v vs].
  - cbn. rewrite app_nil_r, with_students_same, Nat.add_0_r.
    destruct s. reflexivity.
  - cbn [List.length Nat.eqb]. unfold insert_students.
    assert (Hmap : forall l : list CreateStudentInput.t,
               map (fun student =>
                      CreateStudentInput.mk (CreateStudentInput.name student)
                        (CreateStudentInput.class_level student)
                        (CreateStudentInput.class_section student)) l = l).
    { induction l as [| x xs IHx]; [reflexivity |].
      cbn [map]. rewrite IHx. destruct x. reflexivity. }
    rewrite Hmap. reflexivity.
Qed.

(** The rows of an insert have the time of the insert in both
    timestamps. *)
Lemma student_rows_times (now : Date) (values : list CreateStudentInput.t) :
  forall next,
    Forall (fun r => Student.created_at r = now /\ Student.updated_at r = now)
      (student_rows now next values).
Proof.
  induction values as [| v vs IH]; intros next; cbn [student_rows];
    constructor; [split; reflexivity | apply IH].
Qed.

(** X14.  [bulkImportStudents] of the empty list returns the empty list
    and leaves the store as it is.  An import adds one row for each
    student of its list to the end of the table, in the order of the
    list, with the name and class given, the next ids of the sequence and
    the time of the call in both timestamps, and returns these rows.
    Importing a list in two batches, at the times [now1] and [now2],
    gives rows of the same ids, names and classes, in the same order, as
    importing it in one at the time [now], and leaves the sequence where
    that leaves it; the timestamps are those of each call, and when the
    three times are the same so are the rows and the store. *)
Theorem bulkImportStudents_batches (now1 now2 now : Date)
    (batch1 batch2 : list CreateStudentInput.t) (s : Store) :
  bulkImportStudents now [] s = (Returned [], s) /\
  exists (rows1 rows2 rows : list Student.t) (s1 s2 s' : Store),
    bulkImportStudents now1 batch1 s = (Returned rows1, s1) /\
    bulkImportStudents now2 batch2 s1 = (Returned rows2, s2) /\
    bulkImportStudents now (batch1 ++ batch2) s = (Returned rows, s') /\
    studentsTable (tables s2)
    = (studentsTable (tables s) ++ rows1 ++ rows2)%list /\
    studentsTable (tables s') = (studentsTable (tables s) ++ rows)%list /\
    map Student.id (rows1 ++ rows2)
    = seq (students_id_seq s) (List.length (batch1 ++ batch2)) /\
    map Student.id rows = map Student.id (rows1 ++ rows2) /\
    map (fun r => CreateStudentInput.mk (Student.name r) (Student.class_level r)
                    (Student.class_section r))
        (rows1 ++ rows2)
    = (batch1 ++ batch2)%list /\
    map (fun r => CreateStudentInput.mk (Student.name r) (Student.class_level r)
                    (Student.class_section r))
        rows
    = (batch1 ++ batch2)%list /\
    Forall (fun r => Student.created_at r = now1 /\ Student.updated_at r = now1)
      rows1 /\
    Forall (fun r => Student.created_at r = now2 /\ Student.updated_at r = now2)
      rows2 /\
    Forall (fun r => Student.created_at r = now /\ Student.updated_at r = now)
      rows /\
    students_id_seq s2 = students_id_seq s + List.length (batch1 ++ batch2) /\
    students_id_seq s' = students_id_seq s2 /\
    teachersTable (tables s2) = teachersTable (tables s) /\
    dutySchedulesTable (tables s2) = dutySchedulesTable (tables s) /\
    attendanceRecordsTable (tables s2) = attendanceRecordsTable (tables s) /\
    (now1 = now -> now2 = now -> rows = (rows1 ++ rows2)%list /\ s' = s2).
Proof.
  split; [reflexivity |].
  eexists. eexists. eexists. eexists. eexists. eexists.
  split; [apply bulkImportStudents_run |].
  split; [apply bulkImportStudents_run |].
  split; [apply bulkImportStudents_run |].
  cbn [tables students_id_seq duty_schedules_id_seq with_students studentsTable
       teachersTable dutySchedulesTable attendanceRecordsTable].
  rewrite !map_app, !student_rows_ids, !student_rows_values, <- seq_app,
    length_app, <- app_assoc, Nat.add_assoc.
  repeat (split; [first [reflexivity | apply student_rows_times] |]).
  intros -> ->. rewrite <- student_rows_app, <- Nat.add_assoc.
  split; reflexivity.
Qed.

Lemma bulkImportStudents_batches_witness :
  exists (rows1 rows2 rows : list Student.t) (s1 s2 s' : Store),
    bulkImportStudents 7%Z [CreateStudentInput.mk "Ani" L7 A] sample_store
    = (Returned rows1, s1) /\
    bulkImportStudents 7%Z [CreateStudentInput.mk "Budi" L9 G] s1
    = (Returned rows2, s2) /\
    bulkImportStudents 7%Z
      [CreateStudentInput.mk "Ani" L7 A; CreateStudentInput.mk "Budi" L9 G]
      sample_store
    = (Returned rows, s') /\
    rows = (rows1 ++ rows2)%list /\ s' = s2.
Proof.
  destruct (bulkImportStudents_batches 7%Z 7%Z 7%Z
              [CreateStudentInput.mk "Ani" L7 A]
              [CreateStudentInput.mk "Budi" L9 G] sample_store)
    as (_ & rows1 & rows2 & rows & s1 & s2 & s' & H1 & H2 & H & Hrest).
  exists rows1, rows2, rows, s1, s2, s'.
  split; [exact H1 |]. split; [exact H2 |]. split; [exact H |].
  apply Hrest; reflexivity.
Defined.

(** Two batches at different times: the ids, names and classes are those
    of the one import, the timestamps those of each call. *)
Example bulkImportStudents_two_times :
  let s1 := snd (bulkImportStudents 7%Z [CreateStudentInput.mk "Ani" L7 A]
                   sample_store) in
  let s2 := snd (bulkImportStudents 8%Z [CreateStudentInput.mk "Budi" L9 G] s1) in
  skipn 2 (studentsTable (tables s2))
  = [Student.mk 3 "Ani" L7 A 7%Z 7%Z; Student.mk 4 "Budi" L9 G 8%Z 8%Z].
Proof. reflexivity. Qed.

(** X15.  In a store whose students are below the sequence,
    [createStudent] returns the row it has added, as an import of that
    one student does; [getStudentById] with the id of that row returns
    the row; and the roster of each floor is the roster it was, followed
    by the row when its class is on the floor. *)
Theorem createStudent_then_lookup (now : Date) (input : CreateStudentInput.t)
    (s : Store) :
  Forall (fun x => Student.id x < students_id_seq s) (studentsTable (tables s)) ->
  exists (row : Student.t) (s' : Store),
    createStudent now input s = (Returned row, s') /\
    bulkImportStudents now [input] s = (Returned [row], s') /\
    row = Student.mk (students_id_seq s) (CreateStudentInput.name input)
            (CreateStudentInput.class_level input)
            (CreateStudentInput.class_section input) now now /\
    studentsTable (tables s') = (studentsTable (tables s) ++ [row])%list /\
    getStudentById (Student.id row) (tables s')
    = (Returned (Some row), tables s') /\
    forall f : Floor,
      exists roster roster' : list Student.t,
        getStudentsByFloor (Floor_str f) (tables s) = (Returned roster, tables s) /\
        getStudentsByFloor (Floor_str f) (tables s')
        = (Returned roster', tables s') /\
        roster' = (roster ++ if on_floor (Floor_str f) row then [row] else [])%list.
Proof.
  intros Hlt. unfold createStudent.
  eexists. eexists. split; [reflexivity |].
  split; [rewrite bulkImportStudents_run; cbn [student_rows List.length];
          rewrite Nat.add_1_r; destruct input; reflexivity |].
  split; [reflexivity |].
  cbn [tables with_students studentsTable]. split; [reflexivity |].
  split.
  - unfold getStudentById, bind, select, ret.
    cbn [studentsTable with_students Student.id].
    rewrite filter_app. cbn [filter Student.id]. rewrite Nat.eqb_refl.
    assert (Hnone : filter (fun x => Nat.eqb (Student.id x) (students_id_seq s))
                      (studentsTable (tables s)) = []).
    { apply filter_none. apply not_true_is_false. intros C.
      apply existsb_exists in C. destruct C as (x & Hx & E).
      apply Nat.eqb_eq in E. rewrite Forall_forall in Hlt.
      specialize (Hlt x Hx). lia. }
    rewrite Hnone. reflexivity.
  - intros f. eexists. eexists.
    split; [apply getStudentsByFloor_run |].
    split; [apply getStudentsByFloor_run |].
    cbn [studentsTable with_students]. rewrite filter_app. reflexivity.
Qed.

Lemma createStudent_then_lookup_witness :
  exists (row : Student.t) (s' : Store),
    createStudent 7%Z (CreateStudentInput.mk "New Student" L9 G) sample_store
    = (Returned row, s') /\
    getStudentById 3 (tables s') = (Returned (Some row), tables s') /\
    getStudentsByFloor "3" (tables s') = (Returned [row], tables s').
Proof.
  destruct (createStudent_then_lookup 7%Z
              (CreateStudentInput.mk "New Student" L9 G) sample_store)
    as (row & s' & Hrun & _ & Hrow & _ & Hget & _).
  - cbn. repeat constructor.
  - exists row, s'. split; [exact Hrun |]. subst row.
    split; [exact Hget |].
    cbn in Hrun. injection Hrun as <-. reflexivity.
Defined.

Lemma string_app_assoc (a b c : string) : (a ++ b) ++ c = a ++ (b ++ c).
Proof.
  induction a as [| x a IH]; [reflexivity |]. cbn [append]. rewrite IH.
  reflexivity.
Qed.

(** X16.  Where no student name has a line feed in it (and the ISO form
    of a date has none), the text [exportStudents] returns has the
    header as its first line and then one line for each student, in the
    order of the table; for an empty table the header is followed by one
    empty line.  The store is left as it is. *)
Theorem exportStudents_lines (toISOString : Date -> string) (db : Db) :
  (forall s, In s (studentsTable db) -> no_LF (Student.name s) = true) ->
  (forall d, no_LF (toISOString d) = true) ->
  exists csv : string,
    exportStudents toISOString db = (Returned csv, db) /\
    lines csv
    = "ID,Name,Class Level,Class Section,Created At,Updated At"
      :: match studentsTable db with
         | [] => [""]
         | _ :: _ => map (student_csv_row toISOString) (studentsTable db)
         end.
Proof.
  intros Hnames Hiso. unfold exportStudents, bind, getStudents, ret.
  eexists. split; [reflexivity |].
  rewrite string_app_assoc. rewrite lines_app by reflexivity.
  change (LF ++ ?x) with (String (ascii_of_nat 10) x).
  cbn [lines]. rewrite Ascii.eqb_refl. cbn [hd tl]. f_equal.
  remember (studentsTable db) as students eqn:E. clear E.
  destruct students as [| s ss]; [reflexivity |].
  cbn [map]. apply (lines_concat (student_csv_row toISOString s)).
  change (Forall (fun x => no_LF x = true)
            (map (student_csv_row toISOString) (s :: ss))).
  apply Forall_map, Forall_forall. intros x Hx. unfold student_csv_row.
  destruct (no_LF_enums (Student.class_level x) (Student.class_section x)
              Present F2) as (Hl & Hc & _ & _).
  rewrite !no_LF_app, no_LF_Number_toString, !Hiso, Hl, Hc, (Hnames x Hx).
  reflexivity.
Qed.

Lemma exportStudents_lines_witness :
  exists csv : string,
    exportStudents (fun _ => "2024-01-15T00:00:00.000Z") Sample.db0
    = (Returned csv, Sample.db0) /\
    List.length (lines csv) = 3.
Proof.
  destruct (exportStudents_lines (fun _ => "2024-01-15T00:00:00.000Z")
              Sample.db0) as (csv & Hrun & Hlines).
  - intros s Hs. cbn in Hs. destruct Hs as [<- | [<- | []]]; reflexivity.
  - intros d. reflexivity.
  - exists csv. split; [exact Hrun |]. rewrite Hlines. reflexivity.
Defined.

(* --------------------------------------------------------------------- *)
(** ** Duty schedules                                                    *)
(* --------------------------------------------------------------------- *)

(** X17.  [createDutySchedule] throws "Teacher not found" and leaves the
    store as it is when no teacher has the [teacher_id] of the input.
    When one has, it adds one schedule with the values of the input to
    the end of the table and returns it; in a store whose schedules are
    below the sequence, [getDutyScheduleById] with the id of the new
    schedule then returns it, and [getDutySchedulesByTeacher] returns the
    schedules the teacher had followed by it. *)
Theorem createDutySchedule_then_lookup (now : Date)
    (input : CreateDutyScheduleInput.t) (s : Store) :
  ((forall t, In t (teachersTable (tables s)) ->
              Teacher.id t <> CreateDutyScheduleInput.teacher_id input) ->
   createDutySchedule now input s = (Thrown "Teacher not found", s))
  /\
  ((exists t, In t (teachersTable (tables s)) /\
              Teacher.id t = CreateDutyScheduleInput.teacher_id input) ->
   Forall (fun d => DutySchedule.id d < duty_schedules_id_seq s)
     (dutySchedulesTable (tables s)) ->
   exists (row : DutySchedule.t) (s' : Store),
     createDutySchedule now input s = (Returned row, s') /\
     row = DutySchedule.mk (duty_schedules_id_seq s)
             (CreateDutyScheduleInput.teacher_id input)
             (CreateDutyScheduleInput.duty_date input)
             (CreateDutyScheduleInput.floor input) now now /\
     dutySchedulesTable (tables s')
     = (dutySchedulesTable (tables s) ++ [row])%list /\
     teachersTable (tables s') = teachersTable (tables s) /\
     studentsTable (tables s') = studentsTable (tables s) /\
     attendanceRecordsTable (tables s') = attendanceRecordsTable (tables s) /\
     getDutyScheduleById (DutySchedule.id row) (tables s')
     = (Returned (Some row), tables s') /\
     exists before : list DutySchedule.t,
       getDutySchedulesByTeacher (CreateDutyScheduleInput.teacher_id input)
         (tables s) = (Returned before, tables s) /\
       getDutySchedulesByTeacher (CreateDutyScheduleInput.teacher_id input)
         (tables s') = (Returned (before ++ [row])%list, tables s')).
Proof.
  unfold createDutySchedule. rewrite select_length_0.
  destruct (existsb _ (teachersTable (tables s))) eqn:Ex; cbn [negb].
  - apply existsb_exists in Ex. destruct Ex as (t & Ht & Hid).
    apply Nat.eqb_eq in Hid.
    split; [intros H; exfalso; exact (H t Ht Hid) |].
    intros _ Hlt. eexists. eexists.
    split; [reflexivity |]. split; [reflexivity |].
    cbn [tables with_duty_schedules dutySchedulesTable teachersTable
         studentsTable attendanceRecordsTable].
    do 4 (split; [reflexivity |]). split.
    + unfold getDutyScheduleById, bind, select, ret.
      cbn [dutySchedulesTable with_duty_schedules DutySchedule.id].
      rewrite filter_app. cbn [filter DutySchedule.id]. rewrite Nat.eqb_refl.
      rewrite filter_none; [reflexivity |].
      apply not_true_is_false. intros C. apply existsb_exists in C.
      destruct C as (x & Hx & E). apply Nat.eqb_eq in E.
      rewrite Forall_forall in Hlt. specialize (Hlt x Hx). lia.
    + eexists. split; [reflexivity |].
      unfold getDutySchedulesByTeacher, select.
      cbn [dutySchedulesTable with_duty_schedules]. rewrite filter_app.
      cbn [filter DutySchedule.teacher_id]. rewrite Nat.eqb_refl. reflexivity.
  - split; [reflexivity |].
    intros (t & Ht & Hid) _. exfalso.
    assert (C : existsb (fun t => Nat.eqb (Teacher.id t)
                                    (CreateDutyScheduleInput.teacher_id input))
                  (teachersTable (tables s)) = true).
    { apply existsb_exists. exists t. split; [exact Ht |].
      apply Nat.eqb_eq. exact Hid. }
    congruence.
Qed.

Lemma createDutySchedule_then_lookup_witness :
  createDutySchedule 7%Z (CreateDutyScheduleInput.mk 99 8%Z F3) sample_store
  = (Thrown "Teacher not found", sample_store)
  /\
  exists (row : DutySchedule.t) (s' : Store),
    createDutySchedule 7%Z (CreateDutyScheduleInput.mk 1 8%Z F3) sample_store
    = (Returned row, s') /\
    getDutyScheduleById 2 (tables s') = (Returned (Some row), tables s') /\
    getDutySchedulesByTeacher 1 (tables s')
    = (Returned [Sample.schedule1; row], tables s').
Proof.
  split.
  - apply (createDutySchedule_then_lookup 7%Z
             (CreateDutyScheduleInput.mk 99 8%Z F3) sample_store).
    intros t Ht. cbn in Ht. destruct Ht as [<- | []]. discriminate.
  - destruct (createDutySchedule_then_lookup 7%Z
                (CreateDutyScheduleInput.mk 1 8%Z F3) sample_store) as (_ & H).
    destruct H as (row & s' & Hrun & Hrow & _ & _ & _ & _ & Hget & before & Hb & Ha).
    + exists Sample.teacher1. split; [left; reflexivity | reflexivity].
    + cbn. repeat constructor.
    + exists row, s'. split; [exact Hrun |]. subst row.
      split; [exact Hget |].
      cbn in Hb. injection Hb as <-. exact Ha.
Defined.

(* --------------------------------------------------------------------- *)
(** ** The keys of the store, kept by every call                         *)
(* --------------------------------------------------------------------- *)

Lemma has_student_ids (db : Db) (id : nat) :
  has_student db id <-> In id (map Student.id (studentsTable db)).
Proof.
  unfold has_student. rewrite in_map_iff.
  split; intros (s & H1 & H2); exists s; tauto.
Qed.

Lemma has_duty_schedule_ids (db : Db) (id : nat) :
  has_duty_schedule db id <-> In id (map DutySchedule.id (dutySchedulesTable db)).
Proof.
  unfold has_duty_schedule. rewrite in_map_iff.
  split; intros (s & H1 & H2); exists s; tauto.
Qed.

Lemma Forall_filter {R} (P : R -> Prop) (p : R -> bool) (rows : list R) :
  Forall P rows -> Forall P (filter p rows).
Proof.
  rewrite !Forall_forall. intros H x Hx. apply H. apply filter_In in Hx. apply Hx.
Qed.

(** When the database refuses the delete of a duty schedule. *)
Lemma deleteDutySchedule_refused (id : nat) (db : Db) :
  existsb (fun d => existsb (fun a => Nat.eqb
                                        (AttendanceRecord.duty_schedule_id a)
                                        (DutySchedule.id d))
                      (attendanceRecordsTable db))
    (filter (fun d => Nat.eqb (DutySchedule.id d) id) (dutySchedulesTable db))
  = true
  <->
  has_duty_schedule db id /\
  exists a, In a (attendanceRecordsTable db)
            /\ AttendanceRecord.duty_schedule_id a = id.
Proof.
  rewrite existsb_exists. unfold has_duty_schedule. split.
  - intros (s & Hs & Ha). apply filter_In in Hs. destruct Hs as (Hs & Hid).
    apply Nat.eqb_eq in Hid. apply existsb_exists in Ha.
    destruct Ha as (a & Ha & Hr). apply Nat.eqb_eq in Hr.
    split; [exists s; tauto | exists a; split; [exact Ha | congruence]].
  - intros ((s & Hs & Hid) & (a & Ha & Hr)). exists s. split.
    + apply filter_In. split; [exact Hs | apply Nat.eqb_eq; exact Hid].
    + apply existsb_exists. exists a. split; [exact Ha |].
      apply Nat.eqb_eq. congruence.
Qed.

(** The calls on the attendance records keep the keys. *)
Lemma attendance_calls_keep_keys (s : Store) (db' : Db) :
  keyed s ->
  teachersTable db' = teachersTable (tables s) ->
  studentsTable db' = studentsTable (tables s) ->
  dutySchedulesTable db' = dutySchedulesTable (tables s) ->
  primary_key db' ->
  (forall a, In a (attendanceRecordsTable db') ->
             has_student (tables s) (AttendanceRecord.student_id a) /\
             has_duty_schedule (tables s) (AttendanceRecord.duty_schedule_id a)) ->
  keyed (mkStore db' (students_id_seq s) (duty_schedules_id_seq s)).
Proof.
  intros (_ & Hs & Hd & _) Et Es Ed Hpk Hfk. unfold keyed.
  cbn [tables students_id_seq duty_schedules_id_seq].
  rewrite Es, Ed. split; [exact Hpk |]. split; [exact Hs |].
  split; [exact Hd |]. intros a Ha. destruct (Hfk a Ha) as (H1 & H2).
  split.
  - apply has_student_ids. rewrite Es. apply has_student_ids. exact H1.
  - apply has_duty_schedule_ids. rewrite Ed. apply has_duty_schedule_ids.
    exact H2.
Qed.

Lemma store_eta (s : Store) :
  mkStore (tables s) (students_id_seq s) (duty_schedules_id_seq s) = s.
Proof. destruct s. reflexivity. Qed.

Lemma createAttendanceRecord_keeps_keys (now : Date)
    (input : CreateAttendanceRecordInput.t) (s : Store) :
  keyed s -> keyed (snd (on_tables (createAttendanceRecord now input) s)).
Proof.
  intros Hk. unfold on_tables. cbn [snd]. rewrite createAttendanceRecord_run.
  destruct (existsb _ (dutySchedulesTable (tables s))) eqn:Ed;
    [| cbn [snd]; rewrite store_eta; exact Hk].
  destruct (existsb _ (studentsTable (tables s))) eqn:Es;
    [| cbn [snd]; rewrite store_eta; exact Hk].
  unfold insert_attendance_record. cbn [snd].
  pose proof Hk as ((Hnd & Hlt) & _ & _ & Hfk).
  apply attendance_calls_keep_keys; try reflexivity; try exact Hk.
  - unfold primary_key. cbn [attendanceRecordsTable attendance_records_id_seq].
    rewrite map_app. cbn [map AttendanceRecord.id]. split.
    + apply NoDup_snoc; [exact Hnd |]. intros Hin. apply in_map_iff in Hin.
      destruct Hin as (r & Hid & Hr). rewrite Forall_forall in Hlt.
      specialize (Hlt r Hr). lia.
    + apply Forall_app. split.
      * revert Hlt. apply Forall_impl. intros r Hr. lia.
      * constructor; [cbn; lia | constructor].
  - intros a Ha. cbn [attendanceRecordsTable] in Ha. apply in_app_or in Ha.
    destruct Ha as [Ha | [<- | []]]; [apply Hfk; exact Ha |].
    cbn [AttendanceRecord.student_id AttendanceRecord.duty_schedule_id].
    split; [apply has_student_existsb | apply has_duty_schedule_existsb];
      assumption.
Qed.

Lemma updateAttendanceRecord_keeps_keys (now : Date)
    (input : UpdateAttendanceRecordInput.t) (s : Store) :
  keyed s -> keyed (snd (on_tables (updateAttendanceRecord now input) s)).
Proof.
  intros Hk. unfold on_tables. cbn [snd]. rewrite updateAttendanceRecord_run.
  cbn zeta.
  destruct (existsb _ (attendanceRecordsTable (tables s)));
    [| cbn [snd]; rewrite store_eta; exact Hk].
  cbn [snd]. pose proof Hk as ((Hnd & Hlt) & _ & _ & Hfk).
  set (g := fun r : AttendanceRecord.t =>
              if Nat.eqb (AttendanceRecord.id r)
                         (UpdateAttendanceRecordInput.id input)
              then set_row (build_updateData now input) r else r).
  assert (Hg : forall r, AttendanceRecord.id (g r) = AttendanceRecord.id r /\
                         AttendanceRecord.student_id (g r)
                         = AttendanceRecord.student_id r /\
                         AttendanceRecord.duty_schedule_id (g r)
                         = AttendanceRecord.duty_schedule_id r).
  { intros r. unfold g. destruct (Nat.eqb (AttendanceRecord.id r) _);
      repeat split. }
  pose proof (update_Permutation
                (fun r => Nat.eqb (AttendanceRecord.id r)
                            (UpdateAttendanceRecordInput.id input))
                (set_row (build_updateData now input))
                (attendanceRecordsTable (tables s))) as Hperm.
  cbn beta in Hperm.
  change (fun r : AttendanceRecord.t =>
            if Nat.eqb (AttendanceRecord.id r)
                       (UpdateAttendanceRecordInput.id input)
            then set_row (build_updateData now input) r else r)
    with g in Hperm.
  apply attendance_calls_keep_keys; try reflexivity; try exact Hk.
  - unfold primary_key. cbn [attendanceRecordsTable attendance_records_id_seq].
    split.
    + eapply Permutation_NoDup; [| exact Hnd]. apply Permutation_sym.
      apply (Permutation_map_keep AttendanceRecord.id g);
        [exact Hperm | intros r; apply Hg].
    + apply Forall_forall. intros r Hr.
      apply (Permutation_in _ Hperm) in Hr. apply in_map_iff in Hr.
      destruct Hr as (old & <- & Hold). destruct (Hg old) as (-> & _).
      rewrite Forall_forall in Hlt. apply Hlt. exact Hold.
  - intros a Ha. cbn [attendanceRecordsTable] in Ha.
    apply (Permutation_in _ Hperm) in Ha. apply in_map_iff in Ha.
    destruct Ha as (r & <- & Hr). destruct (Hg r) as (_ & -> & ->).
    apply Hfk. exact Hr.
Qed.

Lemma deleteAttendanceRecord_keeps_keys (id : nat) (s : Store) :
  keyed s -> keyed (snd (on_tables (deleteAttendanceRecord id) s)).
Proof.
  intros Hk. unfold on_tables. cbn [snd]. rewrite deleteAttendanceRecord_run.
  destruct (existsb _ (attendanceRecordsTable (tables s)));
    [| cbn [snd]; rewrite store_eta; exact Hk].
  cbn [snd]. pose proof Hk as ((Hnd & Hlt) & _ & _ & Hfk).
  apply attendance_calls_keep_keys; try reflexivity; try exact Hk.
  - unfold primary_key. cbn [attendanceRecordsTable attendance_records_id_seq].
    split; [apply NoDup_map_filter; exact Hnd | apply Forall_filter; exact Hlt].
  - intros a Ha. cbn [attendanceRecordsTable] in Ha. apply filter_In in Ha.
    apply Hfk. apply Ha.
Qed.

(** The calls on the students keep the keys, where they give a keyed
    table that still has the students of the attendance records. *)
Lemma students_calls_keep_keys (s : Store) (students' : list Student.t)
    (seq' : nat) :
  keyed s ->
  NoDup (map Student.id students') ->
  Forall (fun x => Student.id x < seq') students' ->
  (forall a, In a (attendanceRecordsTable (tables s)) ->
             In (AttendanceRecord.student_id a) (map Student.id students')) ->
  keyed (mkStore (with_students (tables s) students') seq'
           (duty_schedules_id_seq s)).
Proof.
  intros (Hpk & _ & Hd & Hfk) Hnd Hlt Href. unfold keyed.
  cbn [tables students_id_seq duty_schedules_id_seq with_students
       studentsTable dutySchedulesTable attendanceRecordsTable].
  split; [exact Hpk |]. split; [split; assumption |]. split; [exact Hd |].
  intros a Ha. split.
  - apply has_student_ids. cbn [studentsTable]. apply Href. exact Ha.
  - apply has_duty_schedule_ids. cbn [dutySchedulesTable].
    apply has_duty_schedule_ids. apply Hfk. exact Ha.
Qed.

Lemma duty_schedules_calls_keep_keys (s : Store)
    (schedules' : list DutySchedule.t) (seq' : nat) :
  keyed s ->
  NoDup (map DutySchedule.id schedules') ->
  Forall (fun x => DutySchedule.id x < seq') schedules' ->
  (forall a, In a (attendanceRecordsTable (tables s)) ->
             In (AttendanceRecord.duty_schedule_id a)
                (map DutySchedule.id schedules')) ->
  keyed (mkStore (with_duty_schedules (tables s) schedules')
           (students_id_seq s) seq').
Proof.
  intros (Hpk & Hs & _ & Hfk) Hnd Hlt Href. unfold keyed.
  cbn [tables students_id_seq duty_schedules_id_seq with_duty_schedules
       studentsTable dutySchedulesTable attendanceRecordsTable].
  split; [exact Hpk |]. split; [exact Hs |]. split; [split; assumption |].
  intros a Ha. split.
  - apply has_student_ids. cbn [studentsTable].
    apply has_student_ids. apply Hfk. exact Ha.
  - apply has_duty_schedule_ids. cbn [dutySchedulesTable]. apply Href. exact Ha.
Qed.

Lemma insert_students_keeps_keys (now : Date)
    (values : list CreateStudentInput.t) (s : Store) :
  keyed s -> keyed (snd (insert_students now values s)).
Proof.
  intros Hk. unfold insert_students. cbn [snd].
  pose proof Hk as (_ & (Hnd & Hlt) & _ & Hfk).
  apply students_calls_keep_keys; [exact Hk | | |].
  - rewrite map_app, student_rows_ids. apply NoDup_app.
    + exact Hnd.
    + apply seq_NoDup.
    + intros id Hin Hseq. apply in_seq in Hseq. apply in_map_iff in Hin.
      destruct Hin as (x & <- & Hx). rewrite Forall_forall in Hlt.
      specialize (Hlt x Hx). lia.
  - apply Forall_app. split.
    + revert Hlt. apply Forall_impl. intros x Hx. lia.
    + apply Forall_forall. intros x Hx.
      assert (Hid : In (Student.id x)
                      (seq (students_id_seq s) (List.length values))).
      { rewrite <- (student_rows_ids now). apply in_map. exact Hx. }
      apply in_seq in Hid. lia.
  - intros a Ha. rewrite map_app. apply in_or_app. left.
    apply has_student_ids. apply Hfk. exact Ha.
Qed.

Lemma updateStudent_keeps_keys (now : Date) (input : UpdateStudentInput.t)
    (s : Store) :
  keyed s -> keyed (snd (on_tables (updateStudent now input) s)).
Proof.
  intros Hk. unfold on_tables. cbn [snd]. rewrite updateStudent_run. cbn zeta.
  destruct (filter _ (studentsTable (tables s))) as [| s0 rest] eqn:Ef;
    [cbn [snd]; rewrite store_eta; exact Hk |].
  cbn [snd]. rewrite <- Ef. pose proof Hk as (_ & (Hnd & Hlt) & _ & Hfk).
  set (g := fun x : Student.t =>
              if Nat.eqb (Student.id x) (UpdateStudentInput.id input)
              then set_student now input x else x).
  assert (Hg : forall x, Student.id (g x) = Student.id x).
  { intros x. unfold g. destruct (Nat.eqb (Student.id x) _); reflexivity. }
  pose proof (update_Permutation
                (fun x => Nat.eqb (Student.id x) (UpdateStudentInput.id input))
                (set_student now input) (studentsTable (tables s))) as Hperm.
  cbn beta in Hperm.
  change (fun r : Student.t =>
            if Nat.eqb (Student.id r) (UpdateStudentInput.id input)
            then set_student now input r else r)
    with g in Hperm.
  pose proof (Permutation_map_keep Student.id g _ _ Hperm Hg) as Hids.
  apply students_calls_keep_keys; [exact Hk | | |].
  - eapply Permutation_NoDup; [apply Permutation_sym; exact Hids | exact Hnd].
  - apply Forall_forall. intros x Hx.
    apply (Permutation_in _ Hperm) in Hx. apply in_map_iff in Hx.
    destruct Hx as (old & <- & Hold). rewrite Hg.
    rewrite Forall_forall in Hlt. apply Hlt. exact Hold.
  - intros a Ha.
    apply (Permutation_in _ (Permutation_sym Hids)).
    apply has_student_ids. apply Hfk. exact Ha.
Qed.

Lemma deleteStudent_keeps_keys (violation : string) (id : nat) (s : Store) :
  keyed s -> keyed (snd (on_tables (deleteStudent violation id) s)).
Proof.
  intros Hk. unfold on_tables, deleteStudent. cbn zeta.
  pose proof (deleteStudent_refused id (tables s)) as Href.
  destruct (existsb _ (filter _ (studentsTable (tables s)))) eqn:Eref;
    [cbn [snd]; rewrite store_eta; exact Hk |].
  cbn [snd]. pose proof Hk as (_ & (Hnd & Hlt) & _ & Hfk).
  apply students_calls_keep_keys; [exact Hk | | |].
  - apply NoDup_map_filter. exact Hnd.
  - apply Forall_filter. exact Hlt.
  - intros a Ha. destruct (Hfk a Ha) as ((x & Hx & Hid) & _).
    apply in_map_iff. exists x. split; [exact Hid |].
    apply filter_In. split; [exact Hx |].
    apply negb_true_iff, Nat.eqb_neq. intros E.
    assert (C : false = true).
    { apply Href. split.
      - exists x. split; assumption.
      - exists a. split; [exact Ha | congruence]. }
    discriminate C.
Qed.

Lemma createDutySchedule_keeps_keys (now : Date)
    (input : CreateDutyScheduleInput.t) (s : Store) :
  keyed s -> keyed (snd (createDutySchedule now input s)).
Proof.
  intros Hk. unfold createDutySchedule.
  destruct (Nat.eqb (List.length _) 0); [exact Hk |].
  cbn [snd]. pose proof Hk as (_ & _ & (Hnd & Hlt) & Hfk).
  apply duty_schedules_calls_keep_keys; [exact Hk | | |].
  - rewrite map_app. cbn [map DutySchedule.id]. apply NoDup_snoc; [exact Hnd |].
    intros Hin. apply in_map_iff in Hin. destruct Hin as (x & Hid & Hx).
    rewrite Forall_forall in Hlt. specialize (Hlt x Hx). lia.
  - apply Forall_app. split.
    + revert Hlt. apply Forall_impl. intros x Hx. lia.
    + constructor; [cbn; lia | constructor].
  - intros a Ha. rewrite map_app. apply in_or_app. left.
    apply has_duty_schedule_ids. apply Hfk. exact Ha.
Qed.

Lemma deleteDutySchedule_keeps_keys (violation : string) (id : nat) (s : Store) :
  keyed s -> keyed (snd (on_tables (deleteDutySchedule violation id) s)).
Proof.
  intros Hk. unfold on_tables, deleteDutySchedule. cbn zeta.
  pose proof (deleteDutySchedule_refused id (tables s)) as Href.
  destruct (existsb _ (filter _ (dutySchedulesTable (tables s)))) eqn:Eref;
    [cbn [snd]; rewrite store_eta; exact Hk |].
  cbn [snd]. pose proof Hk as (_ & _ & (Hnd & Hlt) & Hfk).
  apply duty_schedules_calls_keep_keys; [exact Hk | | |].
  - apply NoDup_map_filter. exact Hnd.
  - apply Forall_filter. exact Hlt.
  - intros a Ha. destruct (Hfk a Ha) as (_ & (x & Hx & Hid)).
    apply in_map_iff. exists x. split; [exact Hid |].
    apply filter_In. split; [exact Hx |].
    apply negb_true_iff, Nat.eqb_neq. intros E.
    assert (C : false = true).
    { apply Href. split.
      - exists x. split; assumption.
      - exists a. split; [exact Ha | congruence]. }
    discriminate C.
Qed.

(** X18.  Whatever calls are made, in whatever order and whether they go
    through or throw, the store stays keyed: no two rows of
    [attendance_records], of [students] or of [duty_schedules] share an
    id, the sequences stay ahead of the ids, and every attendance record
    has its student and its duty schedule. *)
Theorem calls_keep_keys (violation : string) (calls : list call) (s : Store) :
  keyed s -> keyed (exec_all violation calls s).
Proof.
  revert s. induction calls as [| c cs IH]; intros s Hk; [exact Hk |].
  cbn [exec_all fold_left]. apply IH. destruct c; cbn [exec].
  - apply createAttendanceRecord_keeps_keys. exact Hk.
  - apply updateAttendanceRecord_keeps_keys. exact Hk.
  - apply deleteAttendanceRecord_keeps_keys. exact Hk.
  - pose proof (insert_students_keeps_keys now [input] s Hk) as H.
    unfold insert_students in H. cbn [student_rows List.length snd] in H.
    rewrite Nat.add_1_r in H. exact H.
  - apply updateStudent_keeps_keys. exact Hk.
  - apply deleteStudent_keeps_keys. exact Hk.
  - rewrite bulkImportStudents_run. cbn [snd].
    exact (insert_students_keeps_keys now students s Hk).
  - apply createDutySchedule_keeps_keys. exact Hk.
  - apply deleteDutySchedule_keeps_keys. exact Hk.
Qed.

Lemma sample_store_keyed : keyed sample_store.
Proof.
  unfold keyed, primary_key, sample_store.
  cbn [tables students_id_seq duty_schedules_id_seq].
  split; [split |]; [| | split; [split |]; [| | split; [split |]]].
  - cbn. repeat constructor; cbn; intuition discriminate.
  - cbn. repeat constructor.
  - cbn. repeat constructor; cbn; intuition discriminate.
  - cbn. repeat constructor.
  - cbn. repeat constructor; cbn; intuition discriminate.
  - cbn. repeat constructor.
  - intros r Hr. cbn in Hr. destruct Hr as [<- | [<- | []]]; split;
      (apply has_student_existsb || apply has_duty_schedule_existsb);
      reflexivity.
Qed.

Lemma calls_keep_keys_witness :
  keyed
    (exec_all "violates foreign key constraint"
       [DeleteStudent 2;
        DeleteAttendanceRecord 2;
        DeleteStudent 2;
        BulkImportStudents 7%Z [CreateStudentInput.mk "New Student" L8 C;
                                CreateStudentInput.mk "Other Student" L9 G];
        CreateAttendanceRecord 8%Z
          (CreateAttendanceRecordInput.mk 1 3 Permission false undefined);
        DeleteDutySchedule 1]
       sample_store).
Proof.
  apply (calls_keep_keys "violates foreign key constraint"
           [DeleteStudent 2;
            DeleteAttendanceRecord 2;
            DeleteStudent 2;
            BulkImportStudents 7%Z [CreateStudentInput.mk "New Student" L8 C;
                                    CreateStudentInput.mk "Other Student" L9 G];
            CreateAttendanceRecord 8%Z
              (CreateAttendanceRecordInput.mk 1 3 Permission false undefined);
            DeleteDutySchedule 1]
           sample_store).
  exact sample_store_keyed.
Defined.

(** The store after the calls of the witness: the first delete of
    student 2 is refused, the second goes through; the delete of the
    duty schedule is refused. *)
Example calls_on_sample_store :
  let s := exec_all "violates foreign key constraint"
             [DeleteStudent 2;
              DeleteAttendanceRecord 2;
              DeleteStudent 2;
              BulkImportStudents 7%Z [CreateStudentInput.mk "New Student" L8 C;
                                      CreateStudentInput.mk "Other Student" L9 G];
              CreateAttendanceRecord 8%Z
                (CreateAttendanceRecordInput.mk 1 3 Permission false undefined);
              DeleteDutySchedule 1]
             sample_store in
  map Student.id (studentsTable (tables s)) = [1; 3; 4] /\
  map AttendanceRecord.id (attendanceRecordsTable (tables s)) = [1; 3] /\
  map DutySchedule.id (dutySchedulesTable (tables s)) = [1] /\
  students_id_seq s = 5.
Proof. cbn. repeat split. Qed.

(* --------------------------------------------------------------------- *)
(** ** What a save records                                               *)
(* --------------------------------------------------------------------- *)








(* --------------------------------------------------------------------- *)
(** ** The attendance row                                                *)
(* --------------------------------------------------------------------- *)



(** The effect on [attendanceRecord] of a row: a record sets the row as
    a mount with that record does; with no record the row keeps what it
    shows, and only [hasChanges] is reset. *)
Lemma row_effect_cases (row : Row.t) :
  (forall r : AttendanceRecord.t, row_effect (Some r) row = row_of (Some r)) /\
  Row.status (row_effect None row) = Row.status row /\
  Row.isLate (row_effect None row) = Row.isLate row /\
  Row.notes (row_effect None row) = Row.notes row /\
  Row.hasChanges (row_effect None row) = false.
Proof. repeat split. Qed.

(** The summary after the save of the witness: the record of student 1
    is sick and still counted as late. *)
Example summary_counts_late_sick :
  fst (getAttendanceSummary 1
         (snd (handleSave 9%Z 1
                 (row_step (StatusChange Sick) (row_of (Some Sample.record1)))
                 (Client.mk [Sample.schedule1] (Some Sample.schedule1)
                    [Sample.student1; Sample.student2]
                    [Sample.record1; Sample.record2])
                 Sample.db2)))
  = Returned (AttendanceSummary.mk 2 0 1 0 1 1).
Proof. reflexivity. Qed.

(* --------------------------------------------------------------------- *)
(** ** The students list of the client                                   *)
(* --------------------------------------------------------------------- *)

Lemma handleAddStudent_shown (now : Date) (formData : CreateStudentInput.t)
    (c : list Student.t * Store) :
  students_shown c ->
  students_shown (handleAddStudent now formData (fst c) (snd c)).
Proof.
  intros (Hk & Hsame). unfold handleAddStudent.
  destruct (createStudentInputSchema formData); [| split; assumption].
  unfold createStudent. split.
  - cbn [snd].
    pose proof (insert_students_keeps_keys now [formData] (snd c) Hk) as H.
    unfold insert_students in H. cbn [student_rows List.length snd] in H.
    rewrite Nat.add_1_r in H. exact H.
  - cbn [fst snd tables with_students studentsTable].
    apply Permutation_app_tail. exact Hsame.
Qed.

Lemma handleEditStudent_shown (now : Date) (editFormData : UpdateStudentInput.t)
    (c : list Student.t * Store) :
  students_shown c ->
  students_shown (handleEditStudent now editFormData (fst c) (snd c)).
Proof.
  intros (Hk & Hsame). unfold handleEditStudent.
  destruct (updateStudentInputSchema editFormData); [| split; assumption].
  pose proof (updateStudent_keeps_keys now editFormData (snd c) Hk) as Hk'.
  unfold on_tables in *. cbn [snd] in Hk'. rewrite updateStudent_run in *.
  cbn zeta in *.
  destruct (filter _ (studentsTable (tables (snd c)))) as [| s0 rest] eqn:Hf.
  - cbn [fst snd] in *. rewrite store_eta. split; assumption.
  - cbn [fst snd] in *. split; [exact Hk' |].
    cbn [fst snd tables with_students studentsTable]. rewrite <- Hf.
    eapply Permutation_trans; [apply Permutation_map; exact Hsame |].
    eapply Permutation_trans;
      [| apply Permutation_sym;
         apply (update_Permutation
                  (fun s => Nat.eqb (Student.id s)
                              (UpdateStudentInput.id editFormData)))].
    erewrite map_ext_in; [apply Permutation_refl |].
    intros x Hx. cbn [set_student Student.id].
    assert (H0 : In s0 (filter (fun s => Nat.eqb (Student.id s)
                                           (UpdateStudentInput.id editFormData))
                          (studentsTable (tables (snd c)))))
      by (rewrite Hf; left; reflexivity).
    apply filter_In in H0. destruct H0 as (Hin0 & Hid0).
    apply Nat.eqb_eq in Hid0. rewrite Hid0.
    destruct (Nat.eqb_spec (Student.id x) (UpdateStudentInput.id editFormData))
      as [E | E]; [| reflexivity].
    f_equal. symmetry. destruct Hk as (_ & (Hnd & _) & _).
    apply (NoDup_map_eq Student.id (studentsTable (tables (snd c))));
      try assumption. congruence.
Qed.

Lemma handleDeleteStudent_shown (violation : string) (id : nat)
    (c : list Student.t * Store) :
  students_shown c ->
  students_shown (handleDeleteStudent violation id (fst c) (snd c)).
Proof.
  intros (Hk & Hsame). unfold handleDeleteStudent.
  pose proof (deleteStudent_keeps_keys violation id (snd c) Hk) as Hk'.
  unfold on_tables in *. cbn [snd] in Hk'. unfold deleteStudent in *.
  cbn zeta in *.
  destruct (existsb _ (filter _ (studentsTable (tables (snd c))))).
  - cbn [fst snd] in *. rewrite store_eta. split; assumption.
  - cbn [fst snd] in *. split; [exact Hk' |].
    cbn [fst snd tables with_students studentsTable].
    apply filter_Permutation. exact Hsame.
Qed.

(** X22.  The students list of the component keeps the rows of the
    students table of the store: loaded from a keyed store, it has the
    rows of the table, each once, after every sequence of adding, editing
    and deleting students, whether a call goes through, is rejected for
    an empty name, or is refused by the database.  (The order can differ:
    an edited student stays in its place in the list.) *)
Theorem students_list_shows_store (violation : string)
    (es : list students_event) (s : Store) :
  keyed s ->
  Permutation
    (fst (students_run violation es (studentsTable (tables s), s)))
    (studentsTable
       (tables (snd (students_run violation es (studentsTable (tables s), s))))).
Proof.
  intros Hk.
  assert (H : forall c, students_shown c ->
                        students_shown (students_run violation es c)).
  { induction es as [| e es IH]; intros c Hc; [exact Hc |].
    cbn [students_run fold_left]. apply IH. destruct e; cbn [students_step].
    - apply handleAddStudent_shown. exact Hc.
    - apply handleEditStudent_shown. exact Hc.
    - apply handleDeleteStudent_shown. exact Hc. }
  apply (H (studentsTable (tables s), s)).
  split; [exact Hk | apply Permutation_refl].
Qed.

Lemma students_list_shows_store_witness :
  Permutation
    (fst (students_run "violates foreign key constraint"
            [AddStudent 7%Z (CreateStudentInput.mk "New Student" L8 C);
             AddStudent 7%Z (CreateStudentInput.mk "" L8 C);
             EditStudent 8%Z (UpdateStudentInput.mk 1 undefined (defined L9)
                                (defined G));
             RemoveStudent 2;
             RemoveStudent 3]
            (studentsTable (tables sample_store), sample_store)))
    (studentsTable
       (tables
          (snd (students_run "violates foreign key constraint"
                  [AddStudent 7%Z (CreateStudentInput.mk "New Student" L8 C);
                   AddStudent 7%Z (CreateStudentInput.mk "" L8 C);
                   EditStudent 8%Z (UpdateStudentInput.mk 1 undefined
                                      (defined L9) (defined G));
                   RemoveStudent 2;
                   RemoveStudent 3]
                  (studentsTable (tables sample_store), sample_store))))).
Proof.
  apply (students_list_shows_store "violates foreign key constraint"
           [AddStudent 7%Z (CreateStudentInput.mk "New Student" L8 C);
            AddStudent 7%Z (CreateStudentInput.mk "" L8 C);
            EditStudent 8%Z (UpdateStudentInput.mk 1 undefined (defined L9)
                               (defined G));
            RemoveStudent 2;
            RemoveStudent 3]
           sample_store).
  exact sample_store_keyed.
Defined.

(** The list and the table after the events of the witness: the student
    of the empty name is not added, student 2 has a record and stays,
    student 3 goes; the edited student 1 is first in the list and last in
    the table. *)
Example students_list_after_events :
  let c :=
    students_run "violates foreign key constraint"
      [AddStudent 7%Z (CreateStudentInput.mk "New Student" L8 C);
       AddStudent 7%Z (CreateStudentInput.mk "" L8 C);
       EditStudent 8%Z (UpdateStudentInput.mk 1 undefined (defined L9)
                          (defined G));
       RemoveStudent 2;
       RemoveStudent 3]
      (studentsTable (tables sample_store), sample_store) in
  fst c = [Student.mk 1 "Test Student" L9 G 0%Z 8%Z; Sample.student2] /\
  studentsTable (tables (snd c))
  = [Sample.student2; Student.mk 1 "Test Student" L9 G 0%Z 8%Z].
Proof. split; reflexivity. Qed.

(* --------------------------------------------------------------------- *)
(** ** Deleting a duty schedule                                          *)
(* --------------------------------------------------------------------- *)

(** X23.  [deleteDutySchedule] returns [false] and leaves the store as it
    is when no schedule has the id.  A schedule without attendance
    records is taken out of the table and [true] is returned.  A
    schedule that has attendance records cannot be deleted: the foreign
    key of [attendance_records.duty_schedule_id] makes the delete fail,
    the handler throws, and the store is as it was; so the records of a
    schedule are never left without it. *)
Theorem deleteDutySchedule_cases (violation : string) (id : nat) (db : Db) :
  (~ has_duty_schedule db id ->
   deleteDutySchedule violation id db = (Returned false, db))
  /\
  (has_duty_schedule db id ->
   (forall a, In a (attendanceRecordsTable db) ->
              AttendanceRecord.duty_schedule_id a <> id) ->
   exists db' : Db,
     deleteDutySchedule violation id db = (Returned true, db') /\
     (forall d, In d (dutySchedulesTable db') <->
                In d (dutySchedulesTable db) /\ DutySchedule.id d <> id) /\
     teachersTable db' = teachersTable db /\
     studentsTable db' = studentsTable db /\
     attendanceRecordsTable db' = attendanceRecordsTable db)
  /\
  (has_duty_schedule db id ->
   (exists a, In a (attendanceRecordsTable db)
              /\ AttendanceRecord.duty_schedule_id a = id) ->
   deleteDutySchedule violation id db = (Thrown violation, db)).
Proof.
  unfold deleteDutySchedule. cbn zeta.
  pose proof (deleteDutySchedule_refused id db) as Href.
  destruct (existsb _ (filter _ (dutySchedulesTable db))) eqn:Eref.
  - destruct (proj1 Href eq_refl) as (Hs & Ha).
    split; [intros C; contradiction |]. split; [| reflexivity].
    intros _ Hnone. destruct Ha as (a & Ha & Hr). exfalso.
    exact (Hnone a Ha Hr).
  - pose proof (has_duty_schedule_existsb db id) as Hex.
    destruct (existsb (fun d => Nat.eqb (DutySchedule.id d) id)
                (dutySchedulesTable db)) eqn:Ex.
    + split; [intros C; exfalso; apply C; apply Hex; reflexivity |].
      split.
      * intros _ _.
        destruct (filter_first _ _ Ex) as (s0 & rest & Hf & _). rewrite Hf.
        eexists. split; [reflexivity |].
        cbn [with_duty_schedules studentsTable teachersTable dutySchedulesTable
             attendanceRecordsTable].
        split; [| repeat split].
        intros s. rewrite filter_In, negb_true_iff, Nat.eqb_neq. reflexivity.
      * intros Hs Ha. assert (C : false = true) by (apply Href; tauto).
        discriminate C.
    + split.
      * intros _. rewrite (filter_none _ _ Ex). cbn [List.length Nat.eqb negb].
        rewrite (filter_negb_none _ _ Ex), with_duty_schedules_same.
        reflexivity.
      * split; intros Hs; apply Hex in Hs; discriminate Hs.
Qed.

Lemma deleteDutySchedule_cases_witness :
  deleteDutySchedule "violates foreign key constraint" 99 Sample.db2
  = (Returned false, Sample.db2)
  /\
  (exists db' : Db,
      deleteDutySchedule "violates foreign key constraint" 1 Sample.db0
      = (Returned true, db') /\
      dutySchedulesTable db' = [])
  /\
  deleteDutySchedule "violates foreign key constraint" 1 Sample.db2
  = (Thrown "violates foreign key constraint", Sample.db2).
Proof.
  split; [| split].
  - apply (deleteDutySchedule_cases "violates foreign key constraint" 99
             Sample.db2).
    rewrite has_duty_schedule_existsb. cbn. discriminate.
  - destruct (deleteDutySchedule_cases "violates foreign key constraint" 1
                Sample.db0) as (_ & H & _).
    destruct H as (db' & Hrun & _).
    + rewrite has_duty_schedule_existsb. reflexivity.
    + intros a [].
    + exists db'. split; [exact Hrun |].
      cbn in Hrun. injection Hrun as <-. reflexivity.
  - apply (deleteDutySchedule_cases "violates foreign key constraint" 1
             Sample.db2).
    + rewrite has_duty_schedule_existsb. reflexivity.
    + exists Sample.record1. split; [left; reflexivity | reflexivity].
Defined.
